(** * RefugeeHostMatch: the server's storage layer and route handlers

    A shallow embedding of [shared/schema.ts], [server/storage.ts] and the
    Express handlers of [server/routes.ts], followed by the properties of
    the profile-approval and contract workflows.

    Conventions of the embedding.
    - A table is the list of its rows, in insertion order.  An [UPDATE ...
      WHERE] rewrites every row that satisfies the condition, a [SELECT ...
      WHERE] keeps the rows that satisfy it.
    - A [serial] column draws its value from a counter kept next to the
      tables; an insert that the foreign key refuses has drawn its value
      all the same.
    - [.references(() => users.id)] is a foreign key: an insert whose
      reference names no user throws.
    - A [serial] key is a 32-bit integer and a [text] or [varchar] value
      holds no U+0000: a statement with a parameter that is no such value
      is refused by Postgres before it runs, and so draws no [serial]
      value either.
    - [new Date()] and [defaultNow()] read the clock; a handler receives one
      clock reading [now] for the whole request.
    - A handler runs its statements one after the other without a
      transaction: what was written before an exception stays written.
    - [isAuthenticated] has already resolved [req.user.claims.sub] (and
      [first_name]); [parseInt(req.params.id)] has produced an integer.
    - Of the handlers, those that write to one of the six tables are
      embedded, and so are the handlers that read them.  The feedback and
      document tables, the statistics and the socket are left out, and so
      is [/api/auth/update-role]: it calls [storage.updateUserRole], which
      [DatabaseStorage] does not define. *)

From Stdlib Require Import ZArith List String Bool Lia.
From Stdlib Require Import Permutation Sorted.
Import ListNotations.

Set Warnings "-register-all".
Local Open Scope Z_scope.
Local Open Scope string_scope.

(** ** shared/schema.ts: enums and rows *)

Inductive UserRole := refugee | host | admin.
Inductive ProfileStatus := pending | approved | rejected.
Inductive ContractStatus :=
  proposed | signed_refugee | signed_host | completed | cancelled.
Inductive MessageStatus := sent | delivered | read.

(** Milliseconds since the epoch. *)
Definition Timestamp := Z.

Definition UserRole_eqb (a b : UserRole) : bool :=
  match a, b with
  | refugee, refugee | host, host | admin, admin => true
  | _, _ => false
  end.

Definition ProfileStatus_eqb (a b : ProfileStatus) : bool :=
  match a, b with
  | pending, pending | approved, approved | rejected, rejected => true
  | _, _ => false
  end.

Definition ContractStatus_eqb (a b : ContractStatus) : bool :=
  match a, b with
  | proposed, proposed | signed_refugee, signed_refugee
  | signed_host, signed_host | completed, completed
  | cancelled, cancelled => true
  | _, _ => false
  end.

(** [users] *)
Record User := {
  users_id : string;
  users_email : option string;
  users_firstName : option string;
  users_lastName : option string;
  users_profileImageUrl : option string;
  users_role : UserRole;
  users_profileStatus : ProfileStatus;
  users_createdAt : option Timestamp;
  users_updatedAt : option Timestamp
}.

(** [refugee_profiles] *)
Record RefugeeProfile := {
  refugeeProfiles_id : Z;
  refugeeProfiles_userId : string;
  refugeeProfiles_familySize : Z;
  refugeeProfiles_estimatedStay : string;
  refugeeProfiles_medicalNeeds : option string;
  refugeeProfiles_specialRequirements : option string;
  refugeeProfiles_languages : option (list string);
  refugeeProfiles_countryOfOrigin : option string;
  refugeeProfiles_phoneNumber : option string;
  refugeeProfiles_emergencyContact : option string;
  refugeeProfiles_additionalInfo : option string;
  refugeeProfiles_createdAt : option Timestamp;
  refugeeProfiles_updatedAt : option Timestamp
}.

(** [host_profiles] *)
Record HostProfile := {
  hostProfiles_id : Z;
  hostProfiles_userId : string;
  hostProfiles_accommodationType : string;
  hostProfiles_maxOccupants : Z;
  hostProfiles_availabilityDuration : string;
  hostProfiles_description : option string;
  hostProfiles_houseRules : option string;
  hostProfiles_amenities : option (list string);
  hostProfiles_location : string;
  hostProfiles_address : option string;
  hostProfiles_phoneNumber : option string;
  hostProfiles_petFriendly : option bool;
  hostProfiles_smokingAllowed : option bool;
  hostProfiles_accessibilityFeatures : option string;
  hostProfiles_criminalRecordChecked : option bool;
  hostProfiles_backgroundCheckDate : option Timestamp;
  hostProfiles_additionalInfo : option string;
  hostProfiles_createdAt : option Timestamp;
  hostProfiles_updatedAt : option Timestamp
}.

(** [messages] *)
Record Message := {
  messages_id : Z;
  messages_senderId : string;
  messages_receiverId : string;
  messages_content : string;
  messages_status : MessageStatus;
  messages_createdAt : option Timestamp;
  messages_readAt : option Timestamp
}.

(** [contracts] *)
Record Contract := {
  contracts_id : Z;
  contracts_refugeeId : string;
  contracts_hostId : string;
  contracts_status : ContractStatus;
  contracts_terms : string;
  contracts_duration : string;
  contracts_startDate : option Timestamp;
  contracts_endDate : option Timestamp;
  contracts_refugeeSignedAt : option Timestamp;
  contracts_hostSignedAt : option Timestamp;
  contracts_adminApprovedAt : option Timestamp;
  contracts_adminApprovedBy : option string;
  contracts_createdAt : option Timestamp;
  contracts_updatedAt : option Timestamp
}.

(** [notifications] *)
Record Notification := {
  notifications_id : Z;
  notifications_userId : string;
  notifications_title : string;
  notifications_content : string;
  notifications_type : string;
  notifications_read : option bool;
  notifications_createdAt : option Timestamp
}.

(** The database: the six tables the handlers touch and the counters behind
    their [serial] keys. *)
Record Db := {
  users : list User;
  refugeeProfiles : list RefugeeProfile;
  hostProfiles : list HostProfile;
  messages : list Message;
  contracts : list Contract;
  notifications : list Notification;
  refugeeProfiles_seq : Z;
  hostProfiles_seq : Z;
  messages_seq : Z;
  contracts_seq : Z;
  notifications_seq : Z
}.

(** ** Request bodies and the insert schemas

    [req.body] is a JavaScript object; a field that is not there reads as
    [undefined]. *)

Inductive JsVal :=
| JUndefined
| JNull
| JBool (b : bool)
| JInt (n : Z)
| JString (s : string)
| JDate (t : Timestamp)
| JArray (l : list JsVal)
| JOther.

Definition Body := list (string * JsVal).

Fixpoint field (b : Body) (k : string) : JsVal :=
  match b with
  | [] => JUndefined
  | (k', v) :: b' => if String.eqb k' k then v else field b' k
  end.

(** Column validators of [createInsertSchema]: [None] is a Zod issue. *)
Definition zString (v : JsVal) : option string :=
  match v with JString s => Some s | _ => None end.

(** An [integer] column holds a 32-bit signed value; a number outside it
    (or with a fraction, [JOther]) is refused by the schema or by the
    insert, and both end in the handler's [catch]. *)
Definition zInteger (v : JsVal) : option Z :=
  match v with
  | JInt n =>
      if ((-2147483648 <=? n) && (n <=? 2147483647))%Z then Some n else None
  | _ => None
  end.

Definition zBoolean (v : JsVal) : option bool :=
  match v with JBool b => Some b | _ => None end.

Definition zDate (v : JsVal) : option Timestamp :=
  match v with JDate t => Some t | _ => None end.

(** A [text().array()] column takes an array of strings.  What the schema
    makes of an element that is no string depends on the release of
    drizzle-zod (it is refused, or turned into a string); it is refused
    here, and the statements on accepted forms are about forms whose
    arrays hold strings. *)
Fixpoint zStrings (l : list JsVal) : option (list string) :=
  match l with
  | [] => Some []
  | v :: l' =>
      match zString v, zStrings l' with
      | Some s, Some ss => Some (s :: ss)
      | _, _ => None
      end
  end.

Definition zStringArray (v : JsVal) : option (list string) :=
  match v with JArray l => zStrings l | _ => None end.

Definition zContractStatus (v : JsVal) : option ContractStatus :=
  match v with
  | JString s =>
      if String.eqb s "proposed" then Some proposed
      else if String.eqb s "signed_refugee" then Some signed_refugee
      else if String.eqb s "signed_host" then Some signed_host
      else if String.eqb s "completed" then Some completed
      else if String.eqb s "cancelled" then Some cancelled
      else None
  | _ => None
  end.

(** A nullable column: [undefined] and [null] are both accepted and both
    are stored as NULL when the column has no default. *)
Definition zNullable {A} (z : JsVal -> option A) (v : JsVal)
  : option (option A) :=
  match v with
  | JUndefined | JNull => Some None
  | _ => match z v with Some a => Some (Some a) | None => None end
  end.

(** A nullable column with a default: [undefined] takes the default,
    [null] is stored as NULL. *)
Definition zNullableDefault {A} (z : JsVal -> option A) (d : A) (v : JsVal)
  : option (option A) :=
  match v with
  | JUndefined => Some (Some d)
  | JNull => Some None
  | _ => match z v with Some a => Some (Some a) | None => None end
  end.

(** A [notNull] column with a default: optional, not nullable. *)
Definition zDefault {A} (z : JsVal -> option A) (d : A) (v : JsVal)
  : option A :=
  match v with
  | JUndefined => Some d
  | _ => z v
  end.

(** ** What Postgres takes as a parameter *)

(** The range of an [integer] or [serial] column. *)
Definition int4 (n : Z) : bool :=
  ((-2147483648 <=? n) && (n <=? 2147483647))%Z.

(** The string holds U+0000. *)
Fixpoint has_nul (s : string) : bool :=
  match s with
  | EmptyString => false
  | String c s' => Ascii.eqb c Ascii.zero || has_nul s'
  end.

(** A value for a [text] or [varchar] column, for a nullable one, and for
    a [text[]] column. *)
Definition text (s : string) : bool := negb (has_nul s).

Definition text_opt (o : option string) : bool :=
  match o with
  | Some s => text s
  | None => true
  end.

Definition text_array (o : option (list string)) : bool :=
  match o with
  | Some l => forallb text l
  | None => true
  end.

(** [InsertRefugeeProfile]: [refugeeProfiles] without [id], [userId],
    [createdAt], [updatedAt]. *)
Record InsertRefugeeProfile := {
  irp_familySize : Z;
  irp_estimatedStay : string;
  irp_medicalNeeds : option string;
  irp_specialRequirements : option string;
  irp_languages : option (list string);
  irp_countryOfOrigin : option string;
  irp_phoneNumber : option string;
  irp_emergencyContact : option string;
  irp_additionalInfo : option string
}.

(** [InsertHostProfile]: [hostProfiles] without [id], [userId],
    [createdAt], [updatedAt]. *)
Record InsertHostProfile := {
  ihp_accommodationType : string;
  ihp_maxOccupants : Z;
  ihp_availabilityDuration : string;
  ihp_description : option string;
  ihp_houseRules : option string;
  ihp_amenities : option (list string);
  ihp_location : string;
  ihp_address : option string;
  ihp_phoneNumber : option string;
  ihp_petFriendly : option bool;
  ihp_smokingAllowed : option bool;
  ihp_accessibilityFeatures : option string;
  ihp_criminalRecordChecked : option bool;
  ihp_backgroundCheckDate : option Timestamp;
  ihp_additionalInfo : option string
}.

(** [InsertContract]: [contracts] without [id], the two signature
    timestamps, [adminApprovedAt], [adminApprovedBy], [createdAt],
    [updatedAt].  [status] stays in the schema. *)
Record InsertContract := {
  ic_refugeeId : string;
  ic_hostId : string;
  ic_status : ContractStatus;
  ic_terms : string;
  ic_duration : string;
  ic_startDate : option Timestamp;
  ic_endDate : option Timestamp
}.

(** [InsertNotification]: [notifications] without [id], [createdAt]. *)
Record InsertNotification := {
  in_userId : string;
  in_title : string;
  in_content : string;
  in_type : string;
  in_read : option bool
}.

(** The option monad threads the fields of a schema: the first issue makes
    [parse] throw. *)
Definition andThen {A B} (o : option A) (k : A -> option B) : option B :=
  match o with Some a => k a | None => None end.

Notation "'let?' x := o 'in' k" := (andThen o (fun x => k))
  (at level 10, x name, o at level 100, k at level 200).

Definition insertRefugeeProfileSchema_parse (b : Body)
  : option InsertRefugeeProfile :=
  let? familySize := zInteger (field b "familySize") in
  let? estimatedStay := zString (field b "estimatedStay") in
  let? medicalNeeds := zNullable zString (field b "medicalNeeds") in
  let? specialRequirements :=
    zNullable zString (field b "specialRequirements") in
  let? languages := zNullable zStringArray (field b "languages") in
  let? countryOfOrigin := zNullable zString (field b "countryOfOrigin") in
  let? phoneNumber := zNullable zString (field b "phoneNumber") in
  let? emergencyContact := zNullable zString (field b "emergencyContact") in
  let? additionalInfo := zNullable zString (field b "additionalInfo") in
  Some {| irp_familySize := familySize;
          irp_estimatedStay := estimatedStay;
          irp_medicalNeeds := medicalNeeds;
          irp_specialRequirements := specialRequirements;
          irp_languages := languages;
          irp_countryOfOrigin := countryOfOrigin;
          irp_phoneNumber := phoneNumber;
          irp_emergencyContact := emergencyContact;
          irp_additionalInfo := additionalInfo |}.

Definition insertHostProfileSchema_parse (b : Body)
  : option InsertHostProfile :=
  let? accommodationType := zString (field b "accommodationType") in
  let? maxOccupants := zInteger (field b "maxOccupants") in
  let? availabilityDuration := zString (field b "availabilityDuration") in
  let? description := zNullable zString (field b "description") in
  let? houseRules := zNullable zString (field b "houseRules") in
  let? amenities := zNullable zStringArray (field b "amenities") in
  let? location := zString (field b "location") in
  let? address := zNullable zString (field b "address") in
  let? phoneNumber := zNullable zString (field b "phoneNumber") in
  let? petFriendly :=
    zNullableDefault zBoolean false (field b "petFriendly") in
  let? smokingAllowed :=
    zNullableDefault zBoolean false (field b "smokingAllowed") in
  let? accessibilityFeatures :=
    zNullable zString (field b "accessibilityFeatures") in
  let? criminalRecordChecked :=
    zNullableDefault zBoolean false (field b "criminalRecordChecked") in
  let? backgroundCheckDate :=
    zNullable zDate (field b "backgroundCheckDate") in
  let? additionalInfo := zNullable zString (field b "additionalInfo") in
  Some {| ihp_accommodationType := accommodationType;
          ihp_maxOccupants := maxOccupants;
          ihp_availabilityDuration := availabilityDuration;
          ihp_description := description;
          ihp_houseRules := houseRules;
          ihp_amenities := amenities;
          ihp_location := location;
          ihp_address := address;
          ihp_phoneNumber := phoneNumber;
          ihp_petFriendly := petFriendly;
          ihp_smokingAllowed := smokingAllowed;
          ihp_accessibilityFeatures := accessibilityFeatures;
          ihp_criminalRecordChecked := criminalRecordChecked;
          ihp_backgroundCheckDate := backgroundCheckDate;
          ihp_additionalInfo := additionalInfo |}.

Definition insertContractSchema_parse (b : Body) : option InsertContract :=
  let? refugeeId := zString (field b "refugeeId") in
  let? hostId := zString (field b "hostId") in
  let? status := zDefault zContractStatus proposed (field b "status") in
  let? terms := zString (field b "terms") in
  let? duration := zString (field b "duration") in
  let? startDate := zNullable zDate (field b "startDate") in
  let? endDate := zNullable zDate (field b "endDate") in
  Some {| ic_refugeeId := refugeeId;
          ic_hostId := hostId;
          ic_status := status;
          ic_terms := terms;
          ic_duration := duration;
          ic_startDate := startDate;
          ic_endDate := endDate |}.

(** ** Asynchronous storage calls

    A call reads and writes the database and either returns or throws; the
    database it leaves behind is kept in both cases. *)

Inductive Error :=
| ZodError
| ForeignKeyViolation
| NumericValueOutOfRange
| InvalidByteSequence.

Inductive Outcome (A : Type) :=
| Returned (a : A)
| Thrown (e : Error).
Arguments Returned {A} a.
Arguments Thrown {A} e.

Definition Async (A : Type) := Db -> Outcome A * Db.

Definition ret {A} (a : A) : Async A := fun db => (Returned a, db).

Definition throw {A} (e : Error) : Async A := fun db => (Thrown e, db).

Definition bind {A B} (m : Async A) (k : A -> Async B) : Async B :=
  fun db =>
    match m db with
    | (Returned a, db') => k a db'
    | (Thrown e, db') => (Thrown e, db')
    end.

Notation "x <- m ;; k" := (bind m (fun x => k))
  (at level 61, m at next level, right associativity).
Notation "m ;; k" := (bind m (fun _ => k))
  (at level 61, right associativity).

(** [schema.parse(body)] inside a handler. *)
Definition parse {A} (p : Body -> option A) (b : Body) : Async A :=
  match p b with
  | Some a => ret a
  | None => throw ZodError
  end.

(** The database after a call, and what the call produced. *)
Definition after {A} (r : A * Db) : Db := snd r.
Definition result {A} (r : A * Db) : A := fst r.

(** ** server/storage.ts: DatabaseStorage *)

Definition set_users (db : Db) (l : list User) : Db :=
  {| users := l;
     refugeeProfiles := refugeeProfiles db;
     hostProfiles := hostProfiles db;
     messages := messages db;
     contracts := contracts db;
     notifications := notifications db;
     refugeeProfiles_seq := refugeeProfiles_seq db;
     hostProfiles_seq := hostProfiles_seq db;
     messages_seq := messages_seq db;
     contracts_seq := contracts_seq db;
     notifications_seq := notifications_seq db |}.

Definition set_contracts (db : Db) (l : list Contract) : Db :=
  {| users := users db;
     refugeeProfiles := refugeeProfiles db;
     hostProfiles := hostProfiles db;
     messages := messages db;
     contracts := l;
     notifications := notifications db;
     refugeeProfiles_seq := refugeeProfiles_seq db;
     hostProfiles_seq := hostProfiles_seq db;
     messages_seq := messages_seq db;
     contracts_seq := contracts_seq db;
     notifications_seq := notifications_seq db |}.

Definition set_notifications (db : Db) (l : list Notification) : Db :=
  {| users := users db;
     refugeeProfiles := refugeeProfiles db;
     hostProfiles := hostProfiles db;
     messages := messages db;
     contracts := contracts db;
     notifications := l;
     refugeeProfiles_seq := refugeeProfiles_seq db;
     hostProfiles_seq := hostProfiles_seq db;
     messages_seq := messages_seq db;
     contracts_seq := contracts_seq db;
     notifications_seq := notifications_seq db |}.

Definition insert_refugeeProfile (db : Db) (p : RefugeeProfile) : Db :=
  {| users := users db;
     refugeeProfiles := refugeeProfiles db ++ [p];
     hostProfiles := hostProfiles db;
     messages := messages db;
     contracts := contracts db;
     notifications := notifications db;
     refugeeProfiles_seq := refugeeProfiles_seq db + 1;
     hostProfiles_seq := hostProfiles_seq db;
     messages_seq := messages_seq db;
     contracts_seq := contracts_seq db;
     notifications_seq := notifications_seq db |}.

Definition insert_hostProfile (db : Db) (p : HostProfile) : Db :=
  {| users := users db;
     refugeeProfiles := refugeeProfiles db;
     hostProfiles := hostProfiles db ++ [p];
     messages := messages db;
     contracts := contracts db;
     notifications := notifications db;
     refugeeProfiles_seq := refugeeProfiles_seq db;
     hostProfiles_seq := hostProfiles_seq db + 1;
     messages_seq := messages_seq db;
     contracts_seq := contracts_seq db;
     notifications_seq := notifications_seq db |}.

Definition insert_contract (db : Db) (c : Contract) : Db :=
  {| users := users db;
     refugeeProfiles := refugeeProfiles db;
     hostProfiles := hostProfiles db;
     messages := messages db;
     contracts := contracts db ++ [c];
     notifications := notifications db;
     refugeeProfiles_seq := refugeeProfiles_seq db;
     hostProfiles_seq := hostProfiles_seq db;
     messages_seq := messages_seq db;
     contracts_seq := contracts_seq db + 1;
     notifications_seq := notifications_seq db |}.

Definition insert_notification (db : Db) (n : Notification) : Db :=
  {| users := users db;
     refugeeProfiles := refugeeProfiles db;
     hostProfiles := hostProfiles db;
     messages := messages db;
     contracts := contracts db;
     notifications := notifications db ++ [n];
     refugeeProfiles_seq := refugeeProfiles_seq db;
     hostProfiles_seq := hostProfiles_seq db;
     messages_seq := messages_seq db;
     contracts_seq := contracts_seq db;
     notifications_seq := notifications_seq db + 1 |}.

(** A refused insert: the counter has moved, the table has not. *)
Definition skip_refugeeProfiles_seq (db : Db) : Db :=
  {| users := users db;
     refugeeProfiles := refugeeProfiles db;
     hostProfiles := hostProfiles db;
     messages := messages db;
     contracts := contracts db;
     notifications := notifications db;
     refugeeProfiles_seq := refugeeProfiles_seq db + 1;
     hostProfiles_seq := hostProfiles_seq db;
     messages_seq := messages_seq db;
     contracts_seq := contracts_seq db;
     notifications_seq := notifications_seq db |}.

Definition skip_hostProfiles_seq (db : Db) : Db :=
  {| users := users db;
     refugeeProfiles := refugeeProfiles db;
     hostProfiles := hostProfiles db;
     messages := messages db;
     contracts := contracts db;
     notifications := notifications db;
     refugeeProfiles_seq := refugeeProfiles_seq db;
     hostProfiles_seq := hostProfiles_seq db + 1;
     messages_seq := messages_seq db;
     contracts_seq := contracts_seq db;
     notifications_seq := notifications_seq db |}.

Definition skip_messages_seq (db : Db) : Db :=
  {| users := users db;
     refugeeProfiles := refugeeProfiles db;
     hostProfiles := hostProfiles db;
     messages := messages db;
     contracts := contracts db;
     notifications := notifications db;
     refugeeProfiles_seq := refugeeProfiles_seq db;
     hostProfiles_seq := hostProfiles_seq db;
     messages_seq := messages_seq db + 1;
     contracts_seq := contracts_seq db;
     notifications_seq := notifications_seq db |}.

Definition skip_contracts_seq (db : Db) : Db :=
  {| users := users db;
     refugeeProfiles := refugeeProfiles db;
     hostProfiles := hostProfiles db;
     messages := messages db;
     contracts := contracts db;
     notifications := notifications db;
     refugeeProfiles_seq := refugeeProfiles_seq db;
     hostProfiles_seq := hostProfiles_seq db;
     messages_seq := messages_seq db;
     contracts_seq := contracts_seq db + 1;
     notifications_seq := notifications_seq db |}.

Definition skip_notifications_seq (db : Db) : Db :=
  {| users := users db;
     refugeeProfiles := refugeeProfiles db;
     hostProfiles := hostProfiles db;
     messages := messages db;
     contracts := contracts db;
     notifications := notifications db;
     refugeeProfiles_seq := refugeeProfiles_seq db;
     hostProfiles_seq := hostProfiles_seq db;
     messages_seq := messages_seq db;
     contracts_seq := contracts_seq db;
     notifications_seq := notifications_seq db + 1 |}.

(** The foreign key to [users.id]. *)
Definition references_user (db : Db) (id : string) : bool :=
  existsb (fun u => String.eqb (users_id u) id) (users db).

(** [const [user] = select().from(users).where(eq(users.id, id))]: the
    first row with this id, [undefined] when there is none. *)
Definition findUser (db : Db) (id : string) : option User :=
  find (fun u => String.eqb (users_id u) id) (users db).

Definition getUser (id : string) : Async (option User) :=
  fun db => (Returned (findUser db id), db).

(** The text values of a refugee profile row. *)
Definition refugee_text (profile : InsertRefugeeProfile) (userId : string)
  : bool :=
  text userId
  && text (irp_estimatedStay profile)
  && text_opt (irp_medicalNeeds profile)
  && text_opt (irp_specialRequirements profile)
  && text_array (irp_languages profile)
  && text_opt (irp_countryOfOrigin profile)
  && text_opt (irp_phoneNumber profile)
  && text_opt (irp_emergencyContact profile)
  && text_opt (irp_additionalInfo profile).

Definition createRefugeeProfile (now : Timestamp)
    (profile : InsertRefugeeProfile) (userId : string)
  : Async RefugeeProfile :=
  fun db =>
    if negb (refugee_text profile userId) then
      (Thrown InvalidByteSequence, db)
    else if references_user db userId then
      let row :=
        {| refugeeProfiles_id := refugeeProfiles_seq db;
           refugeeProfiles_userId := userId;
           refugeeProfiles_familySize := irp_familySize profile;
           refugeeProfiles_estimatedStay := irp_estimatedStay profile;
           refugeeProfiles_medicalNeeds := irp_medicalNeeds profile;
           refugeeProfiles_specialRequirements :=
             irp_specialRequirements profile;
           refugeeProfiles_languages := irp_languages profile;
           refugeeProfiles_countryOfOrigin := irp_countryOfOrigin profile;
           refugeeProfiles_phoneNumber := irp_phoneNumber profile;
           refugeeProfiles_emergencyContact := irp_emergencyContact profile;
           refugeeProfiles_additionalInfo := irp_additionalInfo profile;
           refugeeProfiles_createdAt := Some now;
           refugeeProfiles_updatedAt := Some now |} in
      (Returned row, insert_refugeeProfile db row)
    else (Thrown ForeignKeyViolation, skip_refugeeProfiles_seq db).

(** The text values of a host profile row. *)
Definition host_text (profile : InsertHostProfile) (userId : string) : bool :=
  text userId
  && text (ihp_accommodationType profile)
  && text (ihp_availabilityDuration profile)
  && text_opt (ihp_description profile)
  && text_opt (ihp_houseRules profile)
  && text_array (ihp_amenities profile)
  && text (ihp_location profile)
  && text_opt (ihp_address profile)
  && text_opt (ihp_phoneNumber profile)
  && text_opt (ihp_accessibilityFeatures profile)
  && text_opt (ihp_additionalInfo profile).

Definition createHostProfile (now : Timestamp)
    (profile : InsertHostProfile) (userId : string)
  : Async HostProfile :=
  fun db =>
    if negb (host_text profile userId) then
      (Thrown InvalidByteSequence, db)
    else if references_user db userId then
      let row :=
        {| hostProfiles_id := hostProfiles_seq db;
           hostProfiles_userId := userId;
           hostProfiles_accommodationType := ihp_accommodationType profile;
           hostProfiles_maxOccupants := ihp_maxOccupants profile;
           hostProfiles_availabilityDuration :=
             ihp_availabilityDuration profile;
           hostProfiles_description := ihp_description profile;
           hostProfiles_houseRules := ihp_houseRules profile;
           hostProfiles_amenities := ihp_amenities profile;
           hostProfiles_location := ihp_location profile;
           hostProfiles_address := ihp_address profile;
           hostProfiles_phoneNumber := ihp_phoneNumber profile;
           hostProfiles_petFriendly := ihp_petFriendly profile;
           hostProfiles_smokingAllowed := ihp_smokingAllowed profile;
           hostProfiles_accessibilityFeatures :=
             ihp_accessibilityFeatures profile;
           hostProfiles_criminalRecordChecked :=
             ihp_criminalRecordChecked profile;
           hostProfiles_backgroundCheckDate :=
             ihp_backgroundCheckDate profile;
           hostProfiles_additionalInfo := ihp_additionalInfo profile;
           hostProfiles_createdAt := Some now;
           hostProfiles_updatedAt := Some now |} in
      (Returned row, insert_hostProfile db row)
    else (Thrown ForeignKeyViolation, skip_hostProfiles_seq db).

Definition getRefugeeProfile (userId : string)
  : Async (option RefugeeProfile) :=
  fun db =>
    (Returned
       (find (fun p => String.eqb (refugeeProfiles_userId p) userId)
          (refugeeProfiles db)), db).

Definition getHostProfile (userId : string) : Async (option HostProfile) :=
  fun db =>
    (Returned
       (find (fun p => String.eqb (hostProfiles_userId p) userId)
          (hostProfiles db)), db).

(** [.set({ profileStatus: status, updatedAt: new Date() })] *)
Definition set_profileStatus (status : ProfileStatus) (now : Timestamp)
    (u : User) : User :=
  {| users_id := users_id u;
     users_email := users_email u;
     users_firstName := users_firstName u;
     users_lastName := users_lastName u;
     users_profileImageUrl := users_profileImageUrl u;
     users_role := users_role u;
     users_profileStatus := status;
     users_createdAt := users_createdAt u;
     users_updatedAt := Some now |}.

Definition updateProfileStatus (now : Timestamp) (userId : string)
    (status : ProfileStatus) : Async unit :=
  fun db =>
    (Returned tt,
     set_users db
       (map (fun u =>
               if String.eqb (users_id u) userId
               then set_profileStatus status now u else u)
          (users db))).

(** [getApprovedHosts]: [users] inner-joined with [host_profiles] on
    [users.id = host_profiles.user_id], where the user is an approved
    host; each row becomes [{ ...row.users, hostProfile: row.host_profiles }]. *)
Definition approvedHosts (db : Db) : list (User * HostProfile) :=
  flat_map
    (fun u =>
       if ProfileStatus_eqb (users_profileStatus u) approved
          && UserRole_eqb (users_role u) host
       then
         map (fun p => (u, p))
           (filter
              (fun p => String.eqb (users_id u) (hostProfiles_userId p))
              (hostProfiles db))
       else [])
    (users db).

Definition getApprovedHosts : Async (list (User * HostProfile)) :=
  fun db => (Returned (approvedHosts db), db).

(** *** Messages *)

Record InsertMessage := {
  im_senderId : string;
  im_receiverId : string;
  im_content : string;
  im_status : MessageStatus
}.

Definition zMessageStatus (v : JsVal) : option MessageStatus :=
  match v with
  | JString s =>
      if String.eqb s "sent" then Some sent
      else if String.eqb s "delivered" then Some delivered
      else if String.eqb s "read" then Some read
      else None
  | _ => None
  end.

Definition insertMessageSchema_parse (b : Body) : option InsertMessage :=
  let? senderId := zString (field b "senderId") in
  let? receiverId := zString (field b "receiverId") in
  let? content := zString (field b "content") in
  let? status := zDefault zMessageStatus sent (field b "status") in
  Some {| im_senderId := senderId;
          im_receiverId := receiverId;
          im_content := content;
          im_status := status |}.

Definition insert_message (db : Db) (m : Message) : Db :=
  {| users := users db;
     refugeeProfiles := refugeeProfiles db;
     hostProfiles := hostProfiles db;
     messages := messages db ++ [m];
     contracts := contracts db;
     notifications := notifications db;
     refugeeProfiles_seq := refugeeProfiles_seq db;
     hostProfiles_seq := hostProfiles_seq db;
     messages_seq := messages_seq db + 1;
     contracts_seq := contracts_seq db;
     notifications_seq := notifications_seq db |}.

(** The text values of a message row. *)
Definition message_text (message : InsertMessage) : bool :=
  text (im_senderId message)
  && text (im_receiverId message)
  && text (im_content message).

Definition sendMessage (now : Timestamp) (message : InsertMessage)
  : Async Message :=
  fun db =>
    if negb (message_text message) then (Thrown InvalidByteSequence, db)
    else if references_user db (im_senderId message)
            && references_user db (im_receiverId message)
    then
      let row :=
        {| messages_id := messages_seq db;
           messages_senderId := im_senderId message;
           messages_receiverId := im_receiverId message;
           messages_content := im_content message;
           messages_status := im_status message;
           messages_createdAt := Some now;
           messages_readAt := None |} in
      (Returned row, insert_message db row)
    else (Thrown ForeignKeyViolation, skip_messages_seq db).

(** The order of [asc(column)] on a nullable timestamp: ascending, NULL
    after every value. *)
Definition asc_leb (a b : option Timestamp) : bool :=
  match a, b with
  | Some x, Some y => (x <=? y)%Z
  | Some _, None => true
  | None, Some _ => false
  | None, None => true
  end.

Section OrderBy.
Context {A : Type} (key : A -> option Timestamp).

Fixpoint orderBy_insert (x : A) (l : list A) : list A :=
  match l with
  | [] => [x]
  | y :: l' =>
      if asc_leb (key x) (key y) then x :: l
      else y :: orderBy_insert x l'
  end.

(** [.orderBy(asc(key))] *)
Fixpoint orderBy_asc (l : list A) : list A :=
  match l with
  | [] => []
  | x :: l' => orderBy_insert x (orderBy_asc l')
  end.
End OrderBy.

(** The [where] of [getConversation]:
    [or(and(eq(senderId, userId1), eq(receiverId, userId2)),
        and(eq(senderId, userId2), eq(receiverId, userId1)))]. *)
Definition between (userId1 userId2 : string) (m : Message) : bool :=
  (String.eqb (messages_senderId m) userId1
   && String.eqb (messages_receiverId m) userId2)
  || (String.eqb (messages_senderId m) userId2
      && String.eqb (messages_receiverId m) userId1).

Definition conversation (db : Db) (userId1 userId2 : string)
  : list Message :=
  orderBy_asc messages_createdAt
    (filter (between userId1 userId2) (messages db)).

Definition getConversation (userId1 userId2 : string)
  : Async (list Message) :=
  fun db => (Returned (conversation db userId1 userId2), db).

(** *** Contracts *)

(** The text values of a contract row. *)
Definition contract_text (contract : InsertContract) : bool :=
  text (ic_refugeeId contract)
  && text (ic_hostId contract)
  && text (ic_terms contract)
  && text (ic_duration contract).

Definition createContract (now : Timestamp) (contract : InsertContract)
  : Async Contract :=
  fun db =>
    if negb (contract_text contract) then (Thrown InvalidByteSequence, db)
    else if references_user db (ic_refugeeId contract)
            && references_user db (ic_hostId contract)
    then
      let row :=
        {| contracts_id := contracts_seq db;
           contracts_refugeeId := ic_refugeeId contract;
           contracts_hostId := ic_hostId contract;
           contracts_status := ic_status contract;
           contracts_terms := ic_terms contract;
           contracts_duration := ic_duration contract;
           contracts_startDate := ic_startDate contract;
           contracts_endDate := ic_endDate contract;
           contracts_refugeeSignedAt := None;
           contracts_hostSignedAt := None;
           contracts_adminApprovedAt := None;
           contracts_adminApprovedBy := None;
           contracts_createdAt := Some now;
           contracts_updatedAt := Some now |} in
      (Returned row, insert_contract db row)
    else (Thrown ForeignKeyViolation, skip_contracts_seq db).

(** [const [contract] = select().from(contracts).where(eq(contracts.id, id))] *)
Definition findContract (db : Db) (id : Z) : option Contract :=
  find (fun c => (contracts_id c =? id)%Z) (contracts db).

Definition getContract (id : Z) : Async (option Contract) :=
  fun db => (Returned (findContract db id), db).

(** [.set({ refugeeSignedAt: new Date() })] *)
Definition set_refugeeSignedAt (now : Timestamp) (c : Contract) : Contract :=
  {| contracts_id := contracts_id c;
     contracts_refugeeId := contracts_refugeeId c;
     contracts_hostId := contracts_hostId c;
     contracts_status := contracts_status c;
     contracts_terms := contracts_terms c;
     contracts_duration := contracts_duration c;
     contracts_startDate := contracts_startDate c;
     contracts_endDate := contracts_endDate c;
     contracts_refugeeSignedAt := Some now;
     contracts_hostSignedAt := contracts_hostSignedAt c;
     contracts_adminApprovedAt := contracts_adminApprovedAt c;
     contracts_adminApprovedBy := contracts_adminApprovedBy c;
     contracts_createdAt := contracts_createdAt c;
     contracts_updatedAt := contracts_updatedAt c |}.

(** [.set({ hostSignedAt: new Date() })] *)
Definition set_hostSignedAt (now : Timestamp) (c : Contract) : Contract :=
  {| contracts_id := contracts_id c;
     contracts_refugeeId := contracts_refugeeId c;
     contracts_hostId := contracts_hostId c;
     contracts_status := contracts_status c;
     contracts_terms := contracts_terms c;
     contracts_duration := contracts_duration c;
     contracts_startDate := contracts_startDate c;
     contracts_endDate := contracts_endDate c;
     contracts_refugeeSignedAt := contracts_refugeeSignedAt c;
     contracts_hostSignedAt := Some now;
     contracts_adminApprovedAt := contracts_adminApprovedAt c;
     contracts_adminApprovedBy := contracts_adminApprovedBy c;
     contracts_createdAt := contracts_createdAt c;
     contracts_updatedAt := contracts_updatedAt c |}.

(** [userType === "refugee" ? { refugeeSignedAt: ... } : { hostSignedAt: ... }] *)
Definition updateData (now : Timestamp) (userType : UserRole)
  : Contract -> Contract :=
  match userType with
  | refugee => set_refugeeSignedAt now
  | _ => set_hostSignedAt now
  end.

(** [eq(contracts.id, id)]: the comparison is made in the type of the key,
    and Postgres refuses a number that is no 32-bit integer.  Every stored
    key is one, so a number that a row carries is compared. *)
Definition contract_key (db : Db) (id : Z) : bool :=
  int4 id || existsb (fun c => (contracts_id c =? id)%Z) (contracts db).

Definition signContract (now : Timestamp) (contractId : Z)
    (userType : UserRole) : Async unit :=
  fun db =>
    if negb (contract_key db contractId) then
      (Thrown NumericValueOutOfRange, db)
    else
      (Returned tt,
       set_contracts db
         (map (fun c =>
                 if (contracts_id c =? contractId)%Z
                 then updateData now userType c else c)
            (contracts db))).

(** [.set({ adminApprovedAt: new Date(), adminApprovedBy: adminId,
            status: "completed" })] *)
Definition set_approved (now : Timestamp) (adminId : string) (c : Contract)
  : Contract :=
  {| contracts_id := contracts_id c;
     contracts_refugeeId := contracts_refugeeId c;
     contracts_hostId := contracts_hostId c;
     contracts_status := completed;
     contracts_terms := contracts_terms c;
     contracts_duration := contracts_duration c;
     contracts_startDate := contracts_startDate c;
     contracts_endDate := contracts_endDate c;
     contracts_refugeeSignedAt := contracts_refugeeSignedAt c;
     contracts_hostSignedAt := contracts_hostSignedAt c;
     contracts_adminApprovedAt := Some now;
     contracts_adminApprovedBy := Some adminId;
     contracts_createdAt := contracts_createdAt c;
     contracts_updatedAt := contracts_updatedAt c |}.

Definition approveContract (now : Timestamp) (contractId : Z)
    (adminId : string) : Async unit :=
  fun db =>
    if negb (contract_key db contractId) then
      (Thrown NumericValueOutOfRange, db)
    else if existsb (fun c => (contracts_id c =? contractId)%Z) (contracts db)
            && negb (references_user db adminId)
    then (Thrown ForeignKeyViolation, db)
    else
      (Returned tt,
       set_contracts db
         (map (fun c =>
                 if (contracts_id c =? contractId)%Z
                 then set_approved now adminId c else c)
            (contracts db))).

(** *** Notifications *)

(** The text values of a notification row.  A stored user id holds no
    U+0000, so an id that names a user holds none. *)
Definition notification_text (db : Db) (notification : InsertNotification)
  : bool :=
  (text (in_userId notification)
   || references_user db (in_userId notification))
  && text (in_title notification)
  && text (in_content notification)
  && text (in_type notification).

Definition createNotification (now : Timestamp)
    (notification : InsertNotification) : Async Notification :=
  fun db =>
    if negb (notification_text db notification) then
      (Thrown InvalidByteSequence, db)
    else if references_user db (in_userId notification) then
      let row :=
        {| notifications_id := notifications_seq db;
           notifications_userId := in_userId notification;
           notifications_title := in_title notification;
           notifications_content := in_content notification;
           notifications_type := in_type notification;
           notifications_read := in_read notification;
           notifications_createdAt := Some now |} in
      (Returned row, insert_notification db row)
    else (Thrown ForeignKeyViolation, skip_notifications_seq db).

(** [.set({ read: true })] *)
Definition set_read (n : Notification) : Notification :=
  {| notifications_id := notifications_id n;
     notifications_userId := notifications_userId n;
     notifications_title := notifications_title n;
     notifications_content := notifications_content n;
     notifications_type := notifications_type n;
     notifications_read := Some true;
     notifications_createdAt := notifications_createdAt n |}.

(** [eq(notifications.id, id)], compared in the type of the key. *)
Definition notification_key (db : Db) (id : Z) : bool :=
  int4 id
  || existsb (fun n => (notifications_id n =? id)%Z) (notifications db).

Definition markNotificationAsRead (notificationId : Z) : Async unit :=
  fun db =>
    if negb (notification_key db notificationId) then
      (Thrown NumericValueOutOfRange, db)
    else
      (Returned tt,
       set_notifications db
         (map (fun n =>
                 if (notifications_id n =? notificationId)%Z
                 then set_read n else n)
            (notifications db))).

(** ** server/routes.ts: the handlers *)

Inductive Json :=
| json_message (message : string)
| json_success
| json_refugeeProfile (p : RefugeeProfile)
| json_hostProfile (p : HostProfile)
| json_hosts (l : list (User * HostProfile))
| json_messages (l : list Message)
| json_sent (m : Message)
| json_contract (c : Contract).

Record Response := { statusCode : Z; json : Json }.

(** [res.json(x)] *)
Definition res_json (x : Json) : Response :=
  {| statusCode := 200; json := x |}.

(** [res.status(code).json({ message })] *)
Definition res_status (code : Z) (message : string) : Response :=
  {| statusCode := code; json := json_message message |}.

(** [try { ... } catch (error) { res.status(code).json({ message }) }] *)
Definition try_catch (body : Async Response) (code : Z) (message : string)
  : Db -> Response * Db :=
  fun db =>
    match body db with
    | (Returned r, db') => (r, db')
    | (Thrown _, db') => (res_status code message, db')
    end.

(** A notification as the handlers build it: no [read] field, the column
    default [false] applies. *)
Definition notification (userId title content type : string)
  : InsertNotification :=
  {| in_userId := userId;
     in_title := title;
     in_content := content;
     in_type := type;
     in_read := Some false |}.

(** [req.user.claims.first_name || "User"] *)
Definition first_name_or_User (first_name : option string) : string :=
  match first_name with
  | Some s => if String.eqb s "" then "User" else s
  | None => "User"
  end.

(** [user?.role] *)
Definition role_of (user : option User) : option UserRole :=
  option_map users_role user.

Definition is_role (r : UserRole) (user : option User) : bool :=
  match role_of user with
  | Some r' => UserRole_eqb r' r
  | None => false
  end.

(** [user?.profileStatus === 'approved'] *)
Definition is_approved (user : option User) : bool :=
  match user with
  | Some u => ProfileStatus_eqb (users_profileStatus u) approved
  | None => false
  end.

(** POST /api/profiles/refugee *)
Definition post_api_profiles_refugee (now : Timestamp) (sub : string)
    (first_name : option string) (body : Body) : Db -> Response * Db :=
  try_catch
    (profileData <- parse insertRefugeeProfileSchema_parse body ;;
     profile <- createRefugeeProfile now profileData sub ;;
     createNotification now
       (notification "admin" "New Refugee Profile"
          ("New refugee profile submitted by "
           ++ first_name_or_User first_name)
          "approval") ;;
     ret (res_json (json_refugeeProfile profile)))
    400 "Failed to create profile".

(** POST /api/profiles/host *)
Definition post_api_profiles_host (now : Timestamp) (sub : string)
    (first_name : option string) (body : Body) : Db -> Response * Db :=
  try_catch
    (profileData <- parse insertHostProfileSchema_parse body ;;
     profile <- createHostProfile now profileData sub ;;
     createNotification now
       (notification "admin" "New Host Profile"
          ("New host profile submitted by "
           ++ first_name_or_User first_name)
          "approval") ;;
     ret (res_json (json_hostProfile profile)))
    400 "Failed to create profile".

(** POST /api/admin/approve-profile, with [{ userId, approved }] read from
    the body; [approved] is its truth value. *)
Definition post_api_admin_approve_profile (now : Timestamp) (sub : string)
    (userId : string) (approved_ : bool) : Db -> Response * Db :=
  try_catch
    (user <- getUser sub ;;
     if negb (is_role admin user) then
       ret (res_status 403 "Admin access required")
     else
       let status := if approved_ then approved else rejected in
       updateProfileStatus now userId status ;;
       createNotification now
         (notification userId
            ("Profile " ++ (if approved_ then "Approved" else "Rejected"))
            ("Your profile has been "
             ++ (if approved_ then "approved" else "rejected")
             ++ " by the admin team.")
            "approval") ;;
       ret (res_json json_success))
    500 "Failed to update profile".

(** GET /api/hosts/available *)
Definition get_api_hosts_available (sub : string) : Db -> Response * Db :=
  try_catch
    (user <- getUser sub ;;
     if negb (is_approved user) then
       ret (res_status 403 "Profile must be approved to view hosts")
     else
       hosts <- getApprovedHosts ;;
       ret (res_json (json_hosts hosts)))
    500 "Failed to fetch hosts".

(** POST /api/messages: [insertMessageSchema.parse({ ...req.body, senderId })].
    The broadcast to the open sockets writes nothing to the database. *)
Definition post_api_messages (now : Timestamp) (sub : string) (body : Body)
  : Db -> Response * Db :=
  try_catch
    (messageData <-
       parse insertMessageSchema_parse (("senderId", JString sub) :: body) ;;
     message <- sendMessage now messageData ;;
     ret (res_json (json_sent message)))
    400 "Failed to send message".

(** GET /api/messages/:userId *)
Definition get_api_messages_userId (sub : string) (otherUserId : string)
  : Db -> Response * Db :=
  try_catch
    (messages <- getConversation sub otherUserId ;;
     ret (res_json (json_messages messages)))
    500 "Failed to fetch messages".

(** [contractData.refugeeId = userId] *)
Definition with_refugeeId (c : InsertContract) (userId : string)
  : InsertContract :=
  {| ic_refugeeId := userId;
     ic_hostId := ic_hostId c;
     ic_status := ic_status c;
     ic_terms := ic_terms c;
     ic_duration := ic_duration c;
     ic_startDate := ic_startDate c;
     ic_endDate := ic_endDate c |}.

(** [contractData.hostId = userId] *)
Definition with_hostId (c : InsertContract) (userId : string)
  : InsertContract :=
  {| ic_refugeeId := ic_refugeeId c;
     ic_hostId := userId;
     ic_status := ic_status c;
     ic_terms := ic_terms c;
     ic_duration := ic_duration c;
     ic_startDate := ic_startDate c;
     ic_endDate := ic_endDate c |}.

(** POST /api/contracts *)
Definition post_api_contracts (now : Timestamp) (sub : string) (body : Body)
  : Db -> Response * Db :=
  try_catch
    (user <- getUser sub ;;
     parsed <- parse insertContractSchema_parse body ;;
     let contractData :=
       if is_role refugee user then with_refugeeId parsed sub
       else if is_role host user then with_hostId parsed sub
       else parsed in
     contract <- createContract now contractData ;;
     let notifyUserId :=
       if is_role refugee user then ic_hostId contractData
       else ic_refugeeId contractData in
     createNotification now
       (notification notifyUserId "New Contract Proposal"
          "You have received a new contract proposal" "contract") ;;
     ret (res_json (json_contract contract)))
    400 "Failed to create contract".

(** [contract?.refugeeSignedAt && contract?.hostSignedAt] *)
Definition both_signed (contract : option Contract) : bool :=
  match contract with
  | Some c =>
      match contracts_refugeeSignedAt c, contracts_hostSignedAt c with
      | Some _, Some _ => true
      | _, _ => false
      end
  | None => false
  end.

(** POST /api/contracts/:id/sign *)
Definition post_api_contracts_sign (now : Timestamp) (contractId : Z)
    (sub : string) : Db -> Response * Db :=
  try_catch
    (user <- getUser sub ;;
     match user with
     | Some u =>
         if negb (UserRole_eqb (users_role u) refugee)
            && negb (UserRole_eqb (users_role u) host)
         then ret (res_status 403 "Only refugees and hosts can sign contracts")
         else
           signContract now contractId (users_role u) ;;
           contract <- getContract contractId ;;
           (if both_signed contract then
              createNotification now
                (notification "admin" "Contract Ready for Approval"
                   "A contract has been signed by both parties and needs admin approval"
                   "contract") ;;
              ret tt
            else ret tt) ;;
           ret (res_json json_success)
     | None => ret (res_status 403 "Only refugees and hosts can sign contracts")
     end)
    500 "Failed to sign contract".

(** POST /api/contracts/:id/approve *)
Definition post_api_contracts_approve (now : Timestamp) (contractId : Z)
    (sub : string) : Db -> Response * Db :=
  try_catch
    (user <- getUser sub ;;
     if negb (is_role admin user) then
       ret (res_status 403 "Admin access required")
     else
       approveContract now contractId sub ;;
       contract <- getContract contractId ;;
       match contract with
       | Some c =>
           createNotification now
             (notification (contracts_refugeeId c) "Contract Approved"
                "Your housing contract has been approved by admin"
                "contract") ;;
           createNotification now
             (notification (contracts_hostId c) "Contract Approved"
                "Your hosting contract has been approved by admin"
                "contract") ;;
           ret (res_json json_success)
       | None => ret (res_json json_success)
       end)
    500 "Failed to approve contract".

(** POST /api/notifications/:id/read.  The handler does not look at
    [req.user]; [sub] is the authenticated caller. *)
Definition post_api_notifications_read (notificationId : Z) (sub : string)
  : Db -> Response * Db :=
  try_catch
    (markNotificationAsRead notificationId ;;
     ret (res_json json_success))
    500 "Failed to mark notification as read".

(** ** The server as a state machine

    One constructor per handler; [handle] dispatches a request and [run]
    serves a sequence of them. *)

Inductive Request :=
| POST_profiles_refugee
    (now : Timestamp) (sub : string) (first_name : option string)
    (body : Body)
| POST_profiles_host
    (now : Timestamp) (sub : string) (first_name : option string)
    (body : Body)
| POST_admin_approve_profile
    (now : Timestamp) (sub : string) (userId : string) (approved_ : bool)
| GET_hosts_available (sub : string)
| GET_messages_userId (sub : string) (otherUserId : string)
| POST_contracts (now : Timestamp) (sub : string) (body : Body)
| POST_contracts_sign (now : Timestamp) (contractId : Z) (sub : string)
| POST_contracts_approve (now : Timestamp) (contractId : Z) (sub : string)
| POST_notifications_read (notificationId : Z) (sub : string)
| POST_messages (now : Timestamp) (sub : string) (body : Body).

Definition handle (r : Request) : Db -> Response * Db :=
  match r with
  | POST_profiles_refugee now sub first_name body =>
      post_api_profiles_refugee now sub first_name body
  | POST_profiles_host now sub first_name body =>
      post_api_profiles_host now sub first_name body
  | POST_admin_approve_profile now sub userId approved_ =>
      post_api_admin_approve_profile now sub userId approved_
  | GET_hosts_available sub => get_api_hosts_available sub
  | GET_messages_userId sub otherUserId =>
      get_api_messages_userId sub otherUserId
  | POST_contracts now sub body => post_api_contracts now sub body
  | POST_contracts_sign now contractId sub =>
      post_api_contracts_sign now contractId sub
  | POST_contracts_approve now contractId sub =>
      post_api_contracts_approve now contractId sub
  | POST_notifications_read notificationId sub =>
      post_api_notifications_read notificationId sub
  | POST_messages now sub body => post_api_messages now sub body
  end.

Fixpoint run (rs : list Request) (db : Db) : Db :=
  match rs with
  | [] => db
  | r :: rs' => run rs' (after (handle r db))
  end.

(** A database the server can be in: it started with no contract and has
    served requests since. *)
Inductive reachable : Db -> Prop :=
| reachable_start db : contracts db = [] -> reachable db
| reachable_step r db : reachable db -> reachable (after (handle r db)).

(** ** Fixtures for the concrete runs *)

Definition mkUser (id : string) (role : UserRole) (status : ProfileStatus)
  : User :=
  {| users_id := id;
     users_email := None;
     users_firstName := None;
     users_lastName := None;
     users_profileImageUrl := None;
     users_role := role;
     users_profileStatus := status;
     users_createdAt := Some 0;
     users_updatedAt := Some 0 |}.

Definition mkDb (us : list User) : Db :=
  {| users := us;
     refugeeProfiles := [];
     hostProfiles := [];
     messages := [];
     contracts := [];
     notifications := [];
     refugeeProfiles_seq := 1;
     hostProfiles_seq := 1;
     messages_seq := 1;
     contracts_seq := 1;
     notifications_seq := 1 |}.

(** A refugee, a host, a second refugee who is party to nothing, and an
    administrator whose id is the literal the handlers notify. *)
Definition alice := mkUser "alice" refugee approved.
Definition bob := mkUser "bob" host approved.
Definition mallory := mkUser "mallory" refugee pending.
Definition the_admin := mkUser "admin" admin approved.

Definition db0 : Db := mkDb [alice; bob; mallory; the_admin].

(** A proposal with every field but the dates. *)
Definition proposal : Body :=
  [("refugeeId", JString "alice"); ("hostId", JString "bob");
   ("terms", JString "one room"); ("duration", JString "3-6 months")].

(** [db0] after alice has proposed [proposal] at time 100: contract 1. *)
Definition db1 : Db := after (post_api_contracts 100 "alice" proposal db0).

Definition contract1 : Contract :=
  {| contracts_id := 1;
     contracts_refugeeId := "alice";
     contracts_hostId := "bob";
     contracts_status := proposed;
     contracts_terms := "one room";
     contracts_duration := "3-6 months";
     contracts_startDate := None;
     contracts_endDate := None;
     contracts_refugeeSignedAt := None;
     contracts_hostSignedAt := None;
     contracts_adminApprovedAt := None;
     contracts_adminApprovedBy := None;
     contracts_createdAt := Some 100;
     contracts_updatedAt := Some 100 |}.

(** The notification that [db1] holds: Bob's, unread. *)
Definition notification1 : Notification :=
  {| notifications_id := 1;
     notifications_userId := "bob";
     notifications_title := "New Contract Proposal";
     notifications_content := "You have received a new contract proposal";
     notifications_type := "contract";
     notifications_read := Some false;
     notifications_createdAt := Some 100 |}.

(** A proposal that names its own status. *)
Definition completed_proposal : Body :=
  ("status", JString "completed") :: proposal.

Definition refugee_form : Body :=
  [("familySize", JInt 3); ("estimatedStay", JString "3-6 months")].

Definition host_form : Body :=
  [("accommodationType", JString "room"); ("maxOccupants", JInt 2);
   ("availabilityDuration", JString "6-12 months");
   ("location", JString "Bern")].

(** A host form whose description holds U+0000. *)
Definition nul_host_form : Body :=
  [("accommodationType", JString "room"); ("maxOccupants", JInt 2);
   ("availabilityDuration", JString "6-12 months");
   ("location", JString "Bern");
   ("description", JString (String Ascii.zero "quiet"))].

(** A host who is waiting for review and has no host profile. *)
Definition dave := mkUser "dave" host pending.
Definition db_hosts : Db := mkDb [alice; dave; the_admin].

Definition carol := mkUser "carol" host rejected.
Definition db_review : Db := mkDb [carol; the_admin].

Definition mkMessage (id : Z) (sender receiver : string)
    (createdAt : option Timestamp) : Message :=
  {| messages_id := id;
     messages_senderId := sender;
     messages_receiverId := receiver;
     messages_content := "hello";
     messages_status := sent;
     messages_createdAt := createdAt;
     messages_readAt := None |}.

Definition db_chat : Db :=
  {| users := users db0;
     refugeeProfiles := [];
     hostProfiles := [];
     messages := [mkMessage 1 "alice" "bob" (Some 30);
                  mkMessage 2 "bob" "alice" (Some 10);
                  mkMessage 3 "mallory" "bob" (Some 5);
                  mkMessage 4 "alice" "bob" (Some 20)];
     contracts := [];
     notifications := [];
     refugeeProfiles_seq := 1;
     hostProfiles_seq := 1;
     messages_seq := 5;
     contracts_seq := 1;
     notifications_seq := 1 |}.

(** ** Vocabulary of the statements *)

(** [keeps proj m]: the computation [m] returns or throws with the
    component [proj] of the database as it found it. *)
Definition keeps {T A} (proj : Db -> T) (m : Async A) : Prop :=
  forall db, proj (snd (m db)) = proj db.

(** What the approval writes, as a function on the table. *)
Definition approved_rows (now : Timestamp) (contractId : Z)
    (adminId : string) (l : list Contract) : list Contract :=
  map (fun c =>
         if (contracts_id c =? contractId)%Z
         then set_approved now adminId c else c) l.

(** What a signature writes, as a function on the table. *)
Definition signed_rows (now : Timestamp) (contractId : Z)
    (userType : UserRole) (l : list Contract) : list Contract :=
  map (fun c =>
         if (contracts_id c =? contractId)%Z
         then updateData now userType c else c) l.

(** The signature column a role writes. *)
Definition signedAt (userType : UserRole) (c : Contract)
  : option Timestamp :=
  match userType with
  | refugee => contracts_refugeeSignedAt c
  | _ => contracts_hostSignedAt c
  end.

(** The proposal after the handler has written the caller's id into it. *)
Definition contractData_of (db : Db) (sub : string) (parsed : InsertContract)
  : InsertContract :=
  if is_role refugee (findUser db sub) then with_refugeeId parsed sub
  else if is_role host (findUser db sub) then with_hostId parsed sub
  else parsed.

(** Whom the handler notifies. *)
Definition notifyUserId_of (db : Db) (sub : string)
    (contractData : InsertContract) : string :=
  if is_role refugee (findUser db sub) then ic_hostId contractData
  else ic_refugeeId contractData.

Inductive contracts_step (l : list Contract) : list Contract -> Prop :=
| step_same : contracts_step l l
| step_created row :
    contracts_adminApprovedAt row = None ->
    contracts_step l (l ++ [row])
| step_signed now contractId userType :
    contracts_step l (signed_rows now contractId userType l)
| step_approved now contractId adminId :
    contracts_step l (approved_rows now contractId adminId l).

(** Row by row: the row at a position keeps its id, and an approval
    timestamp that is set stays set. *)
Definition approval_kept (l l' : list Contract) : Prop :=
  forall n c, nth_error l n = Some c ->
  exists c', nth_error l' n = Some c'
             /\ contracts_id c' = contracts_id c
             /\ (contracts_adminApprovedAt c <> None ->
                 contracts_adminApprovedAt c' <> None).

Definition approved_is_completed (l : list Contract) : Prop :=
  forall c, In c l ->
  contracts_adminApprovedAt c <> None -> contracts_status c = completed.

(** What a review writes, as a function on the [users] table. *)
Definition reviewed_rows (now : Timestamp) (userId : string)
    (approved_ : bool) (l : list User) : list User :=
  map (fun u =>
         if String.eqb (users_id u) userId
         then set_profileStatus (if approved_ then approved else rejected)
                now u
         else u) l.

Inductive users_step (l : list User) : list User -> Prop :=
| users_same : users_step l l
| users_reviewed now userId approved_ :
    users_step l (reviewed_rows now userId approved_ l).

(** Row by row: the user at a position keeps its id, and a status that has
    left [pending] does not come back to it. *)
Definition decided_kept (l l' : list User) : Prop :=
  forall n u, nth_error l n = Some u ->
  exists u', nth_error l' n = Some u'
             /\ users_id u' = users_id u
             /\ (users_profileStatus u <> pending ->
                 users_profileStatus u' <> pending).


(** ** More of server/storage.ts *)


(** The order of [desc(column)] on a nullable timestamp: descending, NULL
    before every value. *)
Definition desc_leb (a b : option Timestamp) : bool :=
  match a, b with
  | Some x, Some y => (y <=? x)%Z
  | None, _ => true
  | Some _, None => false
  end.

Section OrderByDesc.
Context {A : Type} (key : A -> option Timestamp).

Fixpoint orderBy_desc_insert (x : A) (l : list A) : list A :=
  match l with
  | [] => [x]
  | y :: l' =>
      if desc_leb (key x) (key y) then x :: l
      else y :: orderBy_desc_insert x l'
  end.

(** [.orderBy(desc(key))] *)
Fixpoint orderBy_desc (l : list A) : list A :=
  match l with
  | [] => []
  | x :: l' => orderBy_desc_insert x (orderBy_desc l')
  end.
End OrderByDesc.

(** [getApprovedRefugees]: [users] inner-joined with [refugee_profiles],
    where the user is an approved refugee. *)
Definition approvedRefugees (db : Db) : list (User * RefugeeProfile) :=
  flat_map
    (fun u =>
       if ProfileStatus_eqb (users_profileStatus u) approved
          && UserRole_eqb (users_role u) refugee
       then
         map (fun p => (u, p))
           (filter
              (fun p => String.eqb (users_id u) (refugeeProfiles_userId p))
              (refugeeProfiles db))
       else [])
    (users db).

Definition getApprovedRefugees : Async (list (User * RefugeeProfile)) :=
  fun db => (Returned (approvedRefugees db), db).

(** One row of [getPendingProfiles]:
    [{ ...user, refugeeProfile, hostProfile }]. *)
Record PendingProfile := {
  pp_user : User;
  pp_refugeeProfile : option RefugeeProfile;
  pp_hostProfile : option HostProfile
}.

(** [for (const user of pendingUsers) { ...; result.push(...) }] *)
Fixpoint getPendingProfiles_loop (pendingUsers : list User)
  : Async (list PendingProfile) :=
  match pendingUsers with
  | [] => ret []
  | user :: rest =>
      refugeeProfile <- getRefugeeProfile (users_id user) ;;
      hostProfile <- getHostProfile (users_id user) ;;
      result <- getPendingProfiles_loop rest ;;
      ret ({| pp_user := user;
              pp_refugeeProfile := refugeeProfile;
              pp_hostProfile := hostProfile |} :: result)
  end.

Definition getPendingProfiles : Async (list PendingProfile) :=
  fun db =>
    getPendingProfiles_loop
      (filter (fun u => ProfileStatus_eqb (users_profileStatus u) pending)
         (users db))
      db.

(** The [where] of [getUserMessages]:
    [or(eq(senderId, userId), eq(receiverId, userId))]. *)
Definition involves (userId : string) (m : Message) : bool :=
  String.eqb (messages_senderId m) userId
  || String.eqb (messages_receiverId m) userId.

Definition userMessages (db : Db) (userId : string) : list Message :=
  orderBy_desc messages_createdAt (filter (involves userId) (messages db)).

Definition getUserMessages (userId : string) : Async (list Message) :=
  fun db => (Returned (userMessages db userId), db).




(** The [where] of [getUserContracts]:
    [or(eq(refugeeId, userId), eq(hostId, userId))]. *)
Definition party (userId : string) (c : Contract) : bool :=
  String.eqb (contracts_refugeeId c) userId
  || String.eqb (contracts_hostId c) userId.

Definition userContracts (db : Db) (userId : string) : list Contract :=
  orderBy_desc contracts_createdAt (filter (party userId) (contracts db)).

Definition getUserContracts (userId : string) : Async (list Contract) :=
  fun db => (Returned (userContracts db userId), db).

Definition userNotifications (db : Db) (userId : string)
  : list Notification :=
  orderBy_desc notifications_createdAt
    (filter (fun n => String.eqb (notifications_userId n) userId)
       (notifications db)).

Definition getUserNotifications (userId : string)
  : Async (list Notification) :=
  fun db => (Returned (userNotifications db userId), db).

(** *** upsertUser

    [UpsertUser] is [typeof users.$inferInsert]: [id] is required, every
    other key may be left out ([None]); a nullable column may also be
    given as [null] ([Some None]). *)
Record UpsertUser := {
  uu_id : string;
  uu_email : option (option string);
  uu_firstName : option (option string);
  uu_lastName : option (option string);
  uu_profileImageUrl : option (option string);
  uu_role : option UserRole;
  uu_profileStatus : option ProfileStatus;
  uu_createdAt : option (option Timestamp);
  uu_updatedAt : option (option Timestamp)
}.

(** A key of the object if it is there, otherwise what the column falls
    back to. *)
Definition or_else {A} (key : option A) (fallback : A) : A :=
  match key with
  | Some a => a
  | None => fallback
  end.

(** [.values(userData)]: keys left out take the column defaults. *)
Definition inserted_user (now : Timestamp) (userData : UpsertUser) : User :=
  {| users_id := uu_id userData;
     users_email := or_else (uu_email userData) None;
     users_firstName := or_else (uu_firstName userData) None;
     users_lastName := or_else (uu_lastName userData) None;
     users_profileImageUrl := or_else (uu_profileImageUrl userData) None;
     users_role := or_else (uu_role userData) refugee;
     users_profileStatus := or_else (uu_profileStatus userData) pending;
     users_createdAt := or_else (uu_createdAt userData) (Some now);
     users_updatedAt := or_else (uu_updatedAt userData) (Some now) |}.

(** [set: { ...userData, updatedAt: new Date() }]: keys left out are not
    written. *)
Definition updated_user (now : Timestamp) (userData : UpsertUser) (u : User)
  : User :=
  {| users_id := uu_id userData;
     users_email := or_else (uu_email userData) (users_email u);
     users_firstName := or_else (uu_firstName userData) (users_firstName u);
     users_lastName := or_else (uu_lastName userData) (users_lastName u);
     users_profileImageUrl :=
       or_else (uu_profileImageUrl userData) (users_profileImageUrl u);
     users_role := or_else (uu_role userData) (users_role u);
     users_profileStatus :=
       or_else (uu_profileStatus userData) (users_profileStatus u);
     users_createdAt := or_else (uu_createdAt userData) (users_createdAt u);
     users_updatedAt := Some now |}.

(** [email: varchar("email").unique()]: the address is written and another
    user already has it. *)
Definition email_taken (db : Db) (id : string) (email : option (option string))
  : bool :=
  match email with
  | Some (Some address) =>
      existsb
        (fun u =>
           negb (String.eqb (users_id u) id)
           && match users_email u with
              | Some a => String.eqb a address
              | None => false
              end)
        (users db)
  | _ => false
  end.

(** The text values of the statement. *)
Definition text_key (key : option (option string)) : bool :=
  match key with
  | Some (Some s) => text s
  | _ => true
  end.

Definition upsert_text (userData : UpsertUser) : bool :=
  text (uu_id userData)
  && text_key (uu_email userData)
  && text_key (uu_firstName userData)
  && text_key (uu_lastName userData)
  && text_key (uu_profileImageUrl userData).

(** The statement returns the row it wrote, or is refused for U+0000 in a
    text value, or fails on the unique index of [email]; refused or
    failed, it writes nothing. *)
Inductive UpsertOutcome :=
| Upserted (user : User)
| EmailTaken
| InvalidText.

Definition upsertUser (now : Timestamp) (userData : UpsertUser)
  : Db -> UpsertOutcome * Db :=
  fun db =>
    if negb (upsert_text userData) then (InvalidText, db)
    else if email_taken db (uu_id userData) (uu_email userData) then
      (EmailTaken, db)
    else
      match findUser db (uu_id userData) with
      | None =>
          let row := inserted_user now userData in
          (Upserted row, set_users db (users db ++ [row]))
      | Some u =>
          (Upserted (updated_user now userData u),
           set_users db
             (map (fun x =>
                     if String.eqb (users_id x) (uu_id userData)
                     then updated_user now userData x else x)
                (users db)))
      end.

(** ** The handlers that only read *)

(** What a reading handler sends: [res.json(a)], or
    [res.status(code).json({ message })]. *)
Inductive Answer (A : Type) :=
| answer_json (a : A)
| answer_status (code : Z) (message : string).
Arguments answer_json {A} a.
Arguments answer_status {A} code message.

Definition try_answer {A} (body : Async (Answer A)) (code : Z)
    (message : string) : Db -> Answer A * Db :=
  fun db =>
    match body db with
    | (Returned r, db') => (r, db')
    | (Thrown _, db') => (answer_status code message, db')
    end.

(** GET /api/auth/user *)
Definition get_api_auth_user (sub : string)
  : Db -> Answer (option User) * Db :=
  try_answer
    (user <- getUser sub ;;
     ret (answer_json user))
    500 "Failed to fetch user".

(** GET /api/profiles/refugee/:userId *)
Definition get_api_profiles_refugee (userId : string)
  : Db -> Answer (option RefugeeProfile) * Db :=
  try_answer
    (profile <- getRefugeeProfile userId ;;
     ret (answer_json profile))
    500 "Failed to fetch profile".

(** GET /api/profiles/host/:userId *)
Definition get_api_profiles_host (userId : string)
  : Db -> Answer (option HostProfile) * Db :=
  try_answer
    (profile <- getHostProfile userId ;;
     ret (answer_json profile))
    500 "Failed to fetch profile".

(** GET /api/admin/pending-profiles *)
Definition get_api_admin_pending_profiles (sub : string)
  : Db -> Answer (list PendingProfile) * Db :=
  try_answer
    (user <- getUser sub ;;
     if negb (is_role admin user) then
       ret (answer_status 403 "Admin access required")
     else
       profiles <- getPendingProfiles ;;
       ret (answer_json profiles))
    500 "Failed to fetch profiles".

(** GET /api/messages *)
Definition get_api_messages (sub : string)
  : Db -> Answer (list Message) * Db :=
  try_answer
    (messages <- getUserMessages sub ;;
     ret (answer_json messages))
    500 "Failed to fetch messages".

(** GET /api/contracts *)
Definition get_api_contracts (sub : string)
  : Db -> Answer (list Contract) * Db :=
  try_answer
    (contracts <- getUserContracts sub ;;
     ret (answer_json contracts))
    500 "Failed to fetch contracts".

(** GET /api/notifications *)
Definition get_api_notifications (sub : string)
  : Db -> Answer (list Notification) * Db :=
  try_answer
    (notifications <- getUserNotifications sub ;;
     ret (answer_json notifications))
    500 "Failed to fetch notifications".

(** ** Vocabulary of the further statements *)

(** [desc] as a relation on rows. *)
Definition desc_le {A} (key : A -> option Timestamp) (x y : A) : Prop :=
  desc_leb (key x) (key y) = true.

(** Every key a [serial] column has handed out lies below its counter. *)
Definition contract_ids_issued (db : Db) : Prop :=
  Forall (fun c => (contracts_id c < contracts_seq db)%Z) (contracts db).

Definition notification_ids_issued (db : Db) : Prop :=
  Forall (fun n => (notifications_id n < notifications_seq db)%Z)
    (notifications db).

Definition message_ids_issued (db : Db) : Prop :=
  Forall (fun m => (messages_id m < messages_seq db)%Z) (messages db).

(** How a request moves the [contracts] table and its counter: the keys
    stay as they are and the counter does not go back, or one row is
    appended under the next key. *)
Inductive contracts_move (db db' : Db) : Prop :=
| move_kept :
    map contracts_id (contracts db') = map contracts_id (contracts db) ->
    (contracts_seq db <= contracts_seq db')%Z ->
    contracts_move db db'
| move_created row :
    contracts db' = (contracts db ++ [row])%list ->
    contracts_id row = contracts_seq db ->
    contracts_seq db' = (contracts_seq db + 1)%Z ->
    contracts_move db db'.

(** The signature column of the other party. *)
Definition other_signedAt (userType : UserRole) (c : Contract)
  : option Timestamp :=
  match userType with
  | refugee => contracts_hostSignedAt c
  | _ => contracts_refugeeSignedAt c
  end.

(** The notification the signing handler sends once both have signed. *)
Definition ready_notification (now : Timestamp) (db : Db) : Notification :=
  {| notifications_id := notifications_seq db;
     notifications_userId := "admin";
     notifications_title := "Contract Ready for Approval";
     notifications_content :=
       "A contract has been signed by both parties and needs admin approval";
     notifications_type := "contract";
     notifications_read := Some false;
     notifications_createdAt := Some now |}.

(** A database in which no user has the id the handlers notify. *)
Definition db_no_admin : Db := mkDb [alice; bob].

(** The two databases hold the same rows: they differ at most in the
    counters of the [serial] columns. *)
Definition same_rows (db db' : Db) : Prop :=
  users db' = users db
  /\ refugeeProfiles db' = refugeeProfiles db
  /\ hostProfiles db' = hostProfiles db
  /\ messages db' = messages db
  /\ contracts db' = contracts db
  /\ notifications db' = notifications db.

(** [moves R m]: whatever [m] does, the database it leaves is related by
    [R] to the one it found. *)
Definition moves {A} (R : Db -> Db -> Prop) (m : Async A) : Prop :=
  forall db, R db (snd (m db)).

(** Row by row: every row of [l] is still there in [l'], at its position,
    changed at most as [K] allows. *)
Definition rows_kept {A} (K : A -> A -> Prop) (l l' : list A) : Prop :=
  forall n x, nth_error l n = Some x ->
  exists x', nth_error l' n = Some x' /\ K x x'.

(** [l'] is [l] with rows appended. *)
Definition grown {A} (l l' : list A) : Prop :=
  exists added, l' = (l ++ added)%list.

(** What may happen to a stored contract. *)
Definition contract_kept (c c' : Contract) : Prop :=
  contracts_id c' = contracts_id c
  /\ contracts_refugeeId c' = contracts_refugeeId c
  /\ contracts_hostId c' = contracts_hostId c
  /\ contracts_terms c' = contracts_terms c
  /\ contracts_duration c' = contracts_duration c
  /\ contracts_startDate c' = contracts_startDate c
  /\ contracts_endDate c' = contracts_endDate c
  /\ contracts_createdAt c' = contracts_createdAt c
  /\ (contracts_refugeeSignedAt c <> None ->
      contracts_refugeeSignedAt c' <> None)
  /\ (contracts_hostSignedAt c <> None -> contracts_hostSignedAt c' <> None)
  /\ (contracts_status c' = contracts_status c
      \/ contracts_status c' = completed).

(** What may happen to a stored notification. *)
Definition notification_kept (n n' : Notification) : Prop :=
  notifications_id n' = notifications_id n
  /\ notifications_userId n' = notifications_userId n
  /\ notifications_title n' = notifications_title n
  /\ notifications_content n' = notifications_content n
  /\ notifications_type n' = notifications_type n
  /\ notifications_createdAt n' = notifications_createdAt n
  /\ (notifications_read n = Some true -> notifications_read n' = Some true).

(** What a request may do to the stored rows. *)
Definition evolves (db db' : Db) : Prop :=
  rows_kept contract_kept (contracts db) (contracts db')
  /\ rows_kept notification_kept (notifications db) (notifications db')
  /\ grown (messages db) (messages db')
  /\ grown (refugeeProfiles db) (refugeeProfiles db')
  /\ grown (hostProfiles db) (hostProfiles db').

(** An upsert that carries an identity and neither role nor status. *)
Definition identity_only (id : string) (email first last : option string)
  : UpsertUser :=
  {| uu_id := id;
     uu_email := Some email;
     uu_firstName := Some first;
     uu_lastName := Some last;
     uu_profileImageUrl := None;
     uu_role := None;
     uu_profileStatus := None;
     uu_createdAt := None;
     uu_updatedAt := None |}.

(** ** Basic facts about the storage layer *)

Ltac unfold_async :=
  unfold parse, try_catch, bind, ret, throw, getUser, getContract, after,
    result in *.

(** Decide [text] on the strings the handlers write themselves. *)
Ltac text_constants :=
  repeat
    match goal with
    | |- context [text ?s] =>
        let b := eval vm_compute in (text s) in
        match b with
        | true => change (text s) with true
        | false => change (text s) with false
        end
    end.

(** Case analysis on the innermost test of the goal. *)
Ltac case_if :=
  match goal with
  | |- context [if ?b then _ else _] =>
      lazymatch b with
      | context [if _ then _ else _] => fail
      | context [match _ with _ => _ end] => fail
      | _ => destruct b eqn:?
      end
  end.

Lemma findUser_references db id u :
  findUser db id = Some u -> references_user db id = true.
Proof.
  unfold findUser, references_user. intros H.
  apply existsb_exists. exists u. split.
  - eapply find_some; eauto.
  - apply find_some in H. tauto.
Qed.

Lemma is_role_references r db id :
  is_role r (findUser db id) = true -> references_user db id = true.
Proof.
  unfold is_role, role_of.
  destruct (findUser db id) as [u|] eqn:E; simpl; [|discriminate].
  intros _. eapply findUser_references; eauto.
Qed.

Lemma unmatched_rows {A} (p : A -> bool) (f : A -> A) l :
  existsb p l = false -> map (fun x => if p x then f x else x) l = l.
Proof.
  induction l as [|x l IH]; simpl; [reflexivity|].
  destruct (p x); [discriminate|]. intros H. rewrite IH by exact H.
  reflexivity.
Qed.

Lemma contract_key_unmatched db id (f : Contract -> Contract) :
  contract_key db id = false ->
  map (fun c => if (contracts_id c =? id)%Z then f c else c) (contracts db)
  = contracts db.
Proof.
  unfold contract_key. intros H. apply orb_false_elim in H.
  apply unmatched_rows. tauto.
Qed.

Lemma approve_route_admin now contractId sub db :
  is_role admin (findUser db sub) = true ->
  contracts (after (post_api_contracts_approve now contractId sub db))
  = approved_rows now contractId sub (contracts db)
  /\ users (after (post_api_contracts_approve now contractId sub db))
     = users db.
Proof.
  intros Hadm. pose proof (is_role_references _ _ _ Hadm) as Href.
  unfold post_api_contracts_approve. unfold_async. rewrite Hadm.
  change (negb true) with false. cbv beta iota zeta.
  unfold approveContract. cbv beta.
  destruct (contract_key db contractId) eqn:Hkey; cbn [negb].
  - rewrite Href. rewrite andb_false_r.
    set (db' := set_contracts db _).
    destruct (findContract db' contractId) as [c|]; [|split; reflexivity].
    unfold createNotification.
    repeat (case_if; cbn [fst snd]); split; reflexivity.
  - cbn [snd]. unfold approved_rows.
    rewrite contract_key_unmatched by exact Hkey. split; reflexivity.
Qed.

Lemma approve_route_not_admin now contractId sub db :
  is_role admin (findUser db sub) = false ->
  post_api_contracts_approve now contractId sub db
  = (res_status 403 "Admin access required", db).
Proof.
  intros Hadm. unfold post_api_contracts_approve. unfold_async.
  rewrite Hadm. reflexivity.
Qed.

(** ** C1: approval by the administrator *)

(** C1, counterexample.  Contract 1 of [db1] carries no signature at all;
    the administrator's approval is answered 200 and the contract is
    rewritten to [completed]. *)
Lemma approve_unsigned_contract :
  findContract db1 1 = Some contract1
  /\ contracts_refugeeSignedAt contract1 = None
  /\ contracts_hostSignedAt contract1 = None
  /\ contracts_status contract1 = proposed
  /\ post_api_contracts_approve 1000 1 "admin" db1
     = (res_json json_success,
        after (post_api_contracts_approve 1000 1 "admin" db1))
  /\ findContract (after (post_api_contracts_approve 1000 1 "admin" db1)) 1
     = Some (set_approved 1000 "admin" contract1)
  /\ contracts_status (set_approved 1000 "admin" contract1) = completed
  /\ contracts_adminApprovedAt (set_approved 1000 "admin" contract1)
     = Some 1000.
Proof. repeat split; vm_compute; reflexivity. Qed.

(** C1, amended.  The approval handler looks at the caller's role and at
    nothing else.  A caller who is not an administrator is answered 403 and
    the database is left as it was.  For an administrator, every contract
    with the given id receives [adminApprovedAt], [adminApprovedBy] and
    [status = completed], whatever its two signature timestamps are, and
    those timestamps are kept as they were. *)
Theorem approveContract_checks_role_only now contractId sub db :
  (is_role admin (findUser db sub) = false ->
   post_api_contracts_approve now contractId sub db
   = (res_status 403 "Admin access required", db))
  /\ (is_role admin (findUser db sub) = true ->
      forall c, In c (contracts db) -> contracts_id c = contractId ->
      exists c',
        In c' (contracts
                 (after (post_api_contracts_approve now contractId sub db)))
        /\ contracts_id c' = contractId
        /\ contracts_status c' = completed
        /\ contracts_adminApprovedAt c' = Some now
        /\ contracts_adminApprovedBy c' = Some sub
        /\ contracts_refugeeSignedAt c' = contracts_refugeeSignedAt c
        /\ contracts_hostSignedAt c' = contracts_hostSignedAt c).
Proof.
  split.
  - apply approve_route_not_admin.
  - intros Hadm c Hin Hid.
    destruct (approve_route_admin now contractId sub db Hadm) as [-> _].
    exists (set_approved now sub c). split.
    + unfold approved_rows. apply in_map_iff. exists c. split; [|exact Hin].
      rewrite Hid, Z.eqb_refl. reflexivity.
    + simpl. repeat split; auto.
Qed.

Lemma approveContract_checks_role_only_witness :
  post_api_contracts_approve 1000 1 "alice" db1
  = (res_status 403 "Admin access required", db1)
  /\ exists c',
       In c' (contracts (after (post_api_contracts_approve 1000 1 "admin" db1)))
       /\ contracts_id c' = 1
       /\ contracts_status c' = completed
       /\ contracts_adminApprovedAt c' = Some 1000
       /\ contracts_adminApprovedBy c' = Some "admin"
       /\ contracts_refugeeSignedAt c' = None
       /\ contracts_hostSignedAt c' = None.
Proof.
  split.
  - apply (proj1 (approveContract_checks_role_only 1000 1 "alice" db1)).
    vm_compute. reflexivity.
  - apply (proj2 (approveContract_checks_role_only 1000 1 "admin" db1)
             eq_refl contract1).
    + vm_compute. left. reflexivity.
    + reflexivity.
Defined.

(** ** C2 and C3: signing *)

Lemma updateData_id now r c :
  contracts_id (updateData now r c) = contracts_id c.
Proof. destruct r; reflexivity. Qed.

Lemma updateData_signedAt now r c : signedAt r (updateData now r c) = Some now.
Proof. destruct r; reflexivity. Qed.

Lemma updateData_overwrite now1 now2 r c :
  updateData now2 r (updateData now1 r c) = updateData now2 r c.
Proof. destruct r; reflexivity. Qed.

Lemma signed_rows_overwrite now1 now2 contractId r l :
  signed_rows now2 contractId r (signed_rows now1 contractId r l)
  = signed_rows now2 contractId r l.
Proof.
  unfold signed_rows. rewrite map_map. apply map_ext. intros c.
  destruct (contracts_id c =? contractId)%Z eqn:E.
  - rewrite updateData_id, E. apply updateData_overwrite.
  - rewrite E. reflexivity.
Qed.

Lemma signed_rows_signedAt now contractId r l c :
  In c (signed_rows now contractId r l) -> contracts_id c = contractId ->
  signedAt r c = Some now.
Proof.
  unfold signed_rows. rewrite in_map_iff. intros [c0 [Hc _]] Hid.
  destruct (contracts_id c0 =? contractId)%Z eqn:E.
  - subst c. apply updateData_signedAt.
  - subst c. apply Z.eqb_neq in E. contradiction.
Qed.

(** The signing handler, seen from the [contracts] and [users] tables. *)
Lemma sign_route_signer now contractId sub db u :
  findUser db sub = Some u -> users_role u <> admin ->
  contracts (after (post_api_contracts_sign now contractId sub db))
  = signed_rows now contractId (users_role u) (contracts db)
  /\ users (after (post_api_contracts_sign now contractId sub db))
     = users db.
Proof.
  intros Hu Hrole. unfold post_api_contracts_sign. unfold_async.
  rewrite Hu.
  replace (negb (UserRole_eqb (users_role u) refugee)
           && negb (UserRole_eqb (users_role u) host)) with false
    by (destruct (users_role u); simpl; congruence).
  unfold signContract. cbv beta.
  destruct (contract_key db contractId) eqn:Hkey; cbn [negb].
  - set (db' := set_contracts db _).
    destruct (both_signed (findContract db' contractId)).
    + unfold createNotification.
      repeat (case_if; cbn [fst snd]); split; reflexivity.
    + split; reflexivity.
  - cbn [snd]. unfold signed_rows.
    rewrite contract_key_unmatched by exact Hkey. split; reflexivity.
Qed.

Lemma sign_route_refused now contractId sub db :
  findUser db sub = None \/ is_role admin (findUser db sub) = true ->
  post_api_contracts_sign now contractId sub db
  = (res_status 403 "Only refugees and hosts can sign contracts", db).
Proof.
  unfold post_api_contracts_sign. unfold_async.
  intros [H|H].
  - rewrite H. reflexivity.
  - destruct (findUser db sub) as [u|]; [|reflexivity].
    unfold is_role in H. simpl in H.
    destruct (users_role u); simpl in *; try discriminate. reflexivity.
Qed.

(** C2, counterexample.  Alice signs contract 1 at time 1000 and again at
    time 2000: the second call replaces the timestamp of the first. *)
Lemma second_signature_overwrites :
  let first := after (post_api_contracts_sign 1000 1 "alice" db1) in
  let second := after (post_api_contracts_sign 2000 1 "alice" first) in
  option_map contracts_refugeeSignedAt (findContract first 1)
  = Some (Some 1000)
  /\ option_map contracts_refugeeSignedAt (findContract second 1)
     = Some (Some 2000)
  /\ result (post_api_contracts_sign 2000 1 "alice" first)
     = res_json json_success.
Proof. repeat split; vm_compute; reflexivity. Qed.

(** C2, amended.  Signing writes the clock into the caller's signature
    column without looking at what the column holds.  After two calls by
    the same refugee or host on the same contract, the first at [now1] and
    the second at [now2], the contracts table is what the second call alone
    would have produced and the signature timestamp is [now2]; it equals
    the timestamp of the first call only when the clock read the same both
    times. *)
Theorem signContract_twice_keeps_last now1 now2 contractId sub db u :
  findUser db sub = Some u -> users_role u <> admin ->
  let first := after (post_api_contracts_sign now1 contractId sub db) in
  let second := after (post_api_contracts_sign now2 contractId sub first) in
  contracts second = contracts (after (post_api_contracts_sign now2 contractId sub db))
  /\ (forall c, In c (contracts first) -> contracts_id c = contractId ->
      signedAt (users_role u) c = Some now1)
  /\ (forall c, In c (contracts second) -> contracts_id c = contractId ->
      signedAt (users_role u) c = Some now2).
Proof.
  intros Hu Hrole first second.
  destruct (sign_route_signer now1 contractId sub db u Hu Hrole)
    as [Hc1 Hu1].
  assert (Hu' : findUser first sub = Some u).
  { unfold findUser. fold first in Hu1. rewrite Hu1. exact Hu. }
  destruct (sign_route_signer now2 contractId sub first u Hu' Hrole)
    as [Hc2 _].
  destruct (sign_route_signer now2 contractId sub db u Hu Hrole)
    as [Hc3 _].
  fold first in Hc1. fold second in Hc2.
  rewrite Hc2, Hc1, Hc3, signed_rows_overwrite.
  split; [reflexivity|]. split.
  - intros c. apply signed_rows_signedAt.
  - intros c. apply signed_rows_signedAt.
Qed.

Lemma signContract_twice_keeps_last_witness :
  let first := after (post_api_contracts_sign 1000 1 "bob" db1) in
  let second := after (post_api_contracts_sign 2000 1 "bob" first) in
  contracts second
  = contracts (after (post_api_contracts_sign 2000 1 "bob" db1))
  /\ (forall c, In c (contracts first) -> contracts_id c = 1 ->
      signedAt host c = Some 1000)
  /\ (forall c, In c (contracts second) -> contracts_id c = 1 ->
      signedAt host c = Some 2000).
Proof.
  apply (signContract_twice_keeps_last 1000 2000 1 "bob" db1 bob).
  - reflexivity.
  - simpl. discriminate.
Defined.

(** C3, counterexample.  Mallory has role refugee and is neither the
    refugee nor the host of contract 1; her request is answered 200 and
    sets the contract's refugee signature. *)
Lemma outsider_signs_contract :
  findUser db1 "mallory" = Some mallory
  /\ findContract db1 1 = Some contract1
  /\ users_id mallory <> contracts_refugeeId contract1
  /\ users_id mallory <> contracts_hostId contract1
  /\ result (post_api_contracts_sign 2000 1 "mallory" db1)
     = res_json json_success
  /\ findContract (after (post_api_contracts_sign 2000 1 "mallory" db1)) 1
     = Some (set_refugeeSignedAt 2000 contract1)
  /\ contracts_refugeeSignedAt (set_refugeeSignedAt 2000 contract1)
     = Some 2000.
Proof.
  repeat split; try (vm_compute; reflexivity); vm_compute; discriminate.
Qed.

(** C3, amended.  The signing handler checks the caller's role and not the
    names on the contract.  A caller who is a refugee or a host sets the
    signature column of that role (refugeeSignedAt for a refugee,
    hostSignedAt for a host) on every contract with the given id, whether
    or not the caller's id is the contract's refugeeId or hostId.  A caller
    who is unknown or an administrator is answered 403 and nothing
    changes. *)
Theorem signContract_checks_role_only now contractId sub db :
  (forall u, findUser db sub = Some u -> users_role u <> admin ->
   contracts (after (post_api_contracts_sign now contractId sub db))
   = map (fun c =>
            if (contracts_id c =? contractId)%Z
            then match users_role u with
                 | refugee => set_refugeeSignedAt now c
                 | _ => set_hostSignedAt now c
                 end
            else c)
       (contracts db))
  /\ (findUser db sub = None \/ is_role admin (findUser db sub) = true ->
      post_api_contracts_sign now contractId sub db
      = (res_status 403 "Only refugees and hosts can sign contracts", db)).
Proof.
  split.
  - intros u Hu Hrole.
    destruct (sign_route_signer now contractId sub db u Hu Hrole) as [-> _].
    unfold signed_rows, updateData. apply map_ext. intros c.
    destruct (users_role u); reflexivity.
  - apply sign_route_refused.
Qed.

Lemma signContract_checks_role_only_witness :
  contracts (after (post_api_contracts_sign 2000 1 "mallory" db1))
  = [set_refugeeSignedAt 2000 contract1]
  /\ post_api_contracts_sign 2000 1 "admin" db1
     = (res_status 403 "Only refugees and hosts can sign contracts", db1).
Proof.
  split.
  - apply (proj1 (signContract_checks_role_only 2000 1 "mallory" db1)
             mallory).
    + reflexivity.
    + simpl. discriminate.
  - apply (proj2 (signContract_checks_role_only 2000 1 "admin" db1)).
    right. reflexivity.
Defined.

(** ** Frame reasoning: what a handler leaves alone *)

Section Frame.
Context {T : Type} (proj : Db -> T).

Lemma keeps_ret {A} (a : A) : keeps proj (ret a).
Proof. intros db. reflexivity. Qed.

Lemma keeps_throw {A} (e : Error) : keeps proj (@throw A e).
Proof. intros db. reflexivity. Qed.

Lemma keeps_parse {A} (p : Body -> option A) (b : Body) :
  keeps proj (parse p b).
Proof. unfold parse. destruct (p b); intros db; reflexivity. Qed.

Lemma keeps_getUser id : keeps proj (getUser id).
Proof. intros db. reflexivity. Qed.

Lemma keeps_getContract id : keeps proj (getContract id).
Proof. intros db. reflexivity. Qed.

Lemma keeps_getApprovedHosts : keeps proj getApprovedHosts.
Proof. intros db. reflexivity. Qed.

Lemma keeps_getConversation a b : keeps proj (getConversation a b).
Proof. intros db. reflexivity. Qed.

Lemma keeps_bind {A B} (m : Async A) (k : A -> Async B) :
  keeps proj m -> (forall a, keeps proj (k a)) -> keeps proj (bind m k).
Proof.
  intros Hm Hk db. unfold bind.
  specialize (Hm db). destruct (m db) as [[a|e] db']; simpl in *.
  - rewrite Hk. exact Hm.
  - exact Hm.
Qed.

Lemma keeps_try_catch (body : Async Response) code message :
  keeps proj body ->
  forall db, proj (after (try_catch body code message db)) = proj db.
Proof.
  intros Hb db. unfold try_catch, after. specialize (Hb db).
  destruct (body db) as [[r|e] db']; exact Hb.
Qed.
End Frame.

Ltac frame :=
  repeat first
    [ progress intros
    | apply keeps_ret | apply keeps_throw | apply keeps_parse
    | apply keeps_getUser | apply keeps_getContract
    | apply keeps_getApprovedHosts | apply keeps_getConversation
    | apply keeps_bind
    | solve [auto with frame]
    | match goal with
      | |- keeps _ (match ?x with _ => _ end) => destruct x
      end
    | progress cbv zeta ].

(** Each write keeps the tables it does not name. *)
Lemma createNotification_keeps_contracts now n :
  keeps contracts (createNotification now n).
Proof.
  intros db. unfold createNotification. repeat case_if; reflexivity.
Qed.

Lemma createNotification_keeps_users now n :
  keeps users (createNotification now n).
Proof.
  intros db. unfold createNotification. repeat case_if; reflexivity.
Qed.

Lemma createRefugeeProfile_keeps_contracts now p id :
  keeps contracts (createRefugeeProfile now p id).
Proof.
  intros db. unfold createRefugeeProfile. repeat case_if; reflexivity.
Qed.

Lemma createRefugeeProfile_keeps_users now p id :
  keeps users (createRefugeeProfile now p id).
Proof.
  intros db. unfold createRefugeeProfile. repeat case_if; reflexivity.
Qed.

Lemma createHostProfile_keeps_contracts now p id :
  keeps contracts (createHostProfile now p id).
Proof.
  intros db. unfold createHostProfile. repeat case_if; reflexivity.
Qed.

Lemma createHostProfile_keeps_users now p id :
  keeps users (createHostProfile now p id).
Proof.
  intros db. unfold createHostProfile. repeat case_if; reflexivity.
Qed.

Lemma updateProfileStatus_keeps_contracts now id st :
  keeps contracts (updateProfileStatus now id st).
Proof. intros db. reflexivity. Qed.

Lemma markNotificationAsRead_keeps_contracts id :
  keeps contracts (markNotificationAsRead id).
Proof.
  intros db. unfold markNotificationAsRead. repeat case_if; reflexivity.
Qed.

Lemma markNotificationAsRead_keeps_users id :
  keeps users (markNotificationAsRead id).
Proof.
  intros db. unfold markNotificationAsRead. repeat case_if; reflexivity.
Qed.

Lemma createContract_keeps_users now c : keeps users (createContract now c).
Proof.
  intros db. unfold createContract. repeat case_if; reflexivity.
Qed.

Lemma signContract_keeps_users now id r : keeps users (signContract now id r).
Proof.
  intros db. unfold signContract. repeat case_if; reflexivity.
Qed.

Lemma approveContract_keeps_users now id a :
  keeps users (approveContract now id a).
Proof.
  intros db. unfold approveContract. repeat case_if; reflexivity.
Qed.

Lemma sendMessage_keeps_contracts now m :
  keeps contracts (sendMessage now m).
Proof.
  intros db. unfold sendMessage. repeat case_if; reflexivity.
Qed.

Lemma sendMessage_keeps_users now m : keeps users (sendMessage now m).
Proof.
  intros db. unfold sendMessage. repeat case_if; reflexivity.
Qed.

Create HintDb frame.
#[export] Hint Resolve
  createNotification_keeps_contracts createNotification_keeps_users
  createRefugeeProfile_keeps_contracts createRefugeeProfile_keeps_users
  createHostProfile_keeps_contracts createHostProfile_keeps_users
  updateProfileStatus_keeps_contracts
  markNotificationAsRead_keeps_contracts markNotificationAsRead_keeps_users
  createContract_keeps_users signContract_keeps_users
  sendMessage_keeps_contracts sendMessage_keeps_users
  approveContract_keeps_users : frame.

(** ** The proposal handler, step by step *)

Lemma post_api_contracts_eq now sub body db :
  post_api_contracts now sub body db
  = match insertContractSchema_parse body with
    | None => (res_status 400 "Failed to create contract", db)
    | Some parsed =>
        let contractData := contractData_of db sub parsed in
        match createContract now contractData db with
        | (Thrown _, db') =>
            (res_status 400 "Failed to create contract", db')
        | (Returned contract, db') =>
            match
              createNotification now
                (notification (notifyUserId_of db sub contractData)
                   "New Contract Proposal"
                   "You have received a new contract proposal" "contract")
                db'
            with
            | (Returned _, db'') => (res_json (json_contract contract), db'')
            | (Thrown _, db'') =>
                (res_status 400 "Failed to create contract", db'')
            end
        end
    end.
Proof.
  unfold post_api_contracts. unfold_async.
  destruct (insertContractSchema_parse body) as [parsed|]; [|reflexivity].
  cbv beta iota zeta. fold (contractData_of db sub parsed).
  destruct (createContract now (contractData_of db sub parsed) db)
    as [[contract|e] db']; [|reflexivity].
  fold (notifyUserId_of db sub (contractData_of db sub parsed)).
  destruct (createNotification now _ db') as [[x|e] db'']; reflexivity.
Qed.

(** ** What a request can do to the [contracts] table *)

Lemma handle_contracts_step r db :
  contracts_step (contracts db) (contracts (after (handle r db))).
Proof.
  destruct r; cbn [handle].
  - unfold post_api_profiles_refugee.
    rewrite (keeps_try_catch contracts); [constructor|frame].
  - unfold post_api_profiles_host.
    rewrite (keeps_try_catch contracts); [constructor|frame].
  - unfold post_api_admin_approve_profile.
    rewrite (keeps_try_catch contracts); [constructor|frame].
  - unfold get_api_hosts_available.
    rewrite (keeps_try_catch contracts); [constructor|frame].
  - unfold get_api_messages_userId.
    rewrite (keeps_try_catch contracts); [constructor|frame].
  - rewrite post_api_contracts_eq.
    destruct (insertContractSchema_parse body) as [parsed|];
      [|apply step_same].
    set (cd := contractData_of db sub parsed).
    unfold createContract.
    destruct (negb (contract_text cd)); [apply step_same|].
    destruct (references_user db (ic_refugeeId cd)
              && references_user db (ic_hostId cd)); [|apply step_same].
    match goal with
    | |- context [createNotification ?t ?n ?d] =>
        pose proof (createNotification_keeps_contracts t n d) as Hk;
        destruct (createNotification t n d) as [[x|e] db']
    end; simpl in *; unfold after; simpl; rewrite Hk;
      apply step_created; reflexivity.
  - destruct (findUser db sub) as [u|] eqn:Hu.
    + destruct (UserRole_eqb (users_role u) admin) eqn:Hr.
      * rewrite sign_route_refused; [constructor|].
        right. unfold is_role. rewrite Hu. exact Hr.
      * destruct (sign_route_signer now contractId sub db u Hu) as [-> _].
        { intros E. rewrite E in Hr. discriminate. }
        constructor.
    + rewrite sign_route_refused; [constructor|]. left. exact Hu.
  - destruct (is_role admin (findUser db sub)) eqn:Hadm.
    + destruct (approve_route_admin now contractId sub db Hadm) as [-> _].
      constructor.
    + rewrite approve_route_not_admin by exact Hadm. constructor.
  - unfold post_api_notifications_read.
    rewrite (keeps_try_catch contracts); [constructor|frame].
  - unfold post_api_messages.
    rewrite (keeps_try_catch contracts); [constructor|frame].
Qed.

Lemma approval_kept_refl l : approval_kept l l.
Proof. intros n c H. exists c. auto. Qed.

Lemma approval_kept_trans l1 l2 l3 :
  approval_kept l1 l2 -> approval_kept l2 l3 -> approval_kept l1 l3.
Proof.
  intros H12 H23 n c Hn.
  destruct (H12 n c Hn) as [c2 [Hn2 [Hid2 Hk2]]].
  destruct (H23 n c2 Hn2) as [c3 [Hn3 [Hid3 Hk3]]].
  exists c3. repeat split; auto. congruence.
Qed.

Lemma approval_kept_map (f : Contract -> Contract) l :
  (forall c, contracts_id (f c) = contracts_id c) ->
  (forall c, contracts_adminApprovedAt c <> None ->
             contracts_adminApprovedAt (f c) <> None) ->
  approval_kept l (map f l).
Proof.
  intros Hid Hk n c Hn. exists (f c). split.
  - rewrite nth_error_map, Hn. reflexivity.
  - split; auto.
Qed.

Lemma contracts_step_kept l l' : contracts_step l l' -> approval_kept l l'.
Proof.
  intros [ | row Hrow | now cid r | now cid a ].
  - apply approval_kept_refl.
  - intros n c Hn. exists c. split; [|auto].
    rewrite nth_error_app1; [exact Hn|].
    apply nth_error_Some. congruence.
  - apply approval_kept_map; intros c;
      destruct (contracts_id c =? cid)%Z; auto.
    + apply updateData_id.
    + destruct r; simpl; auto.
  - apply approval_kept_map; intros c;
      destruct (contracts_id c =? cid)%Z; simpl; auto.
    intros _; discriminate.
Qed.

Lemma contracts_step_invariant l l' :
  contracts_step l l' -> approved_is_completed l -> approved_is_completed l'.
Proof.
  intros [ | row Hrow | now cid r | now cid a ] Hinv c Hin Happ.
  - auto.
  - apply in_app_or in Hin. destruct Hin as [Hin|[<-|[]]]; [auto|].
    congruence.
  - unfold signed_rows in Hin. apply in_map_iff in Hin.
    destruct Hin as [c0 [<- Hin0]].
    destruct (contracts_id c0 =? cid)%Z; [|auto].
    destruct r; simpl in *; auto.
  - unfold approved_rows in Hin. apply in_map_iff in Hin.
    destruct Hin as [c0 [<- Hin0]].
    destruct (contracts_id c0 =? cid)%Z; [reflexivity|auto].
Qed.

(** ** C4: approval timestamp and status *)

(** C4, counterexample.  [insertContractSchema] keeps the [status] column,
    so a proposal may carry [status: "completed"]; the contract is stored
    completed with no approval timestamp. *)
Lemma completed_without_approval :
  let db := after (handle (POST_contracts 100 "alice" completed_proposal) db0) in
  reachable db
  /\ result (handle (POST_contracts 100 "alice" completed_proposal) db0)
     = res_json
         (json_contract
            {| contracts_id := 1;
               contracts_refugeeId := "alice";
               contracts_hostId := "bob";
               contracts_status := completed;
               contracts_terms := "one room";
               contracts_duration := "3-6 months";
               contracts_startDate := None;
               contracts_endDate := None;
               contracts_refugeeSignedAt := None;
               contracts_hostSignedAt := None;
               contracts_adminApprovedAt := None;
               contracts_adminApprovedBy := None;
               contracts_createdAt := Some 100;
               contracts_updatedAt := Some 100 |})
  /\ option_map contracts_status (findContract db 1) = Some completed
  /\ option_map contracts_adminApprovedAt (findContract db 1) = Some None.
Proof.
  split.
  - apply reachable_step. apply reachable_start. reflexivity.
  - repeat split; vm_compute; reflexivity.
Qed.

(** C4, amended.  In every reachable database a contract whose
    adminApprovedAt is set has status completed (the converse is not
    promised: a proposal may state its own status), and whatever requests
    are served afterwards, a contract whose adminApprovedAt is set keeps it
    set. *)
Theorem approval_implies_completed_and_is_kept :
  (forall db, reachable db ->
   forall c, In c (contracts db) ->
   contracts_adminApprovedAt c <> None -> contracts_status c = completed)
  /\ (forall rs db n c,
      nth_error (contracts db) n = Some c ->
      contracts_adminApprovedAt c <> None ->
      exists c', nth_error (contracts (run rs db)) n = Some c'
                 /\ contracts_id c' = contracts_id c
                 /\ contracts_adminApprovedAt c' <> None).
Proof.
  split.
  - intros db Hreach. change (approved_is_completed (contracts db)).
    induction Hreach as [db Hnil | r db Hreach IH].
    + rewrite Hnil. intros c [].
    + eapply contracts_step_invariant; [apply handle_contracts_step|exact IH].
  - assert (Hrun : forall rs db,
               approval_kept (contracts db) (contracts (run rs db))).
    { induction rs as [|r rs IH]; intros db; simpl.
      - apply approval_kept_refl.
      - eapply approval_kept_trans; [|apply IH].
        apply contracts_step_kept, handle_contracts_step. }
    intros rs db n c Hn Happ.
    destruct (Hrun rs db n c Hn) as [c' [Hn' [Hid Hk]]].
    exists c'. auto.
Qed.

Lemma approval_implies_completed_and_is_kept_witness :
  let db := after (handle (POST_contracts_approve 1000 1 "admin") db1) in
  contracts_status (set_approved 1000 "admin" contract1) = completed
  /\ exists c',
       nth_error
         (contracts (run [POST_contracts_sign 2000 1 "bob";
                          POST_contracts 3000 "bob" proposal] db)) 0
       = Some c'
       /\ contracts_id c' = 1
       /\ contracts_adminApprovedAt c' <> None.
Proof.
  intros db. split.
  - apply (proj1 approval_implies_completed_and_is_kept db).
    + apply (reachable_step (POST_contracts_approve 1000 1 "admin") db1).
      apply (reachable_step (POST_contracts 100 "alice" proposal) db0).
      apply reachable_start. reflexivity.
    + vm_compute. left. reflexivity.
    + simpl. discriminate.
  - apply (proj2 approval_implies_completed_and_is_kept
             [POST_contracts_sign 2000 1 "bob";
              POST_contracts 3000 "bob" proposal]
             db 0%nat (set_approved 1000 "admin" contract1)).
    + vm_compute. reflexivity.
    + simpl. discriminate.
Defined.

(** ** C5: profile submission *)

Ltac case_fields :=
  repeat
    match goal with
    | |- context [match ?x with _ => _ end] =>
        lazymatch x with
        | context [match _ with _ => _ end] => fail
        | _ => destruct x eqn:?
        end
    end.

Lemma refugee_form_required body :
  zInteger (field body "familySize") = None
  \/ zString (field body "estimatedStay") = None ->
  insertRefugeeProfileSchema_parse body = None.
Proof.
  intros H. unfold insertRefugeeProfileSchema_parse, andThen.
  case_fields; try reflexivity; destruct H as [H|H]; congruence.
Qed.

Lemma host_form_required body :
  zString (field body "accommodationType") = None
  \/ zInteger (field body "maxOccupants") = None
  \/ zString (field body "availabilityDuration") = None
  \/ zString (field body "location") = None ->
  insertHostProfileSchema_parse body = None.
Proof.
  intros H. unfold insertHostProfileSchema_parse, andThen.
  case_fields; try reflexivity; destruct H as [H|[H|[H|H]]]; congruence.
Qed.

Lemma createNotification_keeps_refugeeProfiles now n :
  keeps refugeeProfiles (createNotification now n).
Proof.
  intros db. unfold createNotification. repeat case_if; reflexivity.
Qed.

Lemma createNotification_keeps_hostProfiles now n :
  keeps hostProfiles (createNotification now n).
Proof.
  intros db. unfold createNotification. repeat case_if; reflexivity.
Qed.

Lemma post_api_profiles_refugee_valid now sub first_name body db p :
  references_user db sub = true ->
  insertRefugeeProfileSchema_parse body = Some p ->
  refugee_text p sub = true ->
  exists row,
    refugeeProfiles (after (post_api_profiles_refugee now sub first_name body db))
    = (refugeeProfiles db ++ [row])%list
    /\ refugeeProfiles_userId row = sub.
Proof.
  intros Href Hp Htext. unfold post_api_profiles_refugee. unfold_async.
  rewrite Hp. cbv beta iota. unfold createRefugeeProfile.
  rewrite Htext, Href. cbv beta iota zeta. cbn [negb].
  match goal with
  | |- context [createNotification ?t ?n ?d] =>
      pose proof (createNotification_keeps_refugeeProfiles t n d) as Hk;
      destruct (createNotification t n d) as [[x|e] db']
  end; simpl in *; rewrite Hk; eexists; split; reflexivity.
Qed.

Lemma post_api_profiles_host_valid now sub first_name body db p :
  references_user db sub = true ->
  insertHostProfileSchema_parse body = Some p ->
  host_text p sub = true ->
  exists row,
    hostProfiles (after (post_api_profiles_host now sub first_name body db))
    = (hostProfiles db ++ [row])%list
    /\ hostProfiles_userId row = sub.
Proof.
  intros Href Hp Htext. unfold post_api_profiles_host. unfold_async.
  rewrite Hp. cbv beta iota. unfold createHostProfile.
  rewrite Htext, Href. cbv beta iota zeta. cbn [negb].
  match goal with
  | |- context [createNotification ?t ?n ?d] =>
      pose proof (createNotification_keeps_hostProfiles t n d) as Hk;
      destruct (createNotification t n d) as [[x|e] db']
  end; simpl in *; rewrite Hk; eexists; split; reflexivity.
Qed.

Lemma post_api_profiles_refugee_refused now sub first_name body db :
  zInteger (field body "familySize") = None
  \/ zString (field body "estimatedStay") = None
  \/ (exists p, insertRefugeeProfileSchema_parse body = Some p
                /\ refugee_text p sub = false) ->
  post_api_profiles_refugee now sub first_name body db
  = (res_status 400 "Failed to create profile", db).
Proof.
  intros H. unfold post_api_profiles_refugee. unfold_async.
  destruct H as [H|[H|[p [Hp Htext]]]].
  - rewrite (refugee_form_required body (or_introl H)). reflexivity.
  - rewrite (refugee_form_required body (or_intror H)). reflexivity.
  - rewrite Hp. cbv beta iota. unfold createRefugeeProfile.
    rewrite Htext. reflexivity.
Qed.

Lemma post_api_profiles_host_refused now sub first_name body db :
  zString (field body "accommodationType") = None
  \/ zInteger (field body "maxOccupants") = None
  \/ zString (field body "availabilityDuration") = None
  \/ zString (field body "location") = None
  \/ (exists p, insertHostProfileSchema_parse body = Some p
                /\ host_text p sub = false) ->
  post_api_profiles_host now sub first_name body db
  = (res_status 400 "Failed to create profile", db).
Proof.
  intros H. unfold post_api_profiles_host. unfold_async.
  destruct H as [H|[H|[H|[H|[p [Hp Htext]]]]]].
  - rewrite (host_form_required body (or_introl H)). reflexivity.
  - rewrite (host_form_required body (or_intror (or_introl H))).
    reflexivity.
  - rewrite (host_form_required body (or_intror (or_intror (or_introl H)))).
    reflexivity.
  - rewrite (host_form_required body (or_intror (or_intror (or_intror H)))).
    reflexivity.
  - rewrite Hp. cbv beta iota. unfold createHostProfile.
    rewrite Htext. reflexivity.
Qed.

(** C5, counterexample.  Alice is a refugee and submits the same valid
    form twice.  The second request is answered 200 like the first and the
    table holds two refugee profiles of hers. *)
Lemma second_profile_is_accepted :
  let first := after (post_api_profiles_refugee 100 "alice" None refugee_form db0) in
  let second := post_api_profiles_refugee 200 "alice" None refugee_form first in
  map refugeeProfiles_userId (refugeeProfiles first) = ["alice"]
  /\ statusCode (result second) = 200
  /\ map refugeeProfiles_userId (refugeeProfiles (after second))
     = ["alice"; "alice"]
  /\ map refugeeProfiles_id (refugeeProfiles (after second)) = [1; 2].
Proof. repeat split; vm_compute; reflexivity. Qed.

(** C5, amended.  Profile submission makes no check for an existing
    profile.  For a known identity, every submission whose body passes the
    insert schema and whose text values hold no U+0000 appends exactly one
    profile row for that identity, whether or not the identity already has
    one.  A body in which a required field is missing or of another type,
    or one that passes the schema with U+0000 in a text value, is answered
    400 and leaves the database as it was. *)
Theorem submitProfile_always_appends now sub first_name body db :
  references_user db sub = true ->
  (forall p, insertRefugeeProfileSchema_parse body = Some p ->
   refugee_text p sub = true ->
   exists row,
     refugeeProfiles
       (after (post_api_profiles_refugee now sub first_name body db))
     = (refugeeProfiles db ++ [row])%list
     /\ refugeeProfiles_userId row = sub)
  /\ (forall p, insertHostProfileSchema_parse body = Some p ->
      host_text p sub = true ->
      exists row,
        hostProfiles
          (after (post_api_profiles_host now sub first_name body db))
        = (hostProfiles db ++ [row])%list
        /\ hostProfiles_userId row = sub)
  /\ (zInteger (field body "familySize") = None
      \/ zString (field body "estimatedStay") = None
      \/ (exists p, insertRefugeeProfileSchema_parse body = Some p
                    /\ refugee_text p sub = false) ->
      post_api_profiles_refugee now sub first_name body db
      = (res_status 400 "Failed to create profile", db))
  /\ (zString (field body "accommodationType") = None
      \/ zInteger (field body "maxOccupants") = None
      \/ zString (field body "availabilityDuration") = None
      \/ zString (field body "location") = None
      \/ (exists p, insertHostProfileSchema_parse body = Some p
                    /\ host_text p sub = false) ->
      post_api_profiles_host now sub first_name body db
      = (res_status 400 "Failed to create profile", db)).
Proof.
  intros Href. split; [|split; [|split]].
  - intros p. apply post_api_profiles_refugee_valid; assumption.
  - intros p. apply post_api_profiles_host_valid; assumption.
  - apply post_api_profiles_refugee_refused.
  - apply post_api_profiles_host_refused.
Qed.

Lemma submitProfile_always_appends_witness :
  let first := after (post_api_profiles_refugee 100 "alice" None refugee_form db0) in
  (exists row,
     refugeeProfiles
       (after (post_api_profiles_refugee 200 "alice" None refugee_form first))
     = (refugeeProfiles first ++ [row])%list
     /\ refugeeProfiles_userId row = "alice")
  /\ (exists row,
        hostProfiles (after (post_api_profiles_host 200 "bob" None host_form db0))
        = (hostProfiles db0 ++ [row])%list
        /\ hostProfiles_userId row = "bob")
  /\ post_api_profiles_refugee 200 "alice" None host_form first
     = (res_status 400 "Failed to create profile", first)
  /\ post_api_profiles_host 200 "bob" None nul_host_form db0
     = (res_status 400 "Failed to create profile", db0).
Proof.
  intros first. split; [|split; [|split]].
  - refine (proj1 (submitProfile_always_appends 200 "alice" None refugee_form
                     first eq_refl) _ eq_refl eq_refl).
  - refine (proj1 (proj2 (submitProfile_always_appends 200 "bob" None
                            host_form db0 eq_refl)) _ eq_refl eq_refl).
  - apply (proj1 (proj2 (proj2 (submitProfile_always_appends 200 "alice" None
                                  host_form first eq_refl)))).
    left. reflexivity.
  - apply (proj2 (proj2 (proj2 (submitProfile_always_appends 200 "bob" None
                                  nul_host_form db0 eq_refl)))).
    right. right. right. right. eexists. split; reflexivity.
Defined.

(** ** C6: profile review *)

Lemma review_route_admin now sub userId approved_ db :
  is_role admin (findUser db sub) = true ->
  users (after (post_api_admin_approve_profile now sub userId approved_ db))
  = reviewed_rows now userId approved_ (users db).
Proof.
  intros Hadm. unfold post_api_admin_approve_profile. unfold_async.
  rewrite Hadm. cbv beta iota zeta. unfold updateProfileStatus.
  cbv beta iota zeta. unfold negb.
  match goal with
  | |- context [createNotification ?t ?n ?d] =>
      pose proof (createNotification_keeps_users t n d) as Hk;
      destruct (createNotification t n d) as [[x|e] db']
  end; simpl in *; rewrite Hk; reflexivity.
Qed.

Lemma review_route_not_admin now sub userId approved_ db :
  is_role admin (findUser db sub) = false ->
  post_api_admin_approve_profile now sub userId approved_ db
  = (res_status 403 "Admin access required", db).
Proof.
  intros Hadm. unfold post_api_admin_approve_profile. unfold_async.
  rewrite Hadm. reflexivity.
Qed.

Lemma handle_users_step r db :
  users_step (users db) (users (after (handle r db))).
Proof.
  destruct r; cbn [handle].
  - unfold post_api_profiles_refugee.
    rewrite (keeps_try_catch users); [constructor|frame].
  - unfold post_api_profiles_host.
    rewrite (keeps_try_catch users); [constructor|frame].
  - destruct (is_role admin (findUser db sub)) eqn:Hadm.
    + rewrite review_route_admin by exact Hadm. constructor.
    + rewrite review_route_not_admin by exact Hadm. constructor.
  - unfold get_api_hosts_available.
    rewrite (keeps_try_catch users); [constructor|frame].
  - unfold get_api_messages_userId.
    rewrite (keeps_try_catch users); [constructor|frame].
  - unfold post_api_contracts.
    rewrite (keeps_try_catch users); [constructor|frame].
  - unfold post_api_contracts_sign.
    rewrite (keeps_try_catch users); [constructor|frame].
  - unfold post_api_contracts_approve.
    rewrite (keeps_try_catch users); [constructor|frame].
  - unfold post_api_notifications_read.
    rewrite (keeps_try_catch users); [constructor|frame].
  - unfold post_api_messages.
    rewrite (keeps_try_catch users); [constructor|frame].
Qed.

Lemma users_step_decided_kept l l' : users_step l l' -> decided_kept l l'.
Proof.
  intros [ | now userId a ] n u Hn.
  - exists u. auto.
  - unfold reviewed_rows. rewrite nth_error_map, Hn. simpl.
    eexists. split; [reflexivity|].
    destruct (String.eqb (users_id u) userId); simpl; [|auto].
    split; [reflexivity|]. intros _. destruct a; discriminate.
Qed.

Lemma run_decided_kept rs :
  forall db, decided_kept (users db) (users (run rs db)).
Proof.
  induction rs as [|r rs IH]; intros db n u Hn; simpl.
  - exists u. auto.
  - destruct (users_step_decided_kept _ _ (handle_users_step r db) n u Hn)
      as [u1 [Hn1 [Hid1 Hk1]]].
    destruct (IH _ n u1 Hn1) as [u2 [Hn2 [Hid2 Hk2]]].
    exists u2. repeat split; auto. congruence.
Qed.

(** C6, counterexample.  Carol's profile has been rejected.  A second
    review by the administrator is answered 200 and turns her status into
    approved. *)
Lemma rejected_profile_is_approved :
  option_map users_profileStatus (findUser db_review "carol") = Some rejected
  /\ result (post_api_admin_approve_profile 500 "admin" "carol" true db_review)
     = res_json json_success
  /\ option_map users_profileStatus
       (findUser
          (after (post_api_admin_approve_profile 500 "admin" "carol" true
                    db_review))
          "carol")
     = Some approved.
Proof. repeat split; vm_compute; reflexivity. Qed.

(** C6, amended.  A review does not look at the status it replaces: for an
    administrator the target's profile_status becomes approved or rejected
    as decided, whatever it was before (pending, approved or rejected); a
    caller who is not an administrator is answered 403 and nothing changes.
    No request sets a status to pending, so through any sequence of
    requests a status that is approved or rejected never returns to
    pending. *)
Theorem reviewProfile_overwrites_and_never_reopens :
  (forall now sub userId approved_ db,
   is_role admin (findUser db sub) = true ->
   users (after (post_api_admin_approve_profile now sub userId approved_ db))
   = map (fun u =>
            if String.eqb (users_id u) userId
            then set_profileStatus (if approved_ then approved else rejected)
                   now u
            else u)
       (users db))
  /\ (forall now sub userId approved_ db,
      is_role admin (findUser db sub) = false ->
      post_api_admin_approve_profile now sub userId approved_ db
      = (res_status 403 "Admin access required", db))
  /\ (forall rs db n u,
      nth_error (users db) n = Some u ->
      users_profileStatus u <> pending ->
      exists u', nth_error (users (run rs db)) n = Some u'
                 /\ users_id u' = users_id u
                 /\ users_profileStatus u' <> pending).
Proof.
  split; [|split].
  - intros. rewrite review_route_admin by assumption. reflexivity.
  - intros. apply review_route_not_admin. assumption.
  - intros rs db n u Hn Hdec.
    destruct (run_decided_kept rs db n u Hn) as [u' [Hn' [Hid Hk]]].
    exists u'. auto.
Qed.

Lemma reviewProfile_overwrites_and_never_reopens_witness :
  users (after (post_api_admin_approve_profile 500 "admin" "carol" true
                  db_review))
  = [set_profileStatus approved 500 carol; the_admin]
  /\ post_api_admin_approve_profile 500 "carol" "carol" true db_review
     = (res_status 403 "Admin access required", db_review)
  /\ exists u',
       nth_error
         (users (run [POST_admin_approve_profile 500 "admin" "carol" true;
                      POST_admin_approve_profile 600 "admin" "carol" false]
                   db_review)) 0
       = Some u'
       /\ users_id u' = "carol"
       /\ users_profileStatus u' <> pending.
Proof.
  split; [|split].
  - apply (proj1 reviewProfile_overwrites_and_never_reopens
             500 "admin" "carol" true db_review).
    reflexivity.
  - apply (proj1 (proj2 reviewProfile_overwrites_and_never_reopens)
             500 "carol" "carol" true db_review).
    reflexivity.
  - apply (proj2 (proj2 reviewProfile_overwrites_and_never_reopens)
             [POST_admin_approve_profile 500 "admin" "carol" true;
              POST_admin_approve_profile 600 "admin" "carol" false]
             db_review 0%nat carol).
    + reflexivity.
    + simpl. discriminate.
Defined.

(** The statement above is about requests.  [upsertUser] is no handler and
    no handler calls it; below the handlers it writes the profile_status
    it is given, pending included. *)
Example upsert_writes_the_status_it_is_given :
  option_map users_profileStatus (findUser db_review "carol") = Some rejected
  /\ option_map users_profileStatus
       (findUser
          (snd (upsertUser 600
                  {| uu_id := "carol";
                     uu_email := None;
                     uu_firstName := None;
                     uu_lastName := None;
                     uu_profileImageUrl := None;
                     uu_role := None;
                     uu_profileStatus := Some pending;
                     uu_createdAt := None;
                     uu_updatedAt := None |}
                  db_review))
          "carol")
     = Some pending.
Proof. split; reflexivity. Qed.

(** ** C7: the hosts an approved user may browse *)

Lemma approvedHosts_In db u p :
  In (u, p) (approvedHosts db)
  <-> In u (users db)
      /\ users_role u = host
      /\ users_profileStatus u = approved
      /\ In p (hostProfiles db)
      /\ hostProfiles_userId p = users_id u.
Proof.
  unfold approvedHosts. rewrite in_flat_map. split.
  - intros [u0 [Hu0 Hin]].
    destruct (ProfileStatus_eqb (users_profileStatus u0) approved) eqn:Hs;
      [|destruct Hin].
    destruct (UserRole_eqb (users_role u0) host) eqn:Hr; [|destruct Hin].
    simpl in Hin. apply in_map_iff in Hin.
    destruct Hin as [p0 [Heq Hp0]]. inversion Heq; subst u0 p0.
    apply filter_In in Hp0. destruct Hp0 as [Hp Hid].
    apply String.eqb_eq in Hid.
    repeat split; auto.
    + destruct (users_role u); simpl in Hr; congruence.
    + destruct (users_profileStatus u); simpl in Hs; congruence.
  - intros [Hu [Hr [Hs [Hp Hid]]]]. exists u. split; [exact Hu|].
    rewrite Hr, Hs. simpl. apply in_map_iff. exists p. split; [reflexivity|].
    apply filter_In. split; [exact Hp|]. apply String.eqb_eq. auto.
Qed.

(** C7, counterexample.  Dave is a host who has submitted no host profile;
    the administrator approves him.  Alice is approved and asks for the
    available hosts: the answer is 200 with an empty list, although Dave
    is a user with role host and profile_status approved. *)
Lemma approved_host_without_profile_is_not_listed :
  let db := after (post_api_admin_approve_profile 50 "admin" "dave" true
                     db_hosts) in
  option_map users_role (findUser db "dave") = Some host
  /\ option_map users_profileStatus (findUser db "dave") = Some approved
  /\ hostProfiles db = []
  /\ option_map users_profileStatus (findUser db "alice") = Some approved
  /\ get_api_hosts_available "alice" db = (res_json (json_hosts []), db).
Proof. repeat split; vm_compute; reflexivity. Qed.

(** C7, amended.  A requester whose profile_status is not approved (or who
    is unknown) is answered 403 and nothing changes.  For an approved
    requester the answer is 200 with the inner join of users and host
    profiles: its entries are exactly the pairs of a user with role host
    and profile_status approved and a host profile whose userId is that
    user's id.  An approved host who has no host profile is not in the
    answer. *)
Theorem listAvailableHosts_is_inner_join sub db :
  (is_approved (findUser db sub) = false ->
   get_api_hosts_available sub db
   = (res_status 403 "Profile must be approved to view hosts", db))
  /\ (is_approved (findUser db sub) = true ->
      exists l,
        get_api_hosts_available sub db = (res_json (json_hosts l), db)
        /\ forall u p,
             In (u, p) l
             <-> In u (users db)
                 /\ users_role u = host
                 /\ users_profileStatus u = approved
                 /\ In p (hostProfiles db)
                 /\ hostProfiles_userId p = users_id u).
Proof.
  unfold get_api_hosts_available, getApprovedHosts. unfold_async. split.
  - intros H. rewrite H. reflexivity.
  - intros H. rewrite H. exists (approvedHosts db). split; [reflexivity|].
    intros u p. apply approvedHosts_In.
Qed.

Lemma listAvailableHosts_is_inner_join_witness :
  get_api_hosts_available "mallory" db0
  = (res_status 403 "Profile must be approved to view hosts", db0)
  /\ exists l,
       get_api_hosts_available "alice" db0 = (res_json (json_hosts l), db0)
       /\ forall u p,
            In (u, p) l
            <-> In u (users db0)
                /\ users_role u = host
                /\ users_profileStatus u = approved
                /\ In p (hostProfiles db0)
                /\ hostProfiles_userId p = users_id u.
Proof.
  split.
  - apply (proj1 (listAvailableHosts_is_inner_join "mallory" db0)).
    reflexivity.
  - apply (proj2 (listAvailableHosts_is_inner_join "alice" db0)).
    reflexivity.
Defined.

(** ** C8: a conversation *)



Section OrderByFacts.
Context {A : Type} (key : A -> option Timestamp).

Lemma orderBy_insert_perm x l :
  Permutation (x :: l) (orderBy_insert key x l).
Proof.
  induction l as [|y l IH]; simpl.
  - apply Permutation_refl.
  - destruct (asc_leb (key x) (key y)).
    + apply Permutation_refl.
    + eapply perm_trans; [apply perm_swap|].
      apply perm_skip. exact IH.
Qed.

Lemma orderBy_asc_perm l : Permutation l (orderBy_asc key l).
Proof.
  induction l as [|x l IH]; simpl.
  - apply perm_nil.
  - eapply perm_trans; [apply perm_skip; exact IH|].
    apply orderBy_insert_perm.
Qed.





End OrderByFacts.



Example conversation_alice_bob :
  map messages_id (conversation db_chat "alice" "bob") = [2; 4; 1].
Proof. reflexivity. Qed.

(** ** C9: what a proposal must carry *)





(** ** C10: marking a notification as read *)

(** C10, counterexample.  Notification 1 of [db1] belongs to Bob.
    Mallory asks to mark it read: the request is answered 200 and the
    notification is read. *)
Lemma stranger_marks_notification_read :
  map (fun n => (notifications_id n, notifications_userId n,
                 notifications_read n)) (notifications db1)
  = [(1, "bob", Some false)]
  /\ result (post_api_notifications_read 1 "mallory" db1)
     = res_json json_success
  /\ map (fun n => (notifications_id n, notifications_userId n,
                    notifications_read n))
       (notifications (after (post_api_notifications_read 1 "mallory" db1)))
     = [(1, "bob", Some true)].
Proof. repeat split; vm_compute; reflexivity. Qed.

Lemma notification_key_stored db n :
  In n (notifications db) -> notification_key db (notifications_id n) = true.
Proof.
  intros Hin. unfold notification_key. apply orb_true_iff. right.
  apply existsb_exists. exists n. split; [exact Hin|apply Z.eqb_refl].
Qed.

Lemma notification_key_out_of_range db id :
  int4 id = false ->
  (forall n, In n (notifications db) -> int4 (notifications_id n) = true) ->
  notification_key db id = false.
Proof.
  intros Hid Hstored. unfold notification_key. rewrite Hid. cbn [orb].
  destruct (existsb _ (notifications db)) eqn:E; [|reflexivity].
  apply existsb_exists in E. destruct E as [n [Hin Hn]].
  apply Z.eqb_eq in Hn. specialize (Hstored n Hin).
  rewrite Hn in Hstored. congruence.
Qed.

Lemma read_route_accepted notificationId sub db :
  notification_key db notificationId = true ->
  post_api_notifications_read notificationId sub db
  = (res_json json_success,
     set_notifications db
       (map (fun n =>
               if (notifications_id n =? notificationId)%Z
               then set_read n else n)
          (notifications db))).
Proof.
  intros Hkey. unfold post_api_notifications_read. unfold_async.
  unfold markNotificationAsRead. rewrite Hkey. reflexivity.
Qed.

Lemma read_route_refused notificationId sub db :
  notification_key db notificationId = false ->
  post_api_notifications_read notificationId sub db
  = (res_status 500 "Failed to mark notification as read", db).
Proof.
  intros Hkey. unfold post_api_notifications_read. unfold_async.
  unfold markNotificationAsRead. rewrite Hkey. reflexivity.
Qed.

(** C10, amended.  Marking a notification as read does not depend on the
    caller.  Whoever asks, a request whose id is a 32-bit integer is
    answered 200, every notification with that id has its read flag set to
    true and nothing else is changed; in particular a stored notification
    is marked read on the request of a caller who is not its recipient.  A
    request whose id is no 32-bit integer is answered 500 and nothing is
    changed. *)
Theorem markNotificationAsRead_ignores_caller notificationId sub db :
  (int4 notificationId = true ->
   post_api_notifications_read notificationId sub db
   = (res_json json_success,
      set_notifications db
        (map (fun n =>
                if (notifications_id n =? notificationId)%Z
                then set_read n else n)
           (notifications db))))
  /\ (int4 notificationId = false ->
      (forall n, In n (notifications db) ->
                 int4 (notifications_id n) = true) ->
      post_api_notifications_read notificationId sub db
      = (res_status 500 "Failed to mark notification as read", db))
  /\ (forall n,
      In n (notifications db) ->
      notifications_id n = notificationId ->
      notifications_userId n <> sub ->
      result (post_api_notifications_read notificationId sub db)
      = res_json json_success
      /\ In (set_read n)
           (notifications
              (after (post_api_notifications_read notificationId sub db))))
  /\ (forall sub',
      post_api_notifications_read notificationId sub' db
      = post_api_notifications_read notificationId sub db).
Proof.
  split; [|split; [|split]].
  - intros Hid. apply read_route_accepted.
    unfold notification_key. rewrite Hid. reflexivity.
  - intros Hid Hstored. apply read_route_refused.
    apply notification_key_out_of_range; assumption.
  - intros n Hin Hn _. rewrite read_route_accepted
      by (rewrite <- Hn; apply notification_key_stored; exact Hin).
    split; [reflexivity|]. unfold after. cbn [snd notifications
      set_notifications].
    apply in_map_iff. exists n. split; [|exact Hin].
    rewrite Hn, Z.eqb_refl. reflexivity.
  - reflexivity.
Qed.

Lemma markNotificationAsRead_ignores_caller_witness :
  map (fun n => (notifications_id n, notifications_userId n,
                 notifications_read n))
    (notifications (after (post_api_notifications_read 1 "mallory" db1)))
  = [(1, "bob", Some true)]
  /\ post_api_notifications_read 2147483648 "bob" db1
     = (res_status 500 "Failed to mark notification as read", db1)
  /\ notifications db1 = [notification1]
  /\ result (post_api_notifications_read 1 "mallory" db1)
     = res_json json_success
  /\ In (set_read notification1)
       (notifications (after (post_api_notifications_read 1 "mallory" db1))).
Proof.
  split; [|split].
  - rewrite (proj1 (markNotificationAsRead_ignores_caller 1 "mallory" db1)
               eq_refl).
    reflexivity.
  - apply (proj1 (proj2 (markNotificationAsRead_ignores_caller
                           2147483648 "bob" db1))).
    + reflexivity.
    + intros n [<-|[]]. reflexivity.
  - split; [reflexivity|].
    apply (proj1 (proj2 (proj2 (markNotificationAsRead_ignores_caller
                                  1 "mallory" db1))) notification1).
    + left. reflexivity.
    + reflexivity.
    + discriminate.
Defined.

(** ** Listings in descending order *)

Lemma desc_leb_total a b : desc_leb a b = false -> desc_leb b a = true.
Proof.
  destruct a as [x|], b as [y|]; simpl; try congruence.
  intros H. apply Z.leb_gt in H. apply Z.leb_le. lia.
Qed.

Lemma desc_leb_trans a b c :
  desc_leb a b = true -> desc_leb b c = true -> desc_leb a c = true.
Proof.
  destruct a as [x|], b as [y|], c as [z|]; simpl; try congruence.
  rewrite !Z.leb_le. lia.
Qed.

Section OrderByDescFacts.
Context {A : Type} (key : A -> option Timestamp).

Lemma orderBy_desc_insert_perm x l :
  Permutation (x :: l) (orderBy_desc_insert key x l).
Proof.
  induction l as [|y l IH]; simpl.
  - apply Permutation_refl.
  - destruct (desc_leb (key x) (key y)).
    + apply Permutation_refl.
    + eapply perm_trans; [apply perm_swap|].
      apply perm_skip. exact IH.
Qed.

Lemma orderBy_desc_perm l : Permutation l (orderBy_desc key l).
Proof.
  induction l as [|x l IH]; simpl.
  - apply perm_nil.
  - eapply perm_trans; [apply perm_skip; exact IH|].
    apply orderBy_desc_insert_perm.
Qed.

Lemma orderBy_desc_insert_sorted x l :
  Sorted (desc_le key) l -> Sorted (desc_le key) (orderBy_desc_insert key x l).
Proof.
  induction 1 as [|y l Hs IH Hhd]; simpl.
  - repeat constructor.
  - destruct (desc_leb (key x) (key y)) eqn:E.
    + constructor; [constructor; assumption|]. constructor. exact E.
    + constructor; [exact IH|].
      apply desc_leb_total in E.
      destruct l as [|z l]; simpl.
      * constructor. exact E.
      * destruct (desc_leb (key x) (key z)); constructor;
          [exact E|inversion Hhd; assumption].
Qed.

Lemma orderBy_desc_strongly_sorted l :
  StronglySorted (desc_le key) (orderBy_desc key l).
Proof.
  apply Sorted_StronglySorted.
  - intros x y z. apply desc_leb_trans.
  - induction l as [|x l IH]; simpl.
    + constructor.
    + apply orderBy_desc_insert_sorted. exact IH.
Qed.

(** A listing [select ... where keep ... orderBy(desc(key))]: the rows that
    satisfy [keep], each as often as the table holds it, newest first. *)
Lemma listing_desc (keep : A -> bool) (table : list A) :
  let l := orderBy_desc key (filter keep table) in
  Permutation l (filter keep table)
  /\ (forall x, In x l <-> In x table /\ keep x = true)
  /\ StronglySorted (desc_le key) l
  /\ (forall l1 x l2 y l3 tx ty,
      l = (l1 ++ x :: l2 ++ y :: l3)%list ->
      key x = Some tx -> key y = Some ty -> (ty <= tx)%Z).
Proof.
  intros l. subst l. split; [|split; [|split]].
  - apply Permutation_sym, orderBy_desc_perm.
  - intros x. rewrite <- filter_In. split.
    + apply Permutation_in. apply Permutation_sym, orderBy_desc_perm.
    + apply Permutation_in. apply orderBy_desc_perm.
  - apply orderBy_desc_strongly_sorted.
  - pose proof (orderBy_desc_strongly_sorted (filter keep table)) as Hs.
    revert Hs. generalize (orderBy_desc key (filter keep table)).
    intros l Hs l1. revert l Hs.
    induction l1 as [|a l1 IH]; intros l Hs x l2 y l3 tx ty -> Hx Hy.
    + simpl in Hs. apply StronglySorted_inv in Hs. destruct Hs as [_ Hall].
      rewrite Forall_forall in Hall.
      specialize (Hall y (in_or_app _ _ _ (or_intror (in_eq _ _)))).
      unfold desc_le in Hall. rewrite Hx, Hy in Hall. simpl in Hall.
      apply Z.leb_le. exact Hall.
    + simpl in Hs. apply StronglySorted_inv in Hs. destruct Hs as [Hs _].
      eapply IH; eauto.
Qed.
End OrderByDescFacts.

(** X1.  GET /api/notifications answers with the caller's notifications and
    no one else's: the answer is a rearrangement of exactly the stored
    notifications whose recipient is the caller, newest first, and the
    database is not written. *)
Theorem notifications_listing_is_the_callers sub db :
  exists l,
    get_api_notifications sub db = (answer_json l, db)
    /\ Permutation l
         (filter (fun n => String.eqb (notifications_userId n) sub)
            (notifications db))
    /\ (forall n,
        In n l <-> In n (notifications db) /\ notifications_userId n = sub)
    /\ (forall l1 n1 l2 n2 l3 t1 t2,
        l = (l1 ++ n1 :: l2 ++ n2 :: l3)%list ->
        notifications_createdAt n1 = Some t1 ->
        notifications_createdAt n2 = Some t2 ->
        (t2 <= t1)%Z).
Proof.
  exists (userNotifications db sub). split; [reflexivity|].
  unfold userNotifications.
  destruct (listing_desc notifications_createdAt
              (fun n => String.eqb (notifications_userId n) sub)
              (notifications db)) as [Hp [Hin [_ Hord]]].
  split; [exact Hp|]. split; [|exact Hord].
  intros n. rewrite Hin, String.eqb_eq. tauto.
Qed.

(** X2.  GET /api/messages answers with exactly the stored messages the
    caller has sent or received, newest first; a message between two other
    users is never in the answer. *)
Theorem messages_listing_is_the_callers sub db :
  exists l,
    get_api_messages sub db = (answer_json l, db)
    /\ Permutation l (filter (involves sub) (messages db))
    /\ (forall m,
        In m l
        <-> In m (messages db)
            /\ (messages_senderId m = sub \/ messages_receiverId m = sub))
    /\ (forall l1 m1 l2 m2 l3 t1 t2,
        l = (l1 ++ m1 :: l2 ++ m2 :: l3)%list ->
        messages_createdAt m1 = Some t1 ->
        messages_createdAt m2 = Some t2 ->
        (t2 <= t1)%Z).
Proof.
  exists (userMessages db sub). split; [reflexivity|].
  unfold userMessages.
  destruct (listing_desc messages_createdAt (involves sub) (messages db))
    as [Hp [Hin [_ Hord]]].
  split; [exact Hp|]. split; [|exact Hord].
  intros m. rewrite Hin. unfold involves.
  rewrite orb_true_iff, !String.eqb_eq. tauto.
Qed.

(** X3.  GET /api/contracts answers with exactly the stored contracts that
    name the caller as refugee or as host, newest first; a contract between
    two other users is never in the answer. *)
Theorem contracts_listing_is_the_callers sub db :
  exists l,
    get_api_contracts sub db = (answer_json l, db)
    /\ Permutation l (filter (party sub) (contracts db))
    /\ (forall c,
        In c l
        <-> In c (contracts db)
            /\ (contracts_refugeeId c = sub \/ contracts_hostId c = sub))
    /\ (forall l1 c1 l2 c2 l3 t1 t2,
        l = (l1 ++ c1 :: l2 ++ c2 :: l3)%list ->
        contracts_createdAt c1 = Some t1 ->
        contracts_createdAt c2 = Some t2 ->
        (t2 <= t1)%Z).
Proof.
  exists (userContracts db sub). split; [reflexivity|].
  unfold userContracts.
  destruct (listing_desc contracts_createdAt (party sub) (contracts db))
    as [Hp [Hin [_ Hord]]].
  split; [exact Hp|]. split; [|exact Hord].
  intros c. rewrite Hin. unfold party.
  rewrite orb_true_iff, !String.eqb_eq. tauto.
Qed.

(** ** Review and the pending list *)

Lemma find_map_keeping {A} (p : A -> bool) (f : A -> A) l :
  (forall x, p (f x) = p x) ->
  find p (map f l) = option_map f (find p l).
Proof.
  intros Hp. induction l as [|x l IH]; simpl; [reflexivity|].
  rewrite Hp. destruct (p x); [reflexivity|exact IH].
Qed.

Lemma existsb_map_keeping {A} (p : A -> bool) (f : A -> A) l :
  (forall x, p (f x) = p x) ->
  existsb p (map f l) = existsb p l.
Proof.
  intros Hp. induction l as [|x l IH]; simpl; [reflexivity|].
  rewrite Hp, IH. reflexivity.
Qed.

Lemma reviewed_row_id now userId (approved_ : bool) u :
  users_id
    (if String.eqb (users_id u) userId
     then set_profileStatus (if approved_ then approved else rejected) now u
     else u)
  = users_id u.
Proof. destruct (String.eqb (users_id u) userId); reflexivity. Qed.

Lemma findUser_reviewed now userId (approved_ : bool) db id :
  find (fun u => String.eqb (users_id u) id)
    (reviewed_rows now userId approved_ (users db))
  = option_map
      (fun u =>
         if String.eqb (users_id u) userId
         then set_profileStatus (if approved_ then approved else rejected)
                now u
         else u)
      (findUser db id).
Proof.
  unfold reviewed_rows, findUser. apply find_map_keeping.
  intros u. rewrite reviewed_row_id. reflexivity.
Qed.

Lemma getPendingProfiles_loop_eq pendingUsers db :
  getPendingProfiles_loop pendingUsers db
  = (Returned
       (map (fun u =>
               {| pp_user := u;
                  pp_refugeeProfile :=
                    find (fun p => String.eqb (refugeeProfiles_userId p)
                                     (users_id u))
                      (refugeeProfiles db);
                  pp_hostProfile :=
                    find (fun p => String.eqb (hostProfiles_userId p)
                                     (users_id u))
                      (hostProfiles db) |})
          pendingUsers), db).
Proof.
  induction pendingUsers as [|u l IH]; simpl; [reflexivity|].
  unfold bind, getRefugeeProfile, getHostProfile. rewrite IH. reflexivity.
Qed.

(** X4.  GET /api/admin/pending-profiles is for administrators: any other
    caller is answered 403.  An administrator receives one entry for each
    user whose profile_status is pending and for no other user; the entry
    carries a refugee (host) profile exactly when the user has one, and
    that profile is one of the user's own. *)
Theorem pending_profiles_listing sub db :
  (is_role admin (findUser db sub) = false ->
   get_api_admin_pending_profiles sub db
   = (answer_status 403 "Admin access required", db))
  /\ (is_role admin (findUser db sub) = true ->
      exists l,
        get_api_admin_pending_profiles sub db = (answer_json l, db)
        /\ map pp_user l
           = filter (fun u => ProfileStatus_eqb (users_profileStatus u) pending)
               (users db)
        /\ (forall e, In e l ->
            (forall p, pp_refugeeProfile e = Some p ->
             In p (refugeeProfiles db)
             /\ refugeeProfiles_userId p = users_id (pp_user e))
            /\ (pp_refugeeProfile e = None ->
                forall p, In p (refugeeProfiles db) ->
                refugeeProfiles_userId p <> users_id (pp_user e))
            /\ (forall p, pp_hostProfile e = Some p ->
                In p (hostProfiles db)
                /\ hostProfiles_userId p = users_id (pp_user e))
            /\ (pp_hostProfile e = None ->
                forall p, In p (hostProfiles db) ->
                hostProfiles_userId p <> users_id (pp_user e)))).
Proof.
  unfold get_api_admin_pending_profiles, try_answer, bind, getUser, ret.
  split; intros Hadm; rewrite Hadm; simpl; [reflexivity|].
  unfold getPendingProfiles. rewrite getPendingProfiles_loop_eq.
  eexists. split; [reflexivity|]. split.
  - rewrite map_map. simpl. apply map_id.
  - intros e He. apply in_map_iff in He. destruct He as [u [<- _]]. simpl.
    repeat split.
    + eapply find_some; eauto.
    + apply find_some in H. apply String.eqb_eq. tauto.
    + intros Hnone p Hp Hid.
      pose proof (find_none _ _ Hnone p Hp) as Hf. simpl in Hf.
      rewrite Hid, String.eqb_refl in Hf. discriminate.
    + eapply find_some; eauto.
    + apply find_some in H. apply String.eqb_eq. tauto.
    + intros Hnone p Hp Hid.
      pose proof (find_none _ _ Hnone p Hp) as Hf. simpl in Hf.
      rewrite Hid, String.eqb_refl in Hf. discriminate.
Qed.

Lemma pending_profiles_listing_witness :
  get_api_admin_pending_profiles "alice" db_hosts
  = (answer_status 403 "Admin access required", db_hosts)
  /\ exists l,
       get_api_admin_pending_profiles "admin" db_hosts
       = (answer_json l, db_hosts)
       /\ map pp_user l = [dave].
Proof.
  split.
  - apply (proj1 (pending_profiles_listing "alice" db_hosts)). reflexivity.
  - destruct (proj2 (pending_profiles_listing "admin" db_hosts) eq_refl)
      as [l [Hl [Hu _]]].
    exists l. split; [exact Hl|exact Hu].
Defined.

Lemma review_route_known_target now sub userId (approved_ : bool) db u :
  is_role admin (findUser db sub) = true ->
  findUser db userId = Some u ->
  post_api_admin_approve_profile now sub userId approved_ db
  = (res_json json_success,
     insert_notification
       (set_users db (reviewed_rows now userId approved_ (users db)))
       {| notifications_id := notifications_seq db;
          notifications_userId := userId;
          notifications_title :=
            "Profile " ++ (if approved_ then "Approved" else "Rejected");
          notifications_content :=
            "Your profile has been "
            ++ (if approved_ then "approved" else "rejected")
            ++ " by the admin team.";
          notifications_type := "approval";
          notifications_read := Some false;
          notifications_createdAt := Some now |}).
Proof.
  intros Hadm Hu. unfold post_api_admin_approve_profile. unfold_async.
  rewrite Hadm. change (negb true) with false. cbv beta iota zeta.
  unfold updateProfileStatus. cbv beta iota zeta.
  unfold createNotification, notification_text, notification.
  cbn [in_userId in_title in_content in_type in_read].
  replace (references_user
             (set_users db
                (map (fun u0 =>
                        if String.eqb (users_id u0) userId
                        then set_profileStatus
                               (if approved_ then approved else rejected)
                               now u0
                        else u0) (users db))) userId) with true.
  - rewrite orb_true_r. destruct approved_; reflexivity.
  - symmetry. unfold references_user. cbn [users set_users].
    rewrite existsb_map_keeping.
    + eapply findUser_references; eauto.
    + intros x. rewrite reviewed_row_id. reflexivity.
Qed.

(** X5.  Once an administrator has reviewed a user, with either decision,
    the pending list no longer shows that user; for every other user the
    list is as before the review. *)
Theorem reviewed_user_leaves_pending_list now sub userId approved_ db :
  is_role admin (findUser db sub) = true ->
  let db' :=
    after (post_api_admin_approve_profile now sub userId approved_ db) in
  exists l,
    get_api_admin_pending_profiles sub db' = (answer_json l, db')
    /\ (forall e, In e l -> users_id (pp_user e) <> userId)
    /\ (forall u, users_id u <> userId ->
        (In u (map pp_user l)
         <-> In u (users db) /\ users_profileStatus u = pending)).
Proof.
  intros Hadm db'.
  assert (Husers : users db' = reviewed_rows now userId approved_ (users db))
    by (apply review_route_admin; exact Hadm).
  assert (Hadm' : is_role admin (findUser db' sub) = true).
  { unfold findUser. rewrite Husers, findUser_reviewed.
    unfold is_role in *. destruct (findUser db sub) as [a|]; simpl in *;
      [|discriminate].
    destruct (String.eqb (users_id a) userId); exact Hadm. }
  unfold get_api_admin_pending_profiles, try_answer, bind, getUser, ret.
  rewrite Hadm'. simpl. unfold getPendingProfiles.
  rewrite getPendingProfiles_loop_eq.
  eexists. split; [reflexivity|]. rewrite Husers. split.
  - intros e He. apply in_map_iff in He. destruct He as [u [<- Hu]]. simpl.
    apply filter_In in Hu. destruct Hu as [Hu Hpend].
    unfold reviewed_rows in Hu. apply in_map_iff in Hu.
    destruct Hu as [u0 [<- _]]. intros Hid.
    destruct (String.eqb (users_id u0) userId) eqn:E.
    + simpl in Hpend. destruct approved_; discriminate.
    + apply String.eqb_neq in E. contradiction.
  - intros u Hid. rewrite map_map. simpl. rewrite map_id, filter_In.
    unfold reviewed_rows. rewrite in_map_iff. split.
    + intros [[u0 [Hu0 Hin]] Hpend].
      destruct (String.eqb (users_id u0) userId) eqn:E.
      * subst u. simpl in Hid. apply String.eqb_eq in E. contradiction.
      * subst u0. split; [exact Hin|].
        destruct (users_profileStatus u); simpl in Hpend; congruence.
    + intros [Hin Hpend]. split.
      * exists u. split; [|exact Hin].
        apply String.eqb_neq in Hid. rewrite Hid. reflexivity.
      * rewrite Hpend. reflexivity.
Qed.

Lemma reviewed_user_leaves_pending_list_witness :
  let db' :=
    after (post_api_admin_approve_profile 50 "admin" "dave" false db_hosts) in
  exists l,
    get_api_admin_pending_profiles "admin" db' = (answer_json l, db')
    /\ (forall e, In e l -> users_id (pp_user e) <> "dave")
    /\ (forall u, users_id u <> "dave" ->
        (In u (map pp_user l)
         <-> In u (users db_hosts) /\ users_profileStatus u = pending)).
Proof.
  apply (reviewed_user_leaves_pending_list 50 "admin" "dave" false db_hosts).
  reflexivity.
Defined.

(** X6.  The review decides whether its target may browse hosts: after an
    administrator has approved a known user, that user's GET
    /api/hosts/available is answered 200; after a rejection it is answered
    403. *)
Theorem review_decides_browsing now sub userId (approved_ : bool) db u :
  is_role admin (findUser db sub) = true ->
  findUser db userId = Some u ->
  let db' :=
    after (post_api_admin_approve_profile now sub userId approved_ db) in
  get_api_hosts_available userId db'
  = if approved_
    then (res_json (json_hosts (approvedHosts db')), db')
    else (res_status 403 "Profile must be approved to view hosts", db').
Proof.
  intros Hadm Hu db'.
  assert (Husers : users db' = reviewed_rows now userId approved_ (users db))
    by (apply review_route_admin; exact Hadm).
  assert (Happ : is_approved (findUser db' userId) = approved_).
  { unfold findUser at 1. rewrite Husers, findUser_reviewed, Hu. simpl.
    apply find_some in Hu. destruct Hu as [_ Hid]. rewrite Hid.
    destruct approved_; reflexivity. }
  unfold get_api_hosts_available, getApprovedHosts. unfold_async.
  rewrite Happ. destruct approved_; reflexivity.
Qed.

Lemma review_decides_browsing_witness :
  let db' :=
    after (post_api_admin_approve_profile 50 "admin" "mallory" true db0) in
  get_api_hosts_available "mallory" db'
  = (res_json (json_hosts (approvedHosts db')), db').
Proof.
  apply (review_decides_browsing 50 "admin" "mallory" true db0 mallory);
    reflexivity.
Defined.

(** X7.  The review of a known user is answered 200 and adds exactly one
    notification: addressed to the reviewed user, titled "Profile
    Approved" or "Profile Rejected" as decided, unread, stamped with the
    time of the review.  The reviewed user finds it in GET
    /api/notifications. *)
Theorem review_notifies_target now sub userId (approved_ : bool) db u :
  is_role admin (findUser db sub) = true ->
  findUser db userId = Some u ->
  let r := post_api_admin_approve_profile now sub userId approved_ db in
  result r = res_json json_success
  /\ exists n,
       notifications (after r) = (notifications db ++ [n])%list
       /\ notifications_userId n = userId
       /\ notifications_title n
          = (if approved_ then "Profile Approved" else "Profile Rejected")
       /\ notifications_read n = Some false
       /\ notifications_createdAt n = Some now
       /\ exists l,
            get_api_notifications userId (after r) = (answer_json l, after r)
            /\ In n l.
Proof.
  intros Hadm Hu r. subst r.
  rewrite (review_route_known_target now sub userId approved_ db u Hadm Hu).
  unfold result, after. cbn [fst snd]. split; [reflexivity|].
  eexists. split; [reflexivity|]. cbn [notifications_userId
    notifications_title notifications_read notifications_createdAt].
  split; [reflexivity|]. split; [destruct approved_; reflexivity|].
  split; [reflexivity|]. split; [reflexivity|].
  eexists. split; [reflexivity|].
  unfold userNotifications.
  eapply Permutation_in; [apply orderBy_desc_perm|].
  apply filter_In. split.
  - cbn [notifications insert_notification]. apply in_or_app. right.
    left. reflexivity.
  - cbn [notifications_userId]. apply String.eqb_refl.
Qed.

Lemma review_notifies_target_witness :
  let r := post_api_admin_approve_profile 50 "admin" "mallory" true db0 in
  result r = res_json json_success
  /\ exists n,
       notifications (after r) = (notifications db0 ++ [n])%list
       /\ notifications_userId n = "mallory"
       /\ notifications_title n = "Profile Approved"
       /\ notifications_read n = Some false
       /\ notifications_createdAt n = Some 50
       /\ exists l,
            get_api_notifications "mallory" (after r)
            = (answer_json l, after r)
            /\ In n l.
Proof.
  apply (review_notifies_target 50 "admin" "mallory" true db0 mallory);
    reflexivity.
Defined.

(** ** Frame lemmas for any component *)

Section FrameAny.
Context {T : Type} (proj : Db -> T).

Lemma createNotification_keeps now n :
  (forall db row, proj (insert_notification db row) = proj db) ->
  (forall db, proj (skip_notifications_seq db) = proj db) ->
  keeps proj (createNotification now n).
Proof.
  intros H Hs db. unfold createNotification. repeat case_if; simpl; auto.
Qed.

Lemma createRefugeeProfile_keeps now p id :
  (forall db row, proj (insert_refugeeProfile db row) = proj db) ->
  (forall db, proj (skip_refugeeProfiles_seq db) = proj db) ->
  keeps proj (createRefugeeProfile now p id).
Proof.
  intros H Hs db. unfold createRefugeeProfile. repeat case_if; simpl; auto.
Qed.

Lemma createHostProfile_keeps now p id :
  (forall db row, proj (insert_hostProfile db row) = proj db) ->
  (forall db, proj (skip_hostProfiles_seq db) = proj db) ->
  keeps proj (createHostProfile now p id).
Proof.
  intros H Hs db. unfold createHostProfile. repeat case_if; simpl; auto.
Qed.

Lemma createContract_keeps now c :
  (forall db row, proj (insert_contract db row) = proj db) ->
  (forall db, proj (skip_contracts_seq db) = proj db) ->
  keeps proj (createContract now c).
Proof.
  intros H Hs db. unfold createContract. repeat case_if; simpl; auto.
Qed.

Lemma sendMessage_keeps now m :
  (forall db row, proj (insert_message db row) = proj db) ->
  (forall db, proj (skip_messages_seq db) = proj db) ->
  keeps proj (sendMessage now m).
Proof.
  intros H Hs db. unfold sendMessage. repeat case_if; simpl; auto.
Qed.

Lemma updateProfileStatus_keeps now id st :
  (forall db l, proj (set_users db l) = proj db) ->
  keeps proj (updateProfileStatus now id st).
Proof. intros H db. simpl. auto. Qed.

Lemma signContract_keeps now id r :
  (forall db l, proj (set_contracts db l) = proj db) ->
  keeps proj (signContract now id r).
Proof.
  intros H db. unfold signContract. repeat case_if; simpl; auto.
Qed.

Lemma approveContract_keeps now id a :
  (forall db l, proj (set_contracts db l) = proj db) ->
  keeps proj (approveContract now id a).
Proof.
  intros H db. unfold approveContract. repeat case_if; simpl; auto.
Qed.

Lemma markNotificationAsRead_keeps id :
  (forall db l, proj (set_notifications db l) = proj db) ->
  keeps proj (markNotificationAsRead id).
Proof.
  intros H db. unfold markNotificationAsRead. repeat case_if; simpl; auto.
Qed.
End FrameAny.

Ltac frame_any :=
  repeat first
    [ progress intros
    | apply keeps_ret | apply keeps_throw | apply keeps_parse
    | apply keeps_getUser | apply keeps_getContract
    | apply keeps_getApprovedHosts | apply keeps_getConversation
    | apply keeps_bind
    | apply createNotification_keeps; reflexivity
    | apply createRefugeeProfile_keeps; reflexivity
    | apply createHostProfile_keeps; reflexivity
    | apply createContract_keeps; reflexivity
    | apply sendMessage_keeps; reflexivity
    | apply updateProfileStatus_keeps; reflexivity
    | apply signContract_keeps; reflexivity
    | apply approveContract_keeps; reflexivity
    | apply markNotificationAsRead_keeps; reflexivity
    | match goal with
      | |- keeps _ (match ?x with _ => _ end) => destruct x
      end
    | progress cbv zeta ].

(** ** Contract keys *)

Lemma signed_rows_ids now contractId r l :
  map contracts_id (signed_rows now contractId r l) = map contracts_id l.
Proof.
  unfold signed_rows. rewrite map_map. apply map_ext. intros c.
  destruct (contracts_id c =? contractId)%Z; [apply updateData_id|reflexivity].
Qed.

Lemma approved_rows_ids now contractId a l :
  map contracts_id (approved_rows now contractId a l) = map contracts_id l.
Proof.
  unfold approved_rows. rewrite map_map. apply map_ext. intros c.
  destruct (contracts_id c =? contractId)%Z; reflexivity.
Qed.

Lemma handle_contracts_move r db : contracts_move db (after (handle r db)).
Proof.
  destruct r; cbn [handle].
  - unfold post_api_profiles_refugee. apply move_kept.
    + rewrite (keeps_try_catch contracts); [reflexivity|frame_any].
    + rewrite (keeps_try_catch contracts_seq); [apply Z.le_refl|frame_any].
  - unfold post_api_profiles_host. apply move_kept.
    + rewrite (keeps_try_catch contracts); [reflexivity|frame_any].
    + rewrite (keeps_try_catch contracts_seq); [apply Z.le_refl|frame_any].
  - unfold post_api_admin_approve_profile. apply move_kept.
    + rewrite (keeps_try_catch contracts); [reflexivity|frame_any].
    + rewrite (keeps_try_catch contracts_seq); [apply Z.le_refl|frame_any].
  - unfold get_api_hosts_available. apply move_kept.
    + rewrite (keeps_try_catch contracts); [reflexivity|frame_any].
    + rewrite (keeps_try_catch contracts_seq); [apply Z.le_refl|frame_any].
  - unfold get_api_messages_userId. apply move_kept.
    + rewrite (keeps_try_catch contracts); [reflexivity|frame_any].
    + rewrite (keeps_try_catch contracts_seq); [apply Z.le_refl|frame_any].
  - rewrite post_api_contracts_eq.
    destruct (insertContractSchema_parse body) as [parsed|];
      [|apply move_kept; [reflexivity|apply Z.le_refl]].
    set (cd := contractData_of db sub parsed).
    unfold createContract.
    destruct (negb (contract_text cd));
      [apply move_kept; [reflexivity|apply Z.le_refl]|].
    destruct (references_user db (ic_refugeeId cd)
              && references_user db (ic_hostId cd));
      [|apply move_kept; [reflexivity|simpl; lia]].
    match goal with
    | |- context [createNotification ?t ?n ?d] =>
        pose proof (createNotification_keeps contracts t n
                      (fun _ _ => eq_refl) (fun _ => eq_refl) d) as Hk;
        pose proof (createNotification_keeps contracts_seq t n
                      (fun _ _ => eq_refl) (fun _ => eq_refl) d) as Hs;
        destruct (createNotification t n d) as [[x|e] db']
    end; simpl in *; unfold after; simpl;
      (eapply move_created; [rewrite Hk; reflexivity|reflexivity|
                             rewrite Hs; reflexivity]).
  - assert (Hseq : contracts_seq
                     (after (post_api_contracts_sign now contractId sub db))
                   = contracts_seq db).
    { unfold post_api_contracts_sign.
      rewrite (keeps_try_catch contracts_seq); [reflexivity|frame_any]. }
    apply move_kept; [|rewrite Hseq; apply Z.le_refl].
    pose proof (handle_contracts_step (POST_contracts_sign now contractId sub) db)
      as Hstep.
    cbn [handle] in Hstep.
    destruct (findUser db sub) as [u|] eqn:Hu.
    + destruct (UserRole_eqb (users_role u) admin) eqn:Hr.
      * rewrite sign_route_refused; [reflexivity|].
        right. unfold is_role. rewrite Hu. exact Hr.
      * destruct (sign_route_signer now contractId sub db u Hu) as [-> _].
        { intros E. rewrite E in Hr. discriminate. }
        apply signed_rows_ids.
    + rewrite sign_route_refused; [reflexivity|]. left. exact Hu.
  - assert (Hseq : contracts_seq
                     (after (post_api_contracts_approve now contractId sub db))
                   = contracts_seq db).
    { unfold post_api_contracts_approve.
      rewrite (keeps_try_catch contracts_seq); [reflexivity|frame_any]. }
    apply move_kept; [|rewrite Hseq; apply Z.le_refl].
    destruct (is_role admin (findUser db sub)) eqn:Hadm.
    + destruct (approve_route_admin now contractId sub db Hadm) as [-> _].
      apply approved_rows_ids.
    + rewrite approve_route_not_admin by exact Hadm. reflexivity.
  - unfold post_api_notifications_read. apply move_kept.
    + rewrite (keeps_try_catch contracts); [reflexivity|frame_any].
    + rewrite (keeps_try_catch contracts_seq); [apply Z.le_refl|frame_any].
  - unfold post_api_messages. apply move_kept.
    + rewrite (keeps_try_catch contracts); [reflexivity|frame_any].
    + rewrite (keeps_try_catch contracts_seq); [apply Z.le_refl|frame_any].
Qed.

Lemma contracts_move_issued db db' :
  contracts_move db db' ->
  contract_ids_issued db /\ NoDup (map contracts_id (contracts db)) ->
  contract_ids_issued db' /\ NoDup (map contracts_id (contracts db')).
Proof.
  unfold contract_ids_issued.
  intros [Hids Hseq | row Hrows Hid Hseq] [Hiss Hnd].
  - split; [|rewrite Hids; exact Hnd].
    rewrite Forall_forall in *. intros c Hc.
    assert (Hin : In (contracts_id c) (map contracts_id (contracts db)))
      by (rewrite <- Hids; apply in_map; exact Hc).
    apply in_map_iff in Hin. destruct Hin as [c0 [<- Hc0]].
    specialize (Hiss c0 Hc0). lia.
  - rewrite Hrows, Hseq. split.
    + apply Forall_app. split.
      * eapply Forall_impl; [|exact Hiss]. simpl. intros; lia.
      * constructor; [lia|constructor].
    + rewrite map_app. simpl.
      apply NoDup_app_remove_l with (l := []). simpl.
      apply Permutation_NoDup
        with (l := contracts_id row :: map contracts_id (contracts db)).
      * apply Permutation_cons_append.
      * constructor; [|exact Hnd].
        intros Hin. apply in_map_iff in Hin. destruct Hin as [c0 [E Hc0]].
        rewrite Forall_forall in Hiss. specialize (Hiss c0 Hc0). lia.
Qed.

(** X8.  In every reachable database the contracts carry pairwise distinct
    ids, all of them below the counter of the [serial] column: a contract
    id names at most one contract. *)
Theorem reachable_contract_ids_distinct db :
  reachable db ->
  NoDup (map contracts_id (contracts db))
  /\ Forall (fun c => (contracts_id c < contracts_seq db)%Z) (contracts db).
Proof.
  intros Hreach.
  cut (contract_ids_issued db /\ NoDup (map contracts_id (contracts db)));
    [tauto|].
  induction Hreach as [db Hnil | r db Hreach IH].
  - unfold contract_ids_issued. rewrite Hnil. split; constructor.
  - eapply contracts_move_issued; [apply handle_contracts_move|exact IH].
Qed.

Lemma reachable_contract_ids_distinct_witness :
  NoDup (map contracts_id (contracts db1))
  /\ Forall (fun c => (contracts_id c < contracts_seq db1)%Z) (contracts db1).
Proof.
  apply (reachable_contract_ids_distinct db1).
  apply (reachable_step (POST_contracts 100 "alice" proposal) db0).
  apply reachable_start. reflexivity.
Defined.

Lemma find_app_fresh {A} (p : A -> bool) l x :
  (forall y, In y l -> p y = false) -> p x = true ->
  find p (l ++ [x]) = Some x.
Proof.
  intros Hl Hx. induction l as [|y l IH]; simpl.
  - rewrite Hx. reflexivity.
  - rewrite (Hl y (in_eq _ _)). apply IH. intros z Hz. apply Hl. right.
    exact Hz.
Qed.

(** X9.  A proposal that is answered with a contract has stored exactly
    that contract: it is appended to the table under the next id, and
    looking the id up returns it.  The stored contract carries no
    signature and no approval whatever the body contained, is stamped with
    the time of the request, and names the caller in the slot of the
    caller's role (refugeeId for a refugee, hostId for a host) whatever
    the body said there. *)
Theorem proposal_round_trip now sub body db c db' :
  contract_ids_issued db ->
  post_api_contracts now sub body db = (res_json (json_contract c), db') ->
  contracts db' = (contracts db ++ [c])%list
  /\ findContract db' (contracts_id c) = Some c
  /\ contracts_id c = contracts_seq db
  /\ contracts_refugeeSignedAt c = None
  /\ contracts_hostSignedAt c = None
  /\ contracts_adminApprovedAt c = None
  /\ contracts_adminApprovedBy c = None
  /\ contracts_createdAt c = Some now
  /\ (is_role refugee (findUser db sub) = true -> contracts_refugeeId c = sub)
  /\ (is_role host (findUser db sub) = true -> contracts_hostId c = sub).
Proof.
  intros Hiss. rewrite post_api_contracts_eq.
  destruct (insertContractSchema_parse body) as [parsed|];
    [|discriminate].
  cbv zeta. unfold createContract.
  set (cd := contractData_of db sub parsed).
  destruct (negb (contract_text cd)); [discriminate|].
  destruct (references_user db (ic_refugeeId cd)
            && references_user db (ic_hostId cd)); [|discriminate].
  match goal with
  | |- context [createNotification ?t ?n ?d] =>
      pose proof (createNotification_keeps contracts t n
                    (fun _ _ => eq_refl) (fun _ => eq_refl) d) as Hk;
      destruct (createNotification t n d) as [[x|e] db'']
  end; [|discriminate].
  intros H. inversion H; subst c db'. clear H. simpl in Hk.
  assert (Hfind : findContract db''
                    (contracts_seq db)
                  = Some
                      {| contracts_id := contracts_seq db;
                         contracts_refugeeId := ic_refugeeId cd;
                         contracts_hostId := ic_hostId cd;
                         contracts_status := ic_status cd;
                         contracts_terms := ic_terms cd;
                         contracts_duration := ic_duration cd;
                         contracts_startDate := ic_startDate cd;
                         contracts_endDate := ic_endDate cd;
                         contracts_refugeeSignedAt := None;
                         contracts_hostSignedAt := None;
                         contracts_adminApprovedAt := None;
                         contracts_adminApprovedBy := None;
                         contracts_createdAt := Some now;
                         contracts_updatedAt := Some now |}).
  { unfold findContract. rewrite Hk. apply find_app_fresh.
    - intros y Hy. unfold contract_ids_issued in Hiss.
      rewrite Forall_forall in Hiss. specialize (Hiss y Hy).
      apply Z.eqb_neq. lia.
    - simpl. apply Z.eqb_refl. }
  cbn [contracts_id contracts_refugeeSignedAt contracts_hostSignedAt
       contracts_adminApprovedAt contracts_adminApprovedBy
       contracts_createdAt contracts_refugeeId contracts_hostId].
  split; [exact Hk|]. split; [exact Hfind|].
  repeat (split; [reflexivity|]).
  subst cd. unfold contractData_of. split.
  - intros Hr. rewrite Hr. reflexivity.
  - intros Hh. rewrite Hh.
    destruct (is_role refugee (findUser db sub)) eqn:Hr; [|reflexivity].
    unfold is_role in *. destruct (role_of (findUser db sub)) as [r|];
      [|discriminate].
    destruct r; discriminate.
Qed.

Lemma proposal_round_trip_witness :
  contracts db1 = (contracts db0 ++ [contract1])%list
  /\ findContract db1 (contracts_id contract1) = Some contract1
  /\ contracts_id contract1 = contracts_seq db0
  /\ contracts_refugeeSignedAt contract1 = None
  /\ contracts_hostSignedAt contract1 = None
  /\ contracts_adminApprovedAt contract1 = None
  /\ contracts_adminApprovedBy contract1 = None
  /\ contracts_createdAt contract1 = Some 100
  /\ (is_role refugee (findUser db0 "alice") = true ->
      contracts_refugeeId contract1 = "alice")
  /\ (is_role host (findUser db0 "alice") = true ->
      contracts_hostId contract1 = "alice").
Proof.
  apply (proposal_round_trip 100 "alice" proposal db0 contract1 db1).
  - constructor.
  - reflexivity.
Defined.

(** ** Signing and approving, row by row *)

Lemma set_contracts_same db : set_contracts db (contracts db) = db.
Proof. destruct db; reflexivity. Qed.

Lemma set_notifications_same db :
  set_notifications db (notifications db) = db.
Proof. destruct db; reflexivity. Qed.

Lemma map_unmatched {A} (p : A -> bool) (f : A -> A) l :
  find p l = None -> map (fun x => if p x then f x else x) l = l.
Proof.
  induction l as [|x l IH]; simpl; [reflexivity|].
  destruct (p x); [discriminate|]. intros H. rewrite IH by exact H.
  reflexivity.
Qed.

Lemma find_none_existsb {A} (p : A -> bool) l :
  find p l = None -> existsb p l = false.
Proof.
  induction l as [|x l IH]; simpl; [reflexivity|].
  destruct (p x); [discriminate|exact IH].
Qed.

Lemma find_map_matched {A} (p : A -> bool) (f : A -> A) l :
  (forall x, p (f x) = p x) ->
  find p (map (fun x => if p x then f x else x) l) = option_map f (find p l).
Proof.
  intros Hp. induction l as [|x l IH]; simpl; [reflexivity|].
  destruct (p x) eqn:E.
  - rewrite Hp, E. reflexivity.
  - rewrite E. exact IH.
Qed.

Lemma findContract_signed now contractId r db :
  findContract
    (set_contracts db (signed_rows now contractId r (contracts db)))
    contractId
  = option_map (updateData now r) (findContract db contractId).
Proof.
  unfold findContract, signed_rows. cbn [contracts set_contracts].
  apply (find_map_matched (fun c => (contracts_id c =? contractId)%Z)).
  intros c. rewrite updateData_id. reflexivity.
Qed.

Lemma findContract_approved now contractId a db :
  findContract
    (set_contracts db (approved_rows now contractId a (contracts db)))
    contractId
  = option_map (set_approved now a) (findContract db contractId).
Proof.
  unfold findContract, approved_rows. cbn [contracts set_contracts].
  apply (find_map_matched (fun c => (contracts_id c =? contractId)%Z)).
  intros c. reflexivity.
Qed.

Lemma both_signed_after now r c :
  both_signed (Some (updateData now r c))
  = match other_signedAt r c with Some _ => true | None => false end.
Proof.
  destruct r; simpl;
    [destruct (contracts_hostSignedAt c)
    |destruct (contracts_refugeeSignedAt c)
    |destruct (contracts_refugeeSignedAt c)]; reflexivity.
Qed.

Lemma contract_key_found db id c :
  findContract db id = Some c -> contract_key db id = true.
Proof.
  intros H. unfold contract_key. apply orb_true_iff. right.
  apply existsb_exists. exists c. unfold findContract in H.
  apply find_some in H. exact H.
Qed.

Lemma contract_key_int4 db id : int4 id = true -> contract_key db id = true.
Proof. intros H. unfold contract_key. rewrite H. reflexivity. Qed.

Lemma contract_key_out_of_range db id :
  int4 id = false ->
  (forall c, In c (contracts db) -> int4 (contracts_id c) = true) ->
  contract_key db id = false.
Proof.
  intros Hid Hstored. unfold contract_key. rewrite Hid. cbn [orb].
  destruct (existsb _ (contracts db)) eqn:E; [|reflexivity].
  apply existsb_exists in E. destruct E as [c [Hin Hc]].
  apply Z.eqb_eq in Hc. specialize (Hstored c Hin).
  rewrite Hc in Hstored. congruence.
Qed.

(** The signing handler for a caller who may sign. *)
Lemma sign_route_eq now contractId sub db u :
  findUser db sub = Some u -> users_role u <> admin ->
  contract_key db contractId = true ->
  post_api_contracts_sign now contractId sub db
  = let db' :=
      set_contracts db
        (signed_rows now contractId (users_role u) (contracts db)) in
    if both_signed (findContract db' contractId) then
      if references_user db "admin"
      then (res_json json_success,
            insert_notification db' (ready_notification now db))
      else (res_status 500 "Failed to sign contract",
            skip_notifications_seq db')
    else (res_json json_success, db').
Proof.
  intros Hu Hrole Hkey. unfold post_api_contracts_sign. unfold_async.
  rewrite Hu.
  replace (negb (UserRole_eqb (users_role u) refugee)
           && negb (UserRole_eqb (users_role u) host)) with false
    by (destruct (users_role u); simpl; congruence).
  unfold signContract. rewrite Hkey. cbn [negb]. cbv beta iota zeta.
  fold (signed_rows now contractId (users_role u) (contracts db)).
  destruct (both_signed
              (findContract
                 (set_contracts db
                    (signed_rows now contractId (users_role u) (contracts db)))
                 contractId)); [|reflexivity].
  unfold createNotification, notification_text, notification,
    references_user.
  cbn [in_userId in_title in_content in_type users set_contracts].
  destruct (existsb (fun u0 => String.eqb (users_id u0) "admin") (users db));
    reflexivity.
Qed.

Lemma sign_route_out_of_range now contractId sub db u :
  findUser db sub = Some u -> users_role u <> admin ->
  contract_key db contractId = false ->
  post_api_contracts_sign now contractId sub db
  = (res_status 500 "Failed to sign contract", db).
Proof.
  intros Hu Hrole Hkey. unfold post_api_contracts_sign. unfold_async.
  rewrite Hu.
  replace (negb (UserRole_eqb (users_role u) refugee)
           && negb (UserRole_eqb (users_role u) host)) with false
    by (destruct (users_role u); simpl; congruence).
  unfold signContract. rewrite Hkey. reflexivity.
Qed.

Lemma approve_route_out_of_range now contractId sub db :
  is_role admin (findUser db sub) = true ->
  contract_key db contractId = false ->
  post_api_contracts_approve now contractId sub db
  = (res_status 500 "Failed to approve contract", db).
Proof.
  intros Hadm Hkey. unfold post_api_contracts_approve. unfold_async.
  rewrite Hadm. change (negb true) with false. cbv beta iota zeta.
  unfold approveContract. rewrite Hkey. reflexivity.
Qed.

Lemma approve_route_unknown now contractId sub db :
  is_role admin (findUser db sub) = true ->
  int4 contractId = true ->
  findContract db contractId = None ->
  post_api_contracts_approve now contractId sub db
  = (res_json json_success, db).
Proof.
  intros Hadm Hid Hnone. unfold post_api_contracts_approve. unfold_async.
  rewrite Hadm. change (negb true) with false. cbv beta iota zeta.
  unfold approveContract. rewrite (contract_key_int4 db _ Hid).
  cbn [negb]. rewrite (find_none_existsb _ _ Hnone). cbn [andb].
  rewrite (map_unmatched (fun c => (contracts_id c =? contractId)%Z))
    by exact Hnone.
  rewrite set_contracts_same. rewrite Hnone. reflexivity.
Qed.

(** X10.  A request that names an id no row carries changes nothing.
    If the id is a 32-bit integer the request is answered 200 like any
    other: signing a contract that does not exist (by a refugee or host),
    approving one that does not exist (by an administrator), marking a
    notification that does not exist as read.  If the id is no 32-bit
    integer, and so the id of no row, the same three requests are
    answered 500. *)
Theorem unknown_id_changes_nothing now id sub db :
  (forall u, findUser db sub = Some u -> users_role u <> admin ->
   int4 id = true -> findContract db id = None ->
   post_api_contracts_sign now id sub db = (res_json json_success, db))
  /\ (is_role admin (findUser db sub) = true ->
      int4 id = true -> findContract db id = None ->
      post_api_contracts_approve now id sub db = (res_json json_success, db))
  /\ (int4 id = true ->
      find (fun n => (notifications_id n =? id)%Z) (notifications db) = None ->
      post_api_notifications_read id sub db = (res_json json_success, db))
  /\ (forall u, findUser db sub = Some u -> users_role u <> admin ->
      int4 id = false ->
      (forall c, In c (contracts db) -> int4 (contracts_id c) = true) ->
      post_api_contracts_sign now id sub db
      = (res_status 500 "Failed to sign contract", db))
  /\ (is_role admin (findUser db sub) = true ->
      int4 id = false ->
      (forall c, In c (contracts db) -> int4 (contracts_id c) = true) ->
      post_api_contracts_approve now id sub db
      = (res_status 500 "Failed to approve contract", db))
  /\ (int4 id = false ->
      (forall n, In n (notifications db) ->
                 int4 (notifications_id n) = true) ->
      post_api_notifications_read id sub db
      = (res_status 500 "Failed to mark notification as read", db)).
Proof.
  split; [|split; [|split; [|split; [|split]]]].
  - intros u Hu Hrole Hid Hnone.
    rewrite (sign_route_eq now id sub db u Hu Hrole
               (contract_key_int4 db id Hid)).
    cbv zeta. rewrite findContract_signed, Hnone. simpl.
    unfold signed_rows.
    rewrite (map_unmatched (fun c => (contracts_id c =? id)%Z)) by exact Hnone.
    rewrite set_contracts_same. reflexivity.
  - apply approve_route_unknown.
  - intros Hid Hnone. rewrite read_route_accepted
      by (unfold notification_key; rewrite Hid; reflexivity).
    rewrite (map_unmatched (fun n => (notifications_id n =? id)%Z))
      by exact Hnone.
    rewrite set_notifications_same. reflexivity.
  - intros u Hu Hrole Hid Hstored.
    apply (sign_route_out_of_range now id sub db u Hu Hrole).
    apply contract_key_out_of_range; assumption.
  - intros Hadm Hid Hstored. apply approve_route_out_of_range; [exact Hadm|].
    apply contract_key_out_of_range; assumption.
  - intros Hid Hstored. apply read_route_refused.
    apply notification_key_out_of_range; assumption.
Qed.

Lemma unknown_id_changes_nothing_witness :
  post_api_contracts_sign 500 7 "alice" db1 = (res_json json_success, db1)
  /\ post_api_contracts_approve 500 7 "admin" db1
     = (res_json json_success, db1)
  /\ post_api_notifications_read 7 "alice" db1 = (res_json json_success, db1)
  /\ post_api_contracts_sign 500 2147483648 "alice" db1
     = (res_status 500 "Failed to sign contract", db1)
  /\ post_api_contracts_approve 500 (-2147483649) "admin" db1
     = (res_status 500 "Failed to approve contract", db1)
  /\ post_api_notifications_read 4294967297 "alice" db1
     = (res_status 500 "Failed to mark notification as read", db1).
Proof.
  split; [|split; [|split; [|split; [|split]]]].
  - apply (proj1 (unknown_id_changes_nothing 500 7 "alice" db1) alice).
    + reflexivity.
    + simpl. discriminate.
    + reflexivity.
    + reflexivity.
  - apply (proj1 (proj2 (unknown_id_changes_nothing 500 7 "admin" db1)));
      reflexivity.
  - apply (proj1 (proj2 (proj2
             (unknown_id_changes_nothing 500 7 "alice" db1))));
      reflexivity.
  - apply (proj1 (proj2 (proj2 (proj2
             (unknown_id_changes_nothing 500 2147483648 "alice" db1))))
             alice).
    + reflexivity.
    + simpl. discriminate.
    + reflexivity.
    + intros c [<-|[]]. reflexivity.
  - apply (proj1 (proj2 (proj2 (proj2 (proj2
             (unknown_id_changes_nothing 500 (-2147483649) "admin" db1)))))).
    + reflexivity.
    + reflexivity.
    + intros c [<-|[]]. reflexivity.
  - apply (proj2 (proj2 (proj2 (proj2 (proj2
             (unknown_id_changes_nothing 500 4294967297 "alice" db1)))))).
    + reflexivity.
    + intros n [<-|[]]. reflexivity.
Defined.

(** X11.  The administrator is asked for approval whenever a signature
    lands on a contract whose other party has signed.  A refugee or host
    signing a contract the other party has not signed is answered 200 and
    no notification is written.  If the other party's signature is there
    (and a user with id "admin" exists), the answer is 200 and one unread
    notification titled "Contract Ready for Approval" is appended for the
    user "admin"; this happens again on every later signature. *)
Theorem signature_notifies_admin_when_both_signed
    now contractId sub db u c :
  findUser db sub = Some u -> users_role u <> admin ->
  findContract db contractId = Some c ->
  let db' :=
    set_contracts db
      (signed_rows now contractId (users_role u) (contracts db)) in
  (other_signedAt (users_role u) c = None ->
   post_api_contracts_sign now contractId sub db
   = (res_json json_success, db'))
  /\ (other_signedAt (users_role u) c <> None ->
      references_user db "admin" = true ->
      post_api_contracts_sign now contractId sub db
      = (res_json json_success,
         insert_notification db' (ready_notification now db))).
Proof.
  intros Hu Hrole Hc db'. subst db'.
  rewrite (sign_route_eq now contractId sub db u Hu Hrole
             (contract_key_found db contractId c Hc)).
  cbv zeta. rewrite findContract_signed, Hc.
  cbn [option_map]. rewrite both_signed_after. split.
  - intros Hnone. rewrite Hnone. reflexivity.
  - intros Hsome Hadm. rewrite Hadm.
    destruct (other_signedAt (users_role u) c); [reflexivity|contradiction].
Qed.

Lemma signature_notifies_admin_when_both_signed_witness :
  let signed_by_bob := after (post_api_contracts_sign 200 1 "bob" db1) in
  post_api_contracts_sign 300 1 "alice" db1
  = (res_json json_success,
     set_contracts db1 (signed_rows 300 1 refugee (contracts db1)))
  /\ post_api_contracts_sign 300 1 "alice" signed_by_bob
     = (res_json json_success,
        insert_notification
          (set_contracts signed_by_bob
             (signed_rows 300 1 refugee (contracts signed_by_bob)))
          (ready_notification 300 signed_by_bob)).
Proof.
  intros signed_by_bob. split.
  - apply (proj1 (signature_notifies_admin_when_both_signed
                    300 1 "alice" db1 alice contract1
                    eq_refl ltac:(simpl; discriminate) eq_refl)).
    reflexivity.
  - apply (proj2 (signature_notifies_admin_when_both_signed
                    300 1 "alice" signed_by_bob alice
                    (set_hostSignedAt 200 contract1)
                    eq_refl ltac:(simpl; discriminate) eq_refl)).
    + simpl. discriminate.
    + reflexivity.
Defined.

Lemma findContract_after_sign now contractId sub db u :
  findUser db sub = Some u -> users_role u <> admin ->
  let db' := after (post_api_contracts_sign now contractId sub db) in
  findContract db' contractId
  = option_map (updateData now (users_role u)) (findContract db contractId)
  /\ users db' = users db.
Proof.
  intros Hu Hrole db'.
  destruct (sign_route_signer now contractId sub db u Hu Hrole) as [Hc Hus].
  fold db' in Hc, Hus. split; [|exact Hus].
  unfold findContract. rewrite Hc. unfold signed_rows.
  apply (find_map_matched (fun c => (contracts_id c =? contractId)%Z)).
  intros c. rewrite updateData_id. reflexivity.
Qed.

Lemma findContract_after_approve now contractId sub db :
  is_role admin (findUser db sub) = true ->
  let db' := after (post_api_contracts_approve now contractId sub db) in
  findContract db' contractId
  = option_map (set_approved now sub) (findContract db contractId)
  /\ users db' = users db.
Proof.
  intros Hadm db'.
  destruct (approve_route_admin now contractId sub db Hadm) as [Hc Hus].
  fold db' in Hc, Hus. split; [|exact Hus].
  unfold findContract. rewrite Hc. unfold approved_rows.
  apply (find_map_matched (fun c => (contracts_id c =? contractId)%Z)).
  intros c. reflexivity.
Qed.

(** X12.  The whole course of a contract: the host signs at [now1], the
    refugee signs at [now2], an administrator approves at [now3].  The
    contract then carries both signatures with their times, status
    completed and the administrator's id and time; its parties, terms,
    duration and dates are those of the proposal. *)
Theorem signed_by_both_then_approved
    now1 now2 now3 contractId h r a db uh ur c :
  findUser db h = Some uh -> users_role uh = host ->
  findUser db r = Some ur -> users_role ur = refugee ->
  is_role admin (findUser db a) = true ->
  findContract db contractId = Some c ->
  let db1 := after (post_api_contracts_sign now1 contractId h db) in
  let db2 := after (post_api_contracts_sign now2 contractId r db1) in
  let db3 := after (post_api_contracts_approve now3 contractId a db2) in
  findContract db3 contractId
  = Some {| contracts_id := contracts_id c;
            contracts_refugeeId := contracts_refugeeId c;
            contracts_hostId := contracts_hostId c;
            contracts_status := completed;
            contracts_terms := contracts_terms c;
            contracts_duration := contracts_duration c;
            contracts_startDate := contracts_startDate c;
            contracts_endDate := contracts_endDate c;
            contracts_refugeeSignedAt := Some now2;
            contracts_hostSignedAt := Some now1;
            contracts_adminApprovedAt := Some now3;
            contracts_adminApprovedBy := Some a;
            contracts_createdAt := contracts_createdAt c;
            contracts_updatedAt := contracts_updatedAt c |}.
Proof.
  intros Hh Hhr Hr Hrr Hadm Hc db1 db2 db3.
  assert (Hnh : users_role uh <> admin) by (rewrite Hhr; discriminate).
  assert (Hnr : users_role ur <> admin) by (rewrite Hrr; discriminate).
  destruct (findContract_after_sign now1 contractId h db uh Hh Hnh)
    as [Hc1 Hu1].
  fold db1 in Hc1, Hu1.
  assert (Hr1 : findUser db1 r = Some ur)
    by (unfold findUser; rewrite Hu1; exact Hr).
  destruct (findContract_after_sign now2 contractId r db1 ur Hr1 Hnr)
    as [Hc2 Hu2].
  fold db2 in Hc2, Hu2.
  assert (Hadm2 : is_role admin (findUser db2 a) = true)
    by (unfold findUser; rewrite Hu2, Hu1; exact Hadm).
  destruct (findContract_after_approve now3 contractId a db2 Hadm2)
    as [Hc3 _].
  fold db3 in Hc3.
  rewrite Hc3, Hc2, Hc1, Hc, Hhr, Hrr. reflexivity.
Qed.

Lemma signed_by_both_then_approved_witness :
  let s1 := after (post_api_contracts_sign 200 1 "bob" db1) in
  let s2 := after (post_api_contracts_sign 300 1 "alice" s1) in
  let s3 := after (post_api_contracts_approve 400 1 "admin" s2) in
  findContract s3 1
  = Some {| contracts_id := 1;
            contracts_refugeeId := "alice";
            contracts_hostId := "bob";
            contracts_status := completed;
            contracts_terms := "one room";
            contracts_duration := "3-6 months";
            contracts_startDate := None;
            contracts_endDate := None;
            contracts_refugeeSignedAt := Some 300;
            contracts_hostSignedAt := Some 200;
            contracts_adminApprovedAt := Some 400;
            contracts_adminApprovedBy := Some "admin";
            contracts_createdAt := Some 100;
            contracts_updatedAt := Some 100 |}.
Proof.
  apply (signed_by_both_then_approved 200 300 400 1 "bob" "alice" "admin"
           db1 bob alice contract1); reflexivity.
Defined.

(** X13.  An approval of an existing contract whose two parties are known
    users is answered 200 and appends exactly two unread notifications
    titled "Contract Approved", the first to the contract's refugee and the
    second to its host, under the next two notification ids. *)
Theorem approval_notifies_both_parties now contractId sub db c :
  is_role admin (findUser db sub) = true ->
  findContract db contractId = Some c ->
  references_user db (contracts_refugeeId c) = true ->
  references_user db (contracts_hostId c) = true ->
  let r := post_api_contracts_approve now contractId sub db in
  result r = res_json json_success
  /\ notifications (after r)
     = (notifications db
        ++ [ {| notifications_id := notifications_seq db;
                notifications_userId := contracts_refugeeId c;
                notifications_title := "Contract Approved";
                notifications_content :=
                  "Your housing contract has been approved by admin";
                notifications_type := "contract";
                notifications_read := Some false;
                notifications_createdAt := Some now |};
             {| notifications_id := notifications_seq db + 1;
                notifications_userId := contracts_hostId c;
                notifications_title := "Contract Approved";
                notifications_content :=
                  "Your hosting contract has been approved by admin";
                notifications_type := "contract";
                notifications_read := Some false;
                notifications_createdAt := Some now |} ])%list.
Proof.
  intros Hadm Hc Href Hhost r. subst r.
  pose proof (is_role_references _ _ _ Hadm) as Hsub.
  unfold post_api_contracts_approve. unfold_async. rewrite Hadm.
  change (negb true) with false. cbv beta iota zeta.
  unfold approveContract.
  rewrite (contract_key_found db contractId c Hc). cbn [negb].
  rewrite Hsub. rewrite andb_false_r.
  fold (approved_rows now contractId sub (contracts db)).
  rewrite findContract_approved, Hc. cbn [option_map].
  unfold createNotification, notification_text, notification,
    references_user.
  cbn [in_userId in_title in_content in_type in_read users set_contracts
       contracts_refugeeId contracts_hostId set_approved
       insert_notification].
  unfold references_user in Href, Hhost. rewrite Href.
  text_constants. rewrite orb_true_r. cbn [andb negb].
  cbn [users insert_notification set_contracts]. rewrite Hhost.
  rewrite orb_true_r. cbn [andb negb].
  unfold result, after.
  cbn [fst snd notifications insert_notification set_contracts
       notifications_seq].
  split; [reflexivity|]. rewrite <- app_assoc. reflexivity.
Qed.

Lemma approval_notifies_both_parties_witness :
  let r := post_api_contracts_approve 400 1 "admin" db1 in
  result r = res_json json_success
  /\ map (fun n => (notifications_id n, notifications_userId n,
                    notifications_title n))
       (notifications (after r))
     = [(1, "bob", "New Contract Proposal");
        (2, "alice", "Contract Approved");
        (3, "bob", "Contract Approved")].
Proof.
  destruct (approval_notifies_both_parties 400 1 "admin" db1 contract1
              eq_refl eq_refl eq_refl eq_refl) as [H1 H2].
  split; [exact H1|]. rewrite H2. reflexivity.
Defined.

(** ** Handlers are not transactions *)

(** X14.  The handlers that notify the user "admin" write first and
    notify afterwards.  When no user has the id "admin", the notification
    is refused and the request is answered with an error although the
    write has happened: a valid profile submission is answered 400, the
    profile is in its table and no notification is; a signature that
    completes the pair is answered 500, the signature is in the table and
    no notification is. *)
Theorem error_answer_after_write now sub db :
  references_user db "admin" = false ->
  (forall first_name body p,
   references_user db sub = true ->
   insertRefugeeProfileSchema_parse body = Some p ->
   refugee_text p sub = true ->
   let r := post_api_profiles_refugee now sub first_name body db in
   exists row,
     result r = res_status 400 "Failed to create profile"
     /\ refugeeProfiles (after r) = (refugeeProfiles db ++ [row])%list
     /\ refugeeProfiles_userId row = sub
     /\ notifications (after r) = notifications db)
  /\ (forall first_name body p,
      references_user db sub = true ->
      insertHostProfileSchema_parse body = Some p ->
      host_text p sub = true ->
      let r := post_api_profiles_host now sub first_name body db in
      exists row,
        result r = res_status 400 "Failed to create profile"
        /\ hostProfiles (after r) = (hostProfiles db ++ [row])%list
        /\ hostProfiles_userId row = sub
        /\ notifications (after r) = notifications db)
  /\ (forall contractId u c,
      findUser db sub = Some u -> users_role u <> admin ->
      findContract db contractId = Some c ->
      other_signedAt (users_role u) c <> None ->
      let r := post_api_contracts_sign now contractId sub db in
      result r = res_status 500 "Failed to sign contract"
      /\ contracts (after r)
         = signed_rows now contractId (users_role u) (contracts db)
      /\ notifications (after r) = notifications db).
Proof.
  intros Hadm. split; [|split].
  - intros first_name body p Href Hp Htext r. subst r.
    unfold post_api_profiles_refugee. unfold_async. rewrite Hp.
    cbv beta iota. unfold createRefugeeProfile. rewrite Htext, Href.
    cbn [negb]. cbv beta iota zeta. unfold createNotification.
    cbn [in_userId notification]. unfold references_user in *.
    cbn [users insert_refugeeProfile]. rewrite Hadm.
    eexists. case_if; cbn [fst snd refugeeProfiles notifications
                           insert_refugeeProfile skip_notifications_seq];
      repeat split; reflexivity.
  - intros first_name body p Href Hp Htext r. subst r.
    unfold post_api_profiles_host. unfold_async. rewrite Hp.
    cbv beta iota. unfold createHostProfile. rewrite Htext, Href.
    cbn [negb]. cbv beta iota zeta. unfold createNotification.
    cbn [in_userId notification]. unfold references_user in *.
    cbn [users insert_hostProfile]. rewrite Hadm.
    eexists. case_if; cbn [fst snd hostProfiles notifications
                           insert_hostProfile skip_notifications_seq];
      repeat split; reflexivity.
  - intros contractId u c Hu Hrole Hc Hother r. subst r.
    rewrite (sign_route_eq now contractId sub db u Hu Hrole
               (contract_key_found db contractId c Hc)).
    cbv zeta. rewrite findContract_signed, Hc. cbn [option_map].
    rewrite both_signed_after, Hadm.
    destruct (other_signedAt (users_role u) c); [|contradiction].
    repeat split; reflexivity.
Qed.

Lemma error_answer_after_write_witness :
  let r := post_api_profiles_refugee 100 "alice" None refugee_form
             db_no_admin in
  exists row,
    result r = res_status 400 "Failed to create profile"
    /\ refugeeProfiles (after r) = (refugeeProfiles db_no_admin ++ [row])%list
    /\ refugeeProfiles_userId row = "alice"
    /\ notifications (after r) = notifications db_no_admin.
Proof.
  refine (proj1 (error_answer_after_write 100 "alice" db_no_admin eq_refl)
            None refugee_form _ eq_refl eq_refl eq_refl).
Defined.

(** ** Sending a message *)

Lemma parse_message_sender sub body md :
  insertMessageSchema_parse (("senderId", JString sub) :: body) = Some md ->
  im_senderId md = sub
  /\ field body "receiverId" = JString (im_receiverId md)
  /\ field body "content" = JString (im_content md).
Proof.
  unfold insertMessageSchema_parse, andThen.
  change (field (("senderId", JString sub) :: body) "senderId")
    with (JString sub).
  change (field (("senderId", JString sub) :: body) "receiverId")
    with (field body "receiverId").
  change (field (("senderId", JString sub) :: body) "content")
    with (field body "content").
  change (field (("senderId", JString sub) :: body) "status")
    with (field body "status").
  cbn [zString].
  destruct (field body "receiverId") as [| | | |rcv| | |]; try discriminate.
  destruct (field body "content") as [| | | |cnt| | |]; try discriminate.
  cbn [zString].
  destruct (zDefault zMessageStatus sent (field body "status"));
    [|discriminate].
  intros H. inversion H. simpl. auto.
Qed.

(** X15.  POST /api/messages either stores exactly one message and answers
    with it, or answers 400 and leaves every table as it was.  The stored
    message has the caller as its sender whatever sender the body names;
    receiver and content are the body's, it is stamped with the time of
    the request and is not yet read, and both ends are known users.  It is
    then part of the conversation between the two. *)
Theorem posted_message_is_the_callers now sub body db :
  (exists m,
     post_api_messages now sub body db
     = (res_json (json_sent m), insert_message db m)
     /\ messages_senderId m = sub
     /\ field body "receiverId" = JString (messages_receiverId m)
     /\ field body "content" = JString (messages_content m)
     /\ messages_id m = messages_seq db
     /\ messages_createdAt m = Some now
     /\ messages_readAt m = None
     /\ references_user db sub = true
     /\ references_user db (messages_receiverId m) = true
     /\ In m (conversation (insert_message db m) sub (messages_receiverId m)))
  \/ (result (post_api_messages now sub body db)
      = res_status 400 "Failed to send message"
      /\ same_rows db (after (post_api_messages now sub body db))).
Proof.
  unfold post_api_messages. unfold_async.
  destruct (insertMessageSchema_parse (("senderId", JString sub) :: body))
    as [md|] eqn:Hp; [|right; repeat split; reflexivity].
  destruct (parse_message_sender sub body md Hp) as [Hs [Hr Hc]].
  cbv beta iota. unfold sendMessage. rewrite Hs.
  destruct (negb (message_text md)); [right; repeat split; reflexivity|].
  destruct (references_user db sub) eqn:Hrs;
    [|right; repeat split; reflexivity].
  destruct (references_user db (im_receiverId md)) eqn:Hrr;
    [|right; repeat split; reflexivity].
  left. cbv beta iota zeta. cbn [andb]. eexists. split; [reflexivity|].
  cbn [messages_senderId messages_receiverId messages_content messages_id
       messages_createdAt messages_readAt].
  repeat (split; [solve [auto]|]).
  unfold conversation.
  eapply Permutation_in; [apply orderBy_asc_perm|].
  apply filter_In. split.
  - cbn [messages insert_message]. apply in_or_app. right. left. reflexivity.
  - unfold between. cbn [messages_senderId messages_receiverId].
    rewrite !String.eqb_refl. reflexivity.
Qed.

Example sender_in_body_is_ignored :
  map (fun m => (messages_senderId m, messages_receiverId m))
    (messages
       (after (post_api_messages 100 "alice"
                 [("senderId", JString "bob");
                  ("receiverId", JString "bob");
                  ("content", JString "hi")] db0)))
  = [("alice", "bob")].
Proof. reflexivity. Qed.

(** ** What no request does to a stored row *)

Section Moves.
Context (R : Db -> Db -> Prop).
Hypothesis R_refl : forall db, R db db.
Hypothesis R_trans : forall a b c, R a b -> R b c -> R a c.

Lemma moves_ret {A} (a : A) : moves R (ret a).
Proof. intros db. apply R_refl. Qed.

Lemma moves_throw {A} (e : Error) : moves R (@throw A e).
Proof. intros db. apply R_refl. Qed.

Lemma moves_parse {A} (p : Body -> option A) (b : Body) :
  moves R (parse p b).
Proof. unfold parse. destruct (p b); intros db; apply R_refl. Qed.

Lemma moves_getUser id : moves R (getUser id).
Proof. intros db. apply R_refl. Qed.

Lemma moves_getContract id : moves R (getContract id).
Proof. intros db. apply R_refl. Qed.

Lemma moves_getApprovedHosts : moves R getApprovedHosts.
Proof. intros db. apply R_refl. Qed.

Lemma moves_getConversation a b : moves R (getConversation a b).
Proof. intros db. apply R_refl. Qed.

Lemma moves_bind {A B} (m : Async A) (k : A -> Async B) :
  moves R m -> (forall a, moves R (k a)) -> moves R (bind m k).
Proof.
  intros Hm Hk db. unfold bind.
  specialize (Hm db). destruct (m db) as [[a|e] db']; simpl in *.
  - eapply R_trans; [exact Hm|apply Hk].
  - exact Hm.
Qed.

Lemma moves_try_catch (body : Async Response) code message :
  moves R body -> forall db, R db (after (try_catch body code message db)).
Proof.
  intros Hb db. unfold try_catch, after. specialize (Hb db).
  destruct (body db) as [[r|e] db']; exact Hb.
Qed.
End Moves.

Lemma rows_kept_refl {A} (K : A -> A -> Prop) l :
  (forall x, K x x) -> rows_kept K l l.
Proof. intros HK n x Hn. exists x. auto. Qed.

Lemma rows_kept_trans {A} (K : A -> A -> Prop) l1 l2 l3 :
  (forall x y z, K x y -> K y z -> K x z) ->
  rows_kept K l1 l2 -> rows_kept K l2 l3 -> rows_kept K l1 l3.
Proof.
  intros HK H12 H23 n x Hn.
  destruct (H12 n x Hn) as [y [Hy Kxy]].
  destruct (H23 n y Hy) as [z [Hz Kyz]].
  exists z. eauto.
Qed.

Lemma rows_kept_app {A} (K : A -> A -> Prop) l added :
  (forall x, K x x) -> rows_kept K l (l ++ added).
Proof.
  intros HK n x Hn. exists x. split; [|auto].
  rewrite nth_error_app1; [exact Hn|]. apply nth_error_Some. congruence.
Qed.

Lemma rows_kept_map {A} (K : A -> A -> Prop) (f : A -> A) l :
  (forall x, K x (f x)) -> rows_kept K l (map f l).
Proof.
  intros HK n x Hn. exists (f x). split; [|auto].
  rewrite nth_error_map, Hn. reflexivity.
Qed.

Lemma grown_refl {A} (l : list A) : grown l l.
Proof. exists []. rewrite app_nil_r. reflexivity. Qed.

Lemma grown_trans {A} (l1 l2 l3 : list A) :
  grown l1 l2 -> grown l2 l3 -> grown l1 l3.
Proof.
  intros [a ->] [b ->]. exists (a ++ b)%list. rewrite app_assoc.
  reflexivity.
Qed.

Lemma contract_kept_refl c : contract_kept c c.
Proof. unfold contract_kept. tauto. Qed.

Lemma contract_kept_trans a b c :
  contract_kept a b -> contract_kept b c -> contract_kept a c.
Proof.
  unfold contract_kept.
  intros (A1 & A2 & A3 & A4 & A5 & A6 & A7 & A8 & A9 & A10 & A11)
         (B1 & B2 & B3 & B4 & B5 & B6 & B7 & B8 & B9 & B10 & B11).
  repeat split; try congruence; auto.
  destruct B11 as [E|E]; [|right; exact E].
  destruct A11 as [F|F]; [left|right]; congruence.
Qed.

Lemma notification_kept_refl n : notification_kept n n.
Proof. unfold notification_kept. tauto. Qed.

Lemma notification_kept_trans a b c :
  notification_kept a b -> notification_kept b c -> notification_kept a c.
Proof.
  unfold notification_kept.
  intros (A1 & A2 & A3 & A4 & A5 & A6 & A7) (B1 & B2 & B3 & B4 & B5 & B6 & B7).
  repeat split; try congruence; auto.
Qed.

Lemma evolves_refl db : evolves db db.
Proof.
  unfold evolves. repeat split;
    try apply grown_refl;
    apply rows_kept_refl;
    auto using contract_kept_refl, notification_kept_refl.
Qed.

Lemma evolves_trans a b c : evolves a b -> evolves b c -> evolves a c.
Proof.
  unfold evolves. intros (C1 & N1 & M1 & R1 & H1) (C2 & N2 & M2 & R2 & H2).
  repeat split.
  - eapply rows_kept_trans; eauto using contract_kept_trans.
  - eapply rows_kept_trans; eauto using notification_kept_trans.
  - eapply grown_trans; eauto.
  - eapply grown_trans; eauto.
  - eapply grown_trans; eauto.
Qed.

Ltac evolves_tables :=
  unfold evolves; simpl; repeat split;
  first
    [ apply grown_refl
    | eexists; reflexivity
    | apply rows_kept_refl;
      auto using contract_kept_refl, notification_kept_refl
    | apply rows_kept_app;
      auto using contract_kept_refl, notification_kept_refl ].

Lemma createNotification_evolves now n : moves evolves (createNotification now n).
Proof.
  intros db. unfold createNotification.
  repeat case_if; evolves_tables.
Qed.

Lemma createRefugeeProfile_evolves now p id :
  moves evolves (createRefugeeProfile now p id).
Proof.
  intros db. unfold createRefugeeProfile.
  repeat case_if; evolves_tables.
Qed.

Lemma createHostProfile_evolves now p id :
  moves evolves (createHostProfile now p id).
Proof.
  intros db. unfold createHostProfile.
  repeat case_if; evolves_tables.
Qed.

Lemma createContract_evolves now c : moves evolves (createContract now c).
Proof.
  intros db. unfold createContract.
  repeat case_if; evolves_tables.
Qed.

Lemma sendMessage_evolves now m : moves evolves (sendMessage now m).
Proof.
  intros db. unfold sendMessage.
  repeat case_if; evolves_tables.
Qed.

Lemma updateProfileStatus_evolves now id st :
  moves evolves (updateProfileStatus now id st).
Proof. intros db. evolves_tables. Qed.

Lemma signed_row_kept now contractId r c :
  contract_kept c
    (if (contracts_id c =? contractId)%Z then updateData now r c else c).
Proof.
  destruct (contracts_id c =? contractId)%Z; [|apply contract_kept_refl].
  unfold contract_kept.
  destruct r; simpl; repeat split; auto; intros _; discriminate.
Qed.

Lemma approved_row_kept now contractId a c :
  contract_kept c
    (if (contracts_id c =? contractId)%Z then set_approved now a c else c).
Proof.
  destruct (contracts_id c =? contractId)%Z; [|apply contract_kept_refl].
  unfold contract_kept. simpl. repeat split; auto.
Qed.

Lemma read_row_kept notificationId n :
  notification_kept n
    (if (notifications_id n =? notificationId)%Z then set_read n else n).
Proof.
  destruct (notifications_id n =? notificationId)%Z;
    [|apply notification_kept_refl].
  unfold notification_kept. simpl. repeat split; auto.
Qed.

Lemma signContract_evolves now id r : moves evolves (signContract now id r).
Proof.
  intros db. unfold signContract. case_if; [apply evolves_refl|].
  unfold evolves. simpl. repeat split; try apply grown_refl.
  - apply rows_kept_map. intros c. apply signed_row_kept.
  - apply rows_kept_refl. apply notification_kept_refl.
Qed.

Lemma approveContract_evolves now id a :
  moves evolves (approveContract now id a).
Proof.
  intros db. unfold approveContract. case_if; [apply evolves_refl|].
  case_if; [apply evolves_refl|].
  unfold evolves. simpl. repeat split; try apply grown_refl.
  - apply rows_kept_map. intros c. apply approved_row_kept.
  - apply rows_kept_refl. apply notification_kept_refl.
Qed.

Lemma markNotificationAsRead_evolves id :
  moves evolves (markNotificationAsRead id).
Proof.
  intros db. unfold markNotificationAsRead. case_if; [apply evolves_refl|].
  unfold evolves. simpl. repeat split; try apply grown_refl.
  - apply rows_kept_refl. apply contract_kept_refl.
  - apply rows_kept_map. intros n. apply read_row_kept.
Qed.

Ltac evolve :=
  repeat first
    [ progress intros
    | apply moves_ret; exact evolves_refl
    | apply moves_throw; exact evolves_refl
    | apply moves_parse; exact evolves_refl
    | apply moves_getUser; exact evolves_refl
    | apply moves_getContract; exact evolves_refl
    | apply moves_getApprovedHosts; exact evolves_refl
    | apply moves_getConversation; exact evolves_refl
    | apply createNotification_evolves
    | apply createRefugeeProfile_evolves
    | apply createHostProfile_evolves
    | apply createContract_evolves
    | apply sendMessage_evolves
    | apply updateProfileStatus_evolves
    | apply signContract_evolves
    | apply approveContract_evolves
    | apply markNotificationAsRead_evolves
    | apply moves_bind; [exact evolves_trans| |]
    | match goal with
      | |- moves _ (match ?x with _ => _ end) => destruct x
      end
    | progress cbv zeta ].

Lemma handle_evolves r db : evolves db (after (handle r db)).
Proof.
  destruct r; cbn [handle];
    [ unfold post_api_profiles_refugee
    | unfold post_api_profiles_host
    | unfold post_api_admin_approve_profile
    | unfold get_api_hosts_available
    | unfold get_api_messages_userId
    | unfold post_api_contracts
    | unfold post_api_contracts_sign
    | unfold post_api_contracts_approve
    | unfold post_api_notifications_read
    | unfold post_api_messages ];
    apply moves_try_catch; evolve.
Qed.

Lemma run_evolves rs : forall db, evolves db (run rs db).
Proof.
  induction rs as [|r rs IH]; intros db; simpl.
  - apply evolves_refl.
  - eapply evolves_trans; [apply handle_evolves|apply IH].
Qed.

(** X16.  No sequence of requests deletes a stored contract or rewrites its
    proposal: the contract keeps its place, its id, its two parties, its
    terms, duration, dates and creation time.  A signature that is set
    stays set (a later signature may replace its time), and the status
    either stays what it was or becomes completed. *)
Theorem stored_contract_keeps_its_proposal rs db n c :
  nth_error (contracts db) n = Some c ->
  exists c',
    nth_error (contracts (run rs db)) n = Some c'
    /\ contracts_id c' = contracts_id c
    /\ contracts_refugeeId c' = contracts_refugeeId c
    /\ contracts_hostId c' = contracts_hostId c
    /\ contracts_terms c' = contracts_terms c
    /\ contracts_duration c' = contracts_duration c
    /\ contracts_startDate c' = contracts_startDate c
    /\ contracts_endDate c' = contracts_endDate c
    /\ contracts_createdAt c' = contracts_createdAt c
    /\ (contracts_refugeeSignedAt c <> None ->
        contracts_refugeeSignedAt c' <> None)
    /\ (contracts_hostSignedAt c <> None ->
        contracts_hostSignedAt c' <> None)
    /\ (contracts_status c' = contracts_status c
        \/ contracts_status c' = completed).
Proof.
  intros Hn. destruct (run_evolves rs db) as [Hc _].
  destruct (Hc n c Hn) as [c' [Hn' Hk]]. exists c'. split; [exact Hn'|].
  exact Hk.
Qed.

Lemma stored_contract_keeps_its_proposal_witness :
  exists c',
    nth_error
      (contracts
         (run [POST_contracts_sign 200 1 "bob";
               POST_contracts 250 "mallory" completed_proposal;
               POST_contracts_sign 300 1 "mallory";
               POST_contracts_approve 400 1 "admin"] db1)) 0
    = Some c'
    /\ contracts_id c' = 1
    /\ contracts_refugeeId c' = "alice"
    /\ contracts_hostId c' = "bob"
    /\ contracts_terms c' = "one room"
    /\ contracts_duration c' = "3-6 months"
    /\ contracts_startDate c' = None
    /\ contracts_endDate c' = None
    /\ contracts_createdAt c' = Some 100
    /\ (contracts_refugeeSignedAt contract1 <> None ->
        contracts_refugeeSignedAt c' <> None)
    /\ (contracts_hostSignedAt contract1 <> None ->
        contracts_hostSignedAt c' <> None)
    /\ (contracts_status c' = proposed \/ contracts_status c' = completed).
Proof.
  apply (stored_contract_keeps_its_proposal
           [POST_contracts_sign 200 1 "bob";
            POST_contracts 250 "mallory" completed_proposal;
            POST_contracts_sign 300 1 "mallory";
            POST_contracts_approve 400 1 "admin"] db1 0%nat contract1).
  reflexivity.
Defined.

(** X17.  No sequence of requests deletes a stored notification, moves it
    to another recipient or edits its title, content, type or creation
    time; and a notification that has been read is never unread again. *)
Theorem stored_notification_stays_read rs db n x :
  nth_error (notifications db) n = Some x ->
  exists x',
    nth_error (notifications (run rs db)) n = Some x'
    /\ notifications_id x' = notifications_id x
    /\ notifications_userId x' = notifications_userId x
    /\ notifications_title x' = notifications_title x
    /\ notifications_content x' = notifications_content x
    /\ notifications_type x' = notifications_type x
    /\ notifications_createdAt x' = notifications_createdAt x
    /\ (notifications_read x = Some true -> notifications_read x' = Some true).
Proof.
  intros Hn. destruct (run_evolves rs db) as [_ [Hx _]].
  destruct (Hx n x Hn) as [x' [Hn' Hk]]. exists x'. split; [exact Hn'|].
  exact Hk.
Qed.

Lemma stored_notification_stays_read_witness :
  let read_once := after (post_api_notifications_read 1 "bob" db1) in
  exists x',
    nth_error
      (notifications
         (run [POST_contracts_sign 200 1 "bob";
               POST_notifications_read 1 "alice";
               POST_contracts_approve 400 1 "admin"] read_once)) 0
    = Some x'
    /\ notifications_id x' = 1
    /\ notifications_userId x' = "bob"
    /\ notifications_title x' = "New Contract Proposal"
    /\ notifications_content x' = "You have received a new contract proposal"
    /\ notifications_type x' = "contract"
    /\ notifications_createdAt x' = Some 100
    /\ (Some true = Some true -> notifications_read x' = Some true).
Proof.
  intros read_once.
  apply (stored_notification_stays_read
           [POST_contracts_sign 200 1 "bob";
            POST_notifications_read 1 "alice";
            POST_contracts_approve 400 1 "admin"] read_once 0%nat
           {| notifications_id := 1;
              notifications_userId := "bob";
              notifications_title := "New Contract Proposal";
              notifications_content :=
                "You have received a new contract proposal";
              notifications_type := "contract";
              notifications_read := Some true;
              notifications_createdAt := Some 100 |}).
  reflexivity.
Defined.

(** X18.  Messages and profiles are append-only for the handlers: whatever
    requests are served, the stored messages, refugee profiles and host
    profiles are all still there, unchanged and in their order, followed
    by the rows added since.  In particular no request changes the status
    or readAt of a stored message. *)
Theorem messages_and_profiles_are_append_only rs db :
  (exists added, messages (run rs db) = (messages db ++ added)%list)
  /\ (exists added,
      refugeeProfiles (run rs db) = (refugeeProfiles db ++ added)%list)
  /\ (exists added,
      hostProfiles (run rs db) = (hostProfiles db ++ added)%list).
Proof.
  destruct (run_evolves rs db) as (_ & _ & Hm & Hr & Hh).
  split; [exact Hm|]. split; [exact Hr|exact Hh].
Qed.

(** ** Profiles: submit, then read *)

Lemma find_unmatched {A} (p : A -> bool) l :
  (forall y, In y l -> p y = false) -> find p l = None.
Proof.
  induction l as [|y l IH]; simpl; intros H; [reflexivity|].
  rewrite (H y (or_introl eq_refl)). apply IH. intros z Hz. apply H.
  right. exact Hz.
Qed.

(** X19.  The first profile of a user can be read back.  For a known user
    without a refugee profile, GET /api/profiles/refugee/:userId answers
    with no profile; after that user's submission of a form that passes the
    schema and holds no U+0000 it answers with the profile just stored:
    the fields of the form, the user's id, the next profile id and the
    time of the submission.  The same holds for host profiles. *)
Theorem first_profile_round_trip now sub first_name body db :
  references_user db sub = true ->
  (forall p,
   insertRefugeeProfileSchema_parse body = Some p ->
   refugee_text p sub = true ->
   (forall q, In q (refugeeProfiles db) -> refugeeProfiles_userId q <> sub) ->
   let db' := after (post_api_profiles_refugee now sub first_name body db) in
   get_api_profiles_refugee sub db = (answer_json None, db)
   /\ get_api_profiles_refugee sub db'
      = (answer_json
           (Some
              {| refugeeProfiles_id := refugeeProfiles_seq db;
                 refugeeProfiles_userId := sub;
                 refugeeProfiles_familySize := irp_familySize p;
                 refugeeProfiles_estimatedStay := irp_estimatedStay p;
                 refugeeProfiles_medicalNeeds := irp_medicalNeeds p;
                 refugeeProfiles_specialRequirements :=
                   irp_specialRequirements p;
                 refugeeProfiles_languages := irp_languages p;
                 refugeeProfiles_countryOfOrigin := irp_countryOfOrigin p;
                 refugeeProfiles_phoneNumber := irp_phoneNumber p;
                 refugeeProfiles_emergencyContact := irp_emergencyContact p;
                 refugeeProfiles_additionalInfo := irp_additionalInfo p;
                 refugeeProfiles_createdAt := Some now;
                 refugeeProfiles_updatedAt := Some now |}), db'))
  /\ (forall p,
      insertHostProfileSchema_parse body = Some p ->
      host_text p sub = true ->
      (forall q, In q (hostProfiles db) -> hostProfiles_userId q <> sub) ->
      let db' := after (post_api_profiles_host now sub first_name body db) in
      get_api_profiles_host sub db = (answer_json None, db)
      /\ get_api_profiles_host sub db'
         = (answer_json
              (Some
                 {| hostProfiles_id := hostProfiles_seq db;
                    hostProfiles_userId := sub;
                    hostProfiles_accommodationType := ihp_accommodationType p;
                    hostProfiles_maxOccupants := ihp_maxOccupants p;
                    hostProfiles_availabilityDuration :=
                      ihp_availabilityDuration p;
                    hostProfiles_description := ihp_description p;
                    hostProfiles_houseRules := ihp_houseRules p;
                    hostProfiles_amenities := ihp_amenities p;
                    hostProfiles_location := ihp_location p;
                    hostProfiles_address := ihp_address p;
                    hostProfiles_phoneNumber := ihp_phoneNumber p;
                    hostProfiles_petFriendly := ihp_petFriendly p;
                    hostProfiles_smokingAllowed := ihp_smokingAllowed p;
                    hostProfiles_accessibilityFeatures :=
                      ihp_accessibilityFeatures p;
                    hostProfiles_criminalRecordChecked :=
                      ihp_criminalRecordChecked p;
                    hostProfiles_backgroundCheckDate :=
                      ihp_backgroundCheckDate p;
                    hostProfiles_additionalInfo := ihp_additionalInfo p;
                    hostProfiles_createdAt := Some now;
                    hostProfiles_updatedAt := Some now |}), db')).
Proof.
  intros Href. split.
  - intros p Hp Htext Hnone db'.
    assert (Hmiss : forall q, In q (refugeeProfiles db) ->
                    String.eqb (refugeeProfiles_userId q) sub = false)
      by (intros q Hq; apply String.eqb_neq; auto).
    split.
    + unfold get_api_profiles_refugee, try_answer, bind, getRefugeeProfile,
        ret.
      rewrite (find_unmatched _ _ Hmiss). reflexivity.
    + unfold get_api_profiles_refugee, try_answer, bind, getRefugeeProfile,
        ret.
      subst db'. unfold post_api_profiles_refugee. unfold_async.
      rewrite Hp. cbv beta iota. unfold createRefugeeProfile.
      rewrite Htext, Href. cbn [negb]. cbv beta iota zeta.
      match goal with
      | |- context [createNotification ?t ?n ?d] =>
          pose proof (createNotification_keeps refugeeProfiles t n
                        (fun _ _ => eq_refl) (fun _ => eq_refl) d) as Hk;
          destruct (createNotification t n d) as [[x|e] db'']
      end; simpl in Hk; cbn [snd]; rewrite Hk;
        rewrite find_app_fresh;
        try reflexivity; try exact Hmiss; apply String.eqb_refl.
  - intros p Hp Htext Hnone db'.
    assert (Hmiss : forall q, In q (hostProfiles db) ->
                    String.eqb (hostProfiles_userId q) sub = false)
      by (intros q Hq; apply String.eqb_neq; auto).
    split.
    + unfold get_api_profiles_host, try_answer, bind, getHostProfile, ret.
      rewrite (find_unmatched _ _ Hmiss). reflexivity.
    + unfold get_api_profiles_host, try_answer, bind, getHostProfile, ret.
      subst db'. unfold post_api_profiles_host. unfold_async.
      rewrite Hp. cbv beta iota. unfold createHostProfile.
      rewrite Htext, Href. cbn [negb]. cbv beta iota zeta.
      match goal with
      | |- context [createNotification ?t ?n ?d] =>
          pose proof (createNotification_keeps hostProfiles t n
                        (fun _ _ => eq_refl) (fun _ => eq_refl) d) as Hk;
          destruct (createNotification t n d) as [[x|e] db'']
      end; simpl in Hk; cbn [snd]; rewrite Hk;
        rewrite find_app_fresh;
        try reflexivity; try exact Hmiss; apply String.eqb_refl.
Qed.

Lemma first_profile_round_trip_witness :
  let db' := after (post_api_profiles_refugee 100 "alice" None refugee_form db0) in
  get_api_profiles_refugee "alice" db0 = (answer_json None, db0)
  /\ exists row,
       get_api_profiles_refugee "alice" db' = (answer_json (Some row), db')
       /\ refugeeProfiles_userId row = "alice"
       /\ refugeeProfiles_familySize row = 3
       /\ refugeeProfiles_createdAt row = Some 100.
Proof.
  intros db'.
  destruct (proj1 (first_profile_round_trip 100 "alice" None refugee_form db0
                     eq_refl)
              {| irp_familySize := 3;
                 irp_estimatedStay := "3-6 months";
                 irp_medicalNeeds := None;
                 irp_specialRequirements := None;
                 irp_languages := None;
                 irp_countryOfOrigin := None;
                 irp_phoneNumber := None;
                 irp_emergencyContact := None;
                 irp_additionalInfo := None |}
              eq_refl eq_refl
              (fun q (H : In q []) => match H with end)) as [H1 H2].
  split; [exact H1|]. eexists. split; [exact H2|].
  repeat split; reflexivity.
Defined.

(** ** Marking a message as read *)

Section OrderByMap.
Context {A : Type} (key : A -> option Timestamp) (f : A -> A).
Hypothesis key_f : forall x, key (f x) = key x.




End OrderByMap.





(** ** upsertUser *)

Lemma find_map_hit {A} (p : A -> bool) (f : A -> A) l :
  (forall x, p x = true -> p (f x) = true) ->
  find p (map (fun x => if p x then f x else x) l) = option_map f (find p l).
Proof.
  intros Hp. induction l as [|x l IH]; simpl; [reflexivity|].
  destruct (p x) eqn:E.
  - rewrite (Hp x E). reflexivity.
  - rewrite E. exact IH.
Qed.

Lemma upserted_row_id now userData x :
  users_id
    (if String.eqb (users_id x) (uu_id userData)
     then updated_user now userData x else x)
  = users_id x.
Proof.
  destruct (String.eqb (users_id x) (uu_id userData)) eqn:E; [|reflexivity].
  apply String.eqb_eq in E. simpl. congruence.
Qed.

(** X21.  Upserting a user who exists rewrites that user and no other, and
    writes only the keys it is given (and updatedAt, which takes the time
    of the call): every column whose key the call leaves out, email, first
    name, last name, image, role, profile_status and createdAt alike, stays
    what it was, so an upsert that carries only an identity cannot undo a
    review.  Every other user is in the table as before, no user is added,
    and [getUser] then returns the row that [upsertUser] returned. *)
Theorem upsert_existing_user_keeps_what_is_left_out
    now userData db u0 u db' :
  findUser db (uu_id userData) = Some u0 ->
  upsertUser now userData db = (Upserted u, db') ->
  findUser db' (uu_id userData) = Some u
  /\ users_id u = users_id u0
  /\ users_email u = or_else (uu_email userData) (users_email u0)
  /\ users_firstName u = or_else (uu_firstName userData) (users_firstName u0)
  /\ users_lastName u = or_else (uu_lastName userData) (users_lastName u0)
  /\ users_profileImageUrl u
     = or_else (uu_profileImageUrl userData) (users_profileImageUrl u0)
  /\ users_role u = or_else (uu_role userData) (users_role u0)
  /\ users_profileStatus u
     = or_else (uu_profileStatus userData) (users_profileStatus u0)
  /\ users_createdAt u = or_else (uu_createdAt userData) (users_createdAt u0)
  /\ users_updatedAt u = Some now
  /\ (uu_profileStatus userData = None ->
      is_approved (findUser db' (uu_id userData))
      = is_approved (findUser db (uu_id userData)))
  /\ (forall id, id <> uu_id userData -> findUser db' id = findUser db id)
  /\ (forall x, In x (users db) -> users_id x <> uu_id userData ->
      In x (users db'))
  /\ (forall x, In x (users db') -> users_id x <> uu_id userData ->
      In x (users db))
  /\ List.length (users db') = List.length (users db).
Proof.
  intros Hu0. unfold upsertUser.
  destruct (negb (upsert_text userData)); [discriminate|].
  destruct (email_taken db (uu_id userData) (uu_email userData));
    [discriminate|].
  rewrite Hu0. intros H. inversion H; subst u db'. clear H.
  assert (Hid0 : users_id u0 = uu_id userData).
  { apply find_some in Hu0. apply String.eqb_eq. tauto. }
  assert (Hfind : findUser
                    (set_users db
                       (map (fun x =>
                               if String.eqb (users_id x) (uu_id userData)
                               then updated_user now userData x else x)
                          (users db)))
                    (uu_id userData)
                  = Some (updated_user now userData u0)).
  { unfold findUser in *. cbn [users set_users].
    rewrite (find_map_hit
               (fun x => String.eqb (users_id x) (uu_id userData))
               (updated_user now userData)).
    - rewrite Hu0. reflexivity.
    - intros x _. simpl. apply String.eqb_refl. }
  split; [exact Hfind|].
  split; [simpl; congruence|].
  do 8 (split; [reflexivity|]).
  split; [|split; [|split; [|split]]].
  - intros E. rewrite Hfind. unfold is_approved.
    cbn [users_profileStatus updated_user]. rewrite E. reflexivity.
  - intros id Hid. unfold findUser. cbn [users set_users].
    rewrite find_map_keeping.
    + destruct (find (fun x => String.eqb (users_id x) id) (users db))
        as [x|] eqn:E; [|reflexivity].
      simpl. apply find_some in E. destruct E as [_ E].
      apply String.eqb_eq in E.
      destruct (String.eqb (users_id x) (uu_id userData)) eqn:F;
        [|reflexivity].
      apply String.eqb_eq in F. congruence.
    + intros x. rewrite upserted_row_id. reflexivity.
  - intros x Hin Hid. cbn [users set_users]. apply in_map_iff. exists x.
    split; [|exact Hin]. apply String.eqb_neq in Hid. rewrite Hid.
    reflexivity.
  - intros x Hin Hid. cbn [users set_users] in Hin.
    apply in_map_iff in Hin. destruct Hin as [y [Hy Hin]].
    destruct (String.eqb (users_id y) (uu_id userData)) eqn:F.
    + subst x. simpl in Hid. contradiction.
    + subst x. exact Hin.
  - cbn [users set_users]. apply length_map.
Qed.

Lemma upsert_existing_user_keeps_what_is_left_out_witness :
  let r := upsertUser 700 (identity_only "bob" (Some "bob@example.org")
                              (Some "Bob") None) db0 in
  option_map users_role (findUser (snd r) "bob") = Some host
  /\ option_map users_profileStatus (findUser (snd r) "bob") = Some approved
  /\ option_map users_email (findUser (snd r) "bob")
     = Some (Some "bob@example.org")
  /\ option_map users_profileImageUrl (findUser (snd r) "bob")
     = Some (users_profileImageUrl bob)
  /\ option_map users_createdAt (findUser (snd r) "bob")
     = Some (users_createdAt bob)
  /\ findUser (snd r) "alice" = findUser db0 "alice".
Proof.
  intros r.
  destruct (upsert_existing_user_keeps_what_is_left_out
              700 (identity_only "bob" (Some "bob@example.org")
                     (Some "Bob") None)
              db0 bob
              (updated_user 700
                 (identity_only "bob" (Some "bob@example.org")
                    (Some "Bob") None) bob)
              (snd r) eq_refl eq_refl)
    as (Hf & _ & He & _ & _ & Hi & Hr & Hs & Hc & _ & _ & Ho & _).
  cbn [uu_id identity_only] in Hf, Ho. rewrite Hf.
  cbn [option_map]. rewrite Hr, Hs, He, Hi, Hc.
  repeat (split; [reflexivity|]). apply Ho. discriminate.
Defined.

(** X22.  Upserting a user who does not exist appends exactly that user.
    Left to the defaults, the new user is a refugee whose profile_status
    is pending, created at the time of the call; [getUser] returns the
    row, and the user's GET /api/hosts/available is answered 403 until a
    review approves. *)
Theorem upsert_new_user_starts_pending now userData db u db' :
  findUser db (uu_id userData) = None ->
  upsertUser now userData db = (Upserted u, db') ->
  users db' = (users db ++ [u])%list
  /\ findUser db' (uu_id userData) = Some u
  /\ users_id u = uu_id userData
  /\ (uu_role userData = None -> users_role u = refugee)
  /\ (uu_createdAt userData = None -> users_createdAt u = Some now)
  /\ (uu_profileStatus userData = None ->
      users_profileStatus u = pending
      /\ get_api_hosts_available (uu_id userData) db'
         = (res_status 403 "Profile must be approved to view hosts", db')).
Proof.
  intros Hnone. unfold upsertUser.
  destruct (negb (upsert_text userData)); [discriminate|].
  destruct (email_taken db (uu_id userData) (uu_email userData));
    [discriminate|].
  rewrite Hnone. cbv zeta. intros H. inversion H; subst u db'. clear H.
  assert (Hfind : findUser
                    (set_users db (users db ++ [inserted_user now userData]))
                    (uu_id userData)
                  = Some (inserted_user now userData)).
  { unfold findUser. cbn [users set_users]. apply find_app_fresh.
    - intros y Hy. exact (find_none _ _ Hnone y Hy).
    - simpl. apply String.eqb_refl. }
  split; [reflexivity|]. split; [exact Hfind|]. split; [reflexivity|].
  split; [intros E; simpl; rewrite E; reflexivity|].
  split; [intros E; simpl; rewrite E; reflexivity|].
  intros E. split; [simpl; rewrite E; reflexivity|].
  unfold get_api_hosts_available. unfold_async. rewrite Hfind.
  unfold is_approved. cbn [users_profileStatus inserted_user].
  rewrite E. reflexivity.
Qed.

Lemma upsert_new_user_starts_pending_witness :
  let userData := identity_only "erin" (Some "erin@example.org") None None in
  let r := upsertUser 700 userData db0 in
  users (snd r) = (users db0 ++ [inserted_user 700 userData])%list
  /\ users_role (inserted_user 700 userData) = refugee
  /\ users_profileStatus (inserted_user 700 userData) = pending
  /\ get_api_hosts_available "erin" (snd r)
     = (res_status 403 "Profile must be approved to view hosts", snd r).
Proof.
  intros userData r.
  destruct (upsert_new_user_starts_pending 700 userData db0
              (inserted_user 700 userData) (snd r) eq_refl eq_refl)
    as (Hu & _ & _ & Hr & _ & Hs).
  destruct (Hs eq_refl) as [Hp Hg].
  split; [exact Hu|]. split; [exact (Hr eq_refl)|].
  split; [exact Hp|exact Hg].
Defined.

(** ** What the profile forms must carry *)

(** X23.  A refugee form must carry familySize as a 32-bit integer and
    estimatedStay as a string; a host form must carry accommodationType,
    availabilityDuration and location as strings and maxOccupants as a
    32-bit integer.  A form in which one of them is missing or of another
    type is answered 400 and nothing is stored.  Every other field may be
    left out: a form with just these fields passes, its other columns
    empty and the three boolean columns of a host false. *)
Theorem profile_forms_required_fields now sub first_name body db :
  (zInteger (field body "familySize") = None
   \/ zString (field body "estimatedStay") = None ->
   post_api_profiles_refugee now sub first_name body db
   = (res_status 400 "Failed to create profile", db))
  /\ (zString (field body "accommodationType") = None
      \/ zInteger (field body "maxOccupants") = None
      \/ zString (field body "availabilityDuration") = None
      \/ zString (field body "location") = None ->
      post_api_profiles_host now sub first_name body db
      = (res_status 400 "Failed to create profile", db))
  /\ (forall n s,
      (-2147483648 <= n <= 2147483647)%Z ->
      insertRefugeeProfileSchema_parse
        [("familySize", JInt n); ("estimatedStay", JString s)]
      = Some {| irp_familySize := n;
                irp_estimatedStay := s;
                irp_medicalNeeds := None;
                irp_specialRequirements := None;
                irp_languages := None;
                irp_countryOfOrigin := None;
                irp_phoneNumber := None;
                irp_emergencyContact := None;
                irp_additionalInfo := None |})
  /\ (forall type n duration location,
      (-2147483648 <= n <= 2147483647)%Z ->
      insertHostProfileSchema_parse
        [("accommodationType", JString type); ("maxOccupants", JInt n);
         ("availabilityDuration", JString duration);
         ("location", JString location)]
      = Some {| ihp_accommodationType := type;
                ihp_maxOccupants := n;
                ihp_availabilityDuration := duration;
                ihp_description := None;
                ihp_houseRules := None;
                ihp_amenities := None;
                ihp_location := location;
                ihp_address := None;
                ihp_phoneNumber := None;
                ihp_petFriendly := Some false;
                ihp_smokingAllowed := Some false;
                ihp_accessibilityFeatures := None;
                ihp_criminalRecordChecked := Some false;
                ihp_backgroundCheckDate := None;
                ihp_additionalInfo := None |}).
Proof.
  split; [|split; [|split]].
  - intros H. unfold post_api_profiles_refugee. unfold_async.
    rewrite (refugee_form_required body H). reflexivity.
  - intros H. unfold post_api_profiles_host. unfold_async.
    rewrite (host_form_required body H). reflexivity.
  - intros n s [Hlo Hhi]. unfold insertRefugeeProfileSchema_parse.
    cbn [field String.eqb Ascii.eqb Bool.eqb]. unfold zInteger.
    apply Z.leb_le in Hlo. apply Z.leb_le in Hhi. rewrite Hlo, Hhi.
    reflexivity.
  - intros type n duration location [Hlo Hhi].
    unfold insertHostProfileSchema_parse.
    cbn [field String.eqb Ascii.eqb Bool.eqb]. unfold zInteger.
    apply Z.leb_le in Hlo. apply Z.leb_le in Hhi. rewrite Hlo, Hhi.
    reflexivity.
Qed.

Lemma profile_forms_required_fields_witness :
  post_api_profiles_refugee 100 "alice" None
    [("familySize", JString "three"); ("estimatedStay", JString "1-3 months")]
    db0
  = (res_status 400 "Failed to create profile", db0)
  /\ post_api_profiles_host 100 "bob" None
       [("accommodationType", JString "room"); ("maxOccupants", JInt 2);
        ("availabilityDuration", JString "6-12 months")]
       db0
     = (res_status 400 "Failed to create profile", db0)
  /\ insertRefugeeProfileSchema_parse refugee_form <> None.
Proof.
  split; [|split].
  - apply (proj1 (profile_forms_required_fields 100 "alice" None _ db0)).
    left. reflexivity.
  - apply (proj1 (proj2 (profile_forms_required_fields 100 "bob" None _ db0))).
    right. right. right. reflexivity.
  - unfold refugee_form.
    rewrite (proj1 (proj2 (proj2 (profile_forms_required_fields
                                    100 "alice" None [] db0)))
               3%Z "3-6 months" ltac:(lia)).
    discriminate.
Defined.

(** ** Approved refugees *)

(** X24.  [getApprovedRefugees] returns exactly the pairs of a user with
    role refugee and profile_status approved and a refugee profile whose
    userId is that user's id; it never lists a user who is pending or
    rejected, a host or an administrator, and it writes nothing. *)
Theorem getApprovedRefugees_is_inner_join db :
  exists l,
    getApprovedRefugees db = (Returned l, db)
    /\ forall u p,
         In (u, p) l
         <-> In u (users db)
             /\ users_role u = refugee
             /\ users_profileStatus u = approved
             /\ In p (refugeeProfiles db)
             /\ refugeeProfiles_userId p = users_id u.
Proof.
  exists (approvedRefugees db). split; [reflexivity|].
  intros u p. unfold approvedRefugees. rewrite in_flat_map. split.
  - intros [u0 [Hu0 Hin]].
    destruct (ProfileStatus_eqb (users_profileStatus u0) approved) eqn:Hs;
      [|destruct Hin].
    destruct (UserRole_eqb (users_role u0) refugee) eqn:Hr; [|destruct Hin].
    simpl in Hin. apply in_map_iff in Hin.
    destruct Hin as [p0 [Heq Hp0]]. inversion Heq; subst u0 p0.
    apply filter_In in Hp0. destruct Hp0 as [Hp Hid].
    apply String.eqb_eq in Hid.
    repeat split; auto.
    + destruct (users_role u); simpl in Hr; congruence.
    + destruct (users_profileStatus u); simpl in Hs; congruence.
  - intros [Hu [Hr [Hs [Hp Hid]]]]. exists u. split; [exact Hu|].
    rewrite Hr, Hs. simpl. apply in_map_iff. exists p. split; [reflexivity|].
    apply filter_In. split; [exact Hp|]. apply String.eqb_eq. auto.
Qed.

(** ** Conversations from both ends *)



(** ** Submissions and proposals *)

(** X26.  Submitting a profile never touches the users table: it changes
    nobody's profile_status or role, so a pending user stays pending and a
    rejected user who submits again stays rejected. *)
Theorem submission_leaves_users_alone now sub first_name body db :
  users (after (post_api_profiles_refugee now sub first_name body db))
  = users db
  /\ users (after (post_api_profiles_host now sub first_name body db))
     = users db
  /\ (forall id,
      findUser (after (post_api_profiles_refugee now sub first_name body db)) id
      = findUser db id)
  /\ (forall id,
      findUser (after (post_api_profiles_host now sub first_name body db)) id
      = findUser db id).
Proof.
  assert (H1 : users (after (post_api_profiles_refugee now sub first_name body db))
               = users db).
  { unfold post_api_profiles_refugee.
    rewrite (keeps_try_catch users); [reflexivity|frame_any]. }
  assert (H2 : users (after (post_api_profiles_host now sub first_name body db))
               = users db).
  { unfold post_api_profiles_host.
    rewrite (keeps_try_catch users); [reflexivity|frame_any]. }
  split; [exact H1|]. split; [exact H2|]. split.
  - intros id. unfold findUser. rewrite H1. reflexivity.
  - intros id. unfold findUser. rewrite H2. reflexivity.
Qed.

(** X27.  A proposal is stored with its notification or not at all.
    Either the answer is 400 and every table is as it was, or the answer
    is the new contract and the database has gained exactly that contract
    and one unread notification "New Contract Proposal", addressed to the
    contract's host when the caller is a refugee and to the contract's
    refugee otherwise. *)
Theorem proposal_is_all_or_nothing now sub body db :
  (result (post_api_contracts now sub body db)
   = res_status 400 "Failed to create contract"
   /\ same_rows db (after (post_api_contracts now sub body db)))
  \/ exists c,
       post_api_contracts now sub body db
       = (res_json (json_contract c),
          insert_notification (insert_contract db c)
            {| notifications_id := notifications_seq db;
               notifications_userId :=
                 if is_role refugee (findUser db sub)
                 then contracts_hostId c else contracts_refugeeId c;
               notifications_title := "New Contract Proposal";
               notifications_content :=
                 "You have received a new contract proposal";
               notifications_type := "contract";
               notifications_read := Some false;
               notifications_createdAt := Some now |})
       /\ references_user db (contracts_refugeeId c) = true
       /\ references_user db (contracts_hostId c) = true.
Proof.
  rewrite post_api_contracts_eq.
  destruct (insertContractSchema_parse body) as [parsed|];
    [|left; repeat split; reflexivity].
  cbv zeta. set (cd := contractData_of db sub parsed).
  unfold createContract.
  destruct (negb (contract_text cd)); [left; repeat split; reflexivity|].
  destruct (references_user db (ic_refugeeId cd)) eqn:Hr;
    [|left; repeat split; reflexivity].
  destruct (references_user db (ic_hostId cd)) eqn:Hh;
    [|left; repeat split; reflexivity].
  cbn [andb]. right.
  set (c := {| contracts_id := contracts_seq db;
               contracts_refugeeId := ic_refugeeId cd;
               contracts_hostId := ic_hostId cd;
               contracts_status := ic_status cd;
               contracts_terms := ic_terms cd;
               contracts_duration := ic_duration cd;
               contracts_startDate := ic_startDate cd;
               contracts_endDate := ic_endDate cd;
               contracts_refugeeSignedAt := None;
               contracts_hostSignedAt := None;
               contracts_adminApprovedAt := None;
               contracts_adminApprovedBy := None;
               contracts_createdAt := Some now;
               contracts_updatedAt := Some now |}).
  exists c.
  unfold createNotification, notification_text, notification,
    notifyUserId_of.
  cbn [in_userId in_title in_content in_type in_read].
  assert (Hn : references_user (insert_contract db c)
                 (if is_role refugee (findUser db sub)
                  then ic_hostId cd else ic_refugeeId cd) = true).
  { unfold references_user in *. cbn [users insert_contract].
    destruct (is_role refugee (findUser db sub)); assumption. }
  rewrite Hn. rewrite orb_true_r. text_constants. cbn [andb negb].
  split; [reflexivity|]. split; assumption.
Qed.

(** X28.  A review that names a user who does not exist is answered 500
    and leaves every table as it was: no row is updated, and the
    notification for the unknown user is refused. *)
Theorem review_of_unknown_user now sub userId (approved_ : bool) db :
  is_role admin (findUser db sub) = true ->
  findUser db userId = None ->
  result (post_api_admin_approve_profile now sub userId approved_ db)
  = res_status 500 "Failed to update profile"
  /\ same_rows db
       (after (post_api_admin_approve_profile now sub userId approved_ db)).
Proof.
  intros Hadm Hnone. unfold post_api_admin_approve_profile. unfold_async.
  rewrite Hadm. change (negb true) with false. cbv beta iota zeta.
  unfold updateProfileStatus. cbv beta iota zeta.
  rewrite (map_unmatched (fun u => String.eqb (users_id u) userId))
    by exact Hnone.
  replace (set_users db (users db)) with db by (destruct db; reflexivity).
  unfold createNotification, notification. cbn [in_userId].
  unfold references_user. unfold findUser in Hnone.
  rewrite (find_none_existsb _ _ Hnone).
  match goal with
  | |- context [negb (notification_text ?d ?n)] =>
      destruct (negb (notification_text d n))
  end; repeat split; reflexivity.
Qed.

Lemma review_of_unknown_user_witness :
  result (post_api_admin_approve_profile 50 "admin" "nobody" true db0)
  = res_status 500 "Failed to update profile"
  /\ same_rows db0
       (after (post_api_admin_approve_profile 50 "admin" "nobody" true db0)).
Proof.
  apply (review_of_unknown_user 50 "admin" "nobody" true db0); reflexivity.
Defined.
